(** * CI-CD-Agent: the repair loop, the fix dispatcher and the sandbox endpoint

    A shallow embedding of
      - [backend/app/fixer.py]          (class [FixEngine]),
      - [backend/app/git_utils.py]      (class [GitHandler]),
      - [backend/app/docker_runner.py]  (class [DockerRunner]),
      - [backend/docker/agent_server.py]
    followed by the properties of the design document that concern them.

    Conventions.  Python [str] values are Rocq strings; a character is a code
    point below 256, and the character classes below ([isspace], [\w],
    [lower]) are Python's on that range.  Python [int]s are [Z].  A method
    that reads or writes something outside its own locals is a function of
    the state it touches and returns the new state next to its result; a
    method that can raise returns a [Res]. *)

From Stdlib Require Import String Ascii ZArith List Bool Lia DecimalString.
From stdpp Require Import base option gmap strings list.

Import ListNotations.
Local Open Scope string_scope.
Local Open Scope Z_scope.

(** Let [simpl] compute the concatenation of strings. *)
Arguments String.append !s1 s2 : simpl nomatch.

(** ** Python strings *)

Module Py.

Definition code (c : ascii) : N := N_of_ascii c.

Definition LF : ascii := "010"%char.
Definition CR : ascii := "013"%char.
Definition TAB : ascii := "009"%char.

(** [str.isspace] on one character (also the class [\s] of [re]). *)
Definition isspace (c : ascii) : bool :=
  let n := code c in
  ((9 <=? n) && (n <=? 13) || (28 <=? n) && (n <=? 32)
   || (n =? 133) || (n =? 160))%N.

(** The class [\w] of [re] for [str] patterns: alphanumeric or underscore. *)
Definition isword (c : ascii) : bool :=
  let n := code c in
  ((48 <=? n) && (n <=? 57) || (65 <=? n) && (n <=? 90)
   || (97 <=? n) && (n <=? 122) || (n =? 95)
   || (n =? 170) || (n =? 178) || (n =? 179) || (n =? 181)
   || (n =? 185) || (n =? 186) || (188 <=? n) && (n <=? 190)
   || (192 <=? n) && (n <=? 214) || (216 <=? n) && (n <=? 246)
   || (248 <=? n))%N.

Definition lower_char (c : ascii) : ascii :=
  let n := code c in
  if ((65 <=? n) && (n <=? 90)
      || (192 <=? n) && (n <=? 222) && negb (n =? 215))%N
  then ascii_of_N (n + 32) else c.

(** [s.lower()] *)
Fixpoint lower (s : string) : string :=
  match s with
  | EmptyString => EmptyString
  | String c s' => String (lower_char c) (lower s')
  end.

Definition upper_char (c : ascii) : ascii :=
  let n := code c in
  if ((97 <=? n) && (n <=? 122)
      || (224 <=? n) && (n <=? 254) && negb (n =? 247))%N
  then ascii_of_N (n - 32) else c.

(** The letters whose capital is not one code point below 256: the micro
    sign (181, capital U+039C), the sharp s (223, capital [SS]) and the y
    with diaeresis (255, capital U+0178). *)
Definition capital_in_range (c : ascii) : bool :=
  let n := code c in
  negb ((n =? 181) || (n =? 223) || (n =? 255))%N.

Fixpoint capitals_in_range (s : string) : bool :=
  match s with
  | EmptyString => true
  | String c s' => capital_in_range c && capitals_in_range s'
  end.

(** [s.upper()], for a string [s] with [capitals_in_range s]: on the three
    letters above the result of [str.upper] is not a string of the model,
    and [upper] leaves them as they are. *)
Fixpoint upper (s : string) : string :=
  match s with
  | EmptyString => EmptyString
  | String c s' => String (upper_char c) (upper s')
  end.

(** [s.startswith(p)] *)
Definition startswith (p s : string) : bool := String.prefix p s.

(** [s.endswith(suf)] *)
Fixpoint endswith (suf s : string) : bool :=
  String.eqb s suf ||
  match s with
  | EmptyString => false
  | String _ s' => endswith suf s'
  end.

(** [sub in s] *)
Fixpoint contains (sub s : string) : bool :=
  String.prefix sub s ||
  match s with
  | EmptyString => false
  | String _ s' => contains sub s'
  end.

(** [c in s] for a single character *)
Definition has_char (c : ascii) (s : string) : bool :=
  contains (String c EmptyString) s.

(** [s.lstrip()] *)
Fixpoint lstrip (s : string) : string :=
  match s with
  | EmptyString => EmptyString
  | String c s' => if isspace c then lstrip s' else s
  end.

(** [s.rstrip(chars)], the characters to drop given as a predicate *)
Fixpoint rstrip_by (p : ascii -> bool) (s : string) : string :=
  match s with
  | EmptyString => EmptyString
  | String c s' =>
      match rstrip_by p s' with
      | EmptyString => if p c then EmptyString else String c EmptyString
      | t => String c t
      end
  end.

(** [s.rstrip()] *)
Definition rstrip (s : string) : string := rstrip_by isspace s.

(** [s.strip()] *)
Definition strip (s : string) : string := lstrip (rstrip s).

(** [' ' * n] *)
Fixpoint spaces (n : nat) : string :=
  match n with
  | O => EmptyString
  | S n' => String " " (spaces n')
  end.

(** [len(s) - len(s.lstrip())]: the width of the leading whitespace *)
Definition indent_of (s : string) : nat :=
  (String.length s - String.length (lstrip s))%nat.

Definition snoc (s : string) (c : ascii) : string :=
  s ++ String c EmptyString.

(** [s.split(sep)] and [s.split(sep, maxsplit)] for a non-empty [sep]:
    [skip] counts the characters of a separator still to be dropped, [cur]
    is the piece being collected, [left] the number of splits still allowed
    ([None]: no limit). *)
Fixpoint split_go (sep : string) (skip : nat) (left : option nat)
    (cur s : string) : list string :=
  match s with
  | EmptyString => [cur]
  | String c s' =>
      match skip with
      | S k => split_go sep k left cur s'
      | O =>
          let allowed := match left with Some O => false | _ => true end in
          if allowed && String.prefix sep s
          then cur :: split_go sep (String.length sep - 1)
                        (match left with Some (S n) => Some n | o => o end)
                        EmptyString s'
          else split_go sep O left (snoc cur c) s'
      end
  end.

Definition split (sep s : string) : list string :=
  split_go sep O None EmptyString s.

Definition split_max (sep : string) (maxsplit : nat) (s : string) : list string :=
  split_go sep O (Some maxsplit) EmptyString s.

(** [s.count(sub)] for a non-empty [sub]: non-overlapping occurrences *)
Fixpoint count_go (sub : string) (skip : nat) (s : string) : Z :=
  match s with
  | EmptyString => 0
  | String _ s' =>
      match skip with
      | S k => count_go sub k s'
      | O => if String.prefix sub s
             then 1 + count_go sub (String.length sub - 1) s'
             else count_go sub O s'
      end
  end.

Definition count (sub s : string) : Z := count_go sub O s.

(** [s.replace(old, new)] for a non-empty [old] *)
Fixpoint replace_go (old new : string) (skip : nat) (s : string) : string :=
  match s with
  | EmptyString => EmptyString
  | String c s' =>
      match skip with
      | S k => replace_go old new k s'
      | O => if String.prefix old s
             then new ++ replace_go old new (String.length old - 1) s'
             else String c (replace_go old new O s')
      end
  end.

Definition replace (old new s : string) : string := replace_go old new O s.

(** [sep.join(l)] *)
Definition join (sep : string) (l : list string) : string := String.concat sep l.

(** [''.join(l)], what [f.writelines(l)] writes *)
Definition concat_lines (l : list string) : string := String.concat EmptyString l.

(** Text mode reading translates every line ending to a line feed. *)
Fixpoint universal_newlines (s : string) : string :=
  match s with
  | EmptyString => EmptyString
  | String c s' =>
      if Ascii.eqb c CR then
        String LF
          match s' with
          | String c' s'' =>
              if Ascii.eqb c' LF then universal_newlines s''
              else universal_newlines s'
          | EmptyString => EmptyString
          end
      else String c (universal_newlines s')
  end.

(** [f.readlines()] on text already read: lines keep their line feed *)
Fixpoint readlines_go (cur s : string) : list string :=
  match s with
  | EmptyString => match cur with EmptyString => [] | _ => [cur] end
  | String c s' =>
      if Ascii.eqb c LF then snoc cur c :: readlines_go EmptyString s'
      else readlines_go (snoc cur c) s'
  end.

Definition readlines (text : string) : list string :=
  readlines_go EmptyString (universal_newlines text).

(** [str(n)] for an [int] *)
Definition str_of_int (n : Z) : string := NilZero.string_of_int (Z.to_int n).

(** *** Lists indexed the Python way *)

(** [l[i]]: [None] stands for [IndexError] *)
Definition index {A} (l : list A) (i : Z) : option A :=
  let n := Z.of_nat (length l) in
  if (0 <=? i) && (i <? n) then l !! Z.to_nat i
  else if (- n <=? i) && (i <? 0) then l !! Z.to_nat (n + i)
  else None.

(** [l[i] = x] *)
Definition set_index {A} (l : list A) (i : Z) (x : A) : option (list A) :=
  let n := Z.of_nat (length l) in
  if (0 <=? i) && (i <? n) then Some (<[Z.to_nat i := x]> l)
  else if (- n <=? i) && (i <? 0) then Some (<[Z.to_nat (n + i) := x]> l)
  else None.

(** [l.insert(i, x)]: never raises, the position is clamped *)
Definition insert_at {A} (l : list A) (i : Z) (x : A) : list A :=
  let n := Z.of_nat (length l) in
  let j := if i <? 0 then Z.max 0 (n + i) else Z.min i n in
  take (Z.to_nat j) l ++ x :: drop (Z.to_nat j) l.

(** [del l[i]] *)
Definition del_index {A} (l : list A) (i : Z) : option (list A) :=
  let n := Z.of_nat (length l) in
  if (0 <=? i) && (i <? n) then Some (delete (Z.to_nat i) l)
  else if (- n <=? i) && (i <? 0) then Some (delete (Z.to_nat (n + i)) l)
  else None.

(** [os.path.join(a, p)] and [os.path.basename(p)] (POSIX) *)
Definition path_join (a p : string) : string :=
  if startswith "/" p then p
  else if String.eqb a EmptyString || endswith "/" a then a ++ p
  else a ++ "/" ++ p.

Fixpoint basename_go (cur s : string) : string :=
  match s with
  | EmptyString => cur
  | String c s' =>
      if Ascii.eqb c "/" then basename_go EmptyString s'
      else basename_go (snoc cur c) s'
  end.

Definition basename (p : string) : string := basename_go EmptyString p.

End Py.


(** ** The fragment of Python's [re] the fixer uses

    A backtracking matcher with Python's priorities: alternatives left to
    right, greedy repetition longest first, lazy repetition shortest first. *)

Module Re.

Inductive regex : Type :=
| Eps                                   (* the empty pattern *)
| Chr (c : ascii)                       (* a literal character *)
| ChrI (c : ascii)                      (* a literal under re.IGNORECASE *)
| Cls (p : ascii -> bool)               (* a character class *)
| Seq (r1 r2 : regex)
| Alt (r1 r2 : regex)                   (* r1|r2 *)
| Star (greedy : bool) (r : regex)      (* r* and r*? *)
| Group (n : nat) (r : regex)           (* the n-th capturing group *)
| Eol                                   (* $ *)
| WordB.                                (* \b *)

Definition Plus (r : regex) : regex := Seq r (Star true r).       (* r+ *)
Definition Opt (r : regex) : regex := Alt r Eps.                  (* r? *)
Definition space : regex := Cls Py.isspace.                       (* \s *)
Definition word : regex := Cls Py.isword.                         (* \w *)
Definition dot : regex := Cls (fun c => negb (Ascii.eqb c Py.LF)). (* . *)
Definition notc (c : ascii) : regex :=                            (* [^c] *)
  Cls (fun a => negb (Ascii.eqb a c)).

(** A literal string, character by character. *)
Fixpoint lit (s : string) : regex :=
  match s with
  | EmptyString => Eps
  | String c s' => Seq (Chr c) (lit s')
  end.

Fixpoint litI (s : string) : regex :=
  match s with
  | EmptyString => Eps
  | String c s' => Seq (ChrI c) (litI s')
  end.

(** The matcher's position: the character before it, the text after it and
    the groups captured so far (latest first). *)
Record pos : Type := Pos {
  before : option ascii;
  rest : string;
  caps : list (nat * string)
}.

Definition step (c : ascii) (s' : string) (p : pos) : pos :=
  Pos (Some c) s' (caps p).

Definition take_str (n : nat) (s : string) : string := String.substring 0 n s.

Definition is_word_opt (o : option ascii) : bool :=
  match o with Some c => Py.isword c | None => false end.

Definition next_char (s : string) : option ascii :=
  match s with String c _ => Some c | EmptyString => None end.

Fixpoint run (r : regex) (p : pos) (k : pos -> option pos) : option pos :=
  match r with
  | Eps => k p
  | Chr c =>
      match rest p with
      | String a s' => if Ascii.eqb a c then k (step a s' p) else None
      | EmptyString => None
      end
  | ChrI c =>
      match rest p with
      | String a s' =>
          if Ascii.eqb (Py.lower_char a) (Py.lower_char c)
          then k (step a s' p) else None
      | EmptyString => None
      end
  | Cls f =>
      match rest p with
      | String a s' => if f a then k (step a s' p) else None
      | EmptyString => None
      end
  | Seq r1 r2 => run r1 p (fun p' => run r2 p' k)
  | Alt r1 r2 =>
      match run r1 p k with
      | Some q => Some q
      | None => run r2 p k
      end
  | Star greedy r1 =>
      (fix loop (fuel : nat) (p : pos) {struct fuel} : option pos :=
         match fuel with
         | O => k p
         | S fuel' =>
             let again :=
               run r1 p (fun p' =>
                 if (String.length (rest p') <? String.length (rest p))%nat
                 then loop fuel' p' else None) in
             if greedy
             then match again with Some q => Some q | None => k p end
             else match k p with Some q => Some q | None => again end
         end) (S (String.length (rest p))) p
  | Group n r1 =>
      run r1 p (fun p' =>
        let got := take_str (String.length (rest p) - String.length (rest p'))
                     (rest p) in
        k (Pos (before p') (rest p') ((n, got) :: caps p')))
  | Eol =>
      match rest p with
      | EmptyString => k p
      | String a EmptyString => if Ascii.eqb a Py.LF then k p else None
      | _ => None
      end
  | WordB =>
      if xorb (is_word_opt (before p)) (is_word_opt (next_char (rest p)))
      then k p else None
  end.

(** A match object: where it starts, the text matched, its groups and the
    text left after it. *)
Record found : Type := Found {
  start : nat;
  matched : string;
  groups : list (nat * string);
  after : string
}.

(** [m.group(n)] for a group that took part in the match *)
Fixpoint group_of (n : nat) (l : list (nat * string)) : string :=
  match l with
  | [] => EmptyString
  | (i, s) :: l' => if (i =? n)%nat then s else group_of n l'
  end.

Definition group (n : nat) (m : found) : string := group_of n (groups m).

Definition match_here (r : regex) (prev : option ascii) (s : string)
    : option pos :=
  run r (Pos prev s []) Some.

(** [re.search(r, s)]: the leftmost match, [i] characters already passed *)
Fixpoint search_from (r : regex) (i : nat) (prev : option ascii) (s : string)
    : option found :=
  match match_here r prev s with
  | Some q =>
      Some (Found i (take_str (String.length s - String.length (rest q)) s)
              (caps q) (rest q))
  | None =>
      match s with
      | EmptyString => None
      | String c s' => search_from r (S i) (Some c) s'
      end
  end.

Definition search (r : regex) (s : string) : option found :=
  search_from r O None s.

(** A replacement template: literal text and group references *)
Inductive piece : Type :=
| Text (s : string)
| Ref (n : nat).

Fixpoint expand (t : list piece) (m : found) : string :=
  match t with
  | [] => EmptyString
  | Text s :: t' => s ++ expand t' m
  | Ref n :: t' => group n m ++ expand t' m
  end.

(** [re.sub(r, t, s, count)] for a pattern that matches no empty string
    (all the patterns of the fixer are such); [count = None] replaces every
    non-overlapping match. *)
Fixpoint sub_go (fuel : nat) (r : regex) (t : list piece)
    (count : option nat) (prev : option ascii) (s : string) : string :=
  match fuel, count with
  | O, _ | _, Some O => s
  | S fuel', _ =>
      match search_from r O prev s with
      | None => s
      | Some m =>
          let last :=
            match String.get (String.length (matched m) - 1) (matched m) with
            | Some c => Some c
            | None => match String.get (start m - 1) s with
                      | Some c => Some c | None => prev end
            end in
          take_str (start m) s ++ expand t m ++
          match matched m with
          | EmptyString => after m
          | _ => sub_go fuel' r t
                   (match count with Some (S n) => Some n | o => o end)
                   last (after m)
          end
      end
  end.

Definition sub (r : regex) (t : list piece) (count : option nat) (s : string)
    : string :=
  sub_go (S (String.length s)) r t count None s.

End Re.

(** ** Exceptions and results *)

Inductive exn : Type :=
| IndexError
| ValueError (msg : string)
| GitCommandError
| TimeoutExpired
| HTTPException (status_code : Z)
| Exception_ (msg : string)
| SystemExit (code : Z).

(** [isinstance(e, Exception)]: of the exceptions above, [SystemExit] alone
    derives from [BaseException] only, so that [except Exception] lets it
    through. *)
Definition is_Exception (e : exn) : bool :=
  match e with
  | SystemExit _ => false
  | _ => true
  end.

Inductive Res (A : Type) : Type :=
| Ok (a : A)
| Raise (e : exn).
Arguments Ok {A} a.
Arguments Raise {A} e.

Definition bind {A B} (c : Res A) (k : A -> Res B) : Res B :=
  match c with
  | Ok a => k a
  | Raise e => Raise e
  end.

Notation "'let*' x ':=' c 'in' k" := (bind c (fun x => k))
  (at level 10, x pattern, c at level 100, k at level 200).

Definition len {A} (l : list A) : Z := Z.of_nat (length l).

(** [l[i]] and [l[i] = x], raising [IndexError] out of range *)
Definition item {A} (l : list A) (i : Z) : Res A :=
  match Py.index l i with
  | Some x => Ok x
  | None => Raise IndexError
  end.

Definition set_item {A} (l : list A) (i : Z) (x : A) : Res (list A) :=
  match Py.set_index l i x with
  | Some l' => Ok l'
  | None => Raise IndexError
  end.

Definition del_item {A} (l : list A) (i : Z) : Res (list A) :=
  match Py.del_index l i with
  | Some l' => Ok l'
  | None => Raise IndexError
  end.

(** ** The data model ([app/models.py] is known through its uses) *)

Module models.

Inductive ErrorType : Type :=
| SYNTAX | INDENTATION | TYPE_ERROR | IMPORT | LOGIC | LINTING.

Record ErrorInfo : Type := {
  err_type : ErrorType;
  err_file : string;
  err_line : Z;
  err_message : string
}.

Record FixResult : Type := {
  fix_file : string;
  fix_line : Z;
  fix_type : string;
  commit_message : string;
  fix_status : string
}.

Record AgentResponse : Type := {
  repo : string;
  branch : string;
  total_failures : Z;
  total_fixes : Z;
  iterations : Z;
  status : string;
  fixes : list FixResult
}.

End models.
Export models.

(** ** The file store

    The files under the workspace, each with its text as decoded by
    [open(path, 'r', encoding='utf-8')]. *)

Abbreviation FS := (gmap string string).

Definition exists_ (path : string) (fs : FS) : bool :=
  match fs !! path with Some _ => true | None => false end.

(** [with open(path, 'w') as f: f.writelines(lines)] *)
Definition writelines (path : string) (lines : list string) (fs : FS) : FS :=
  <[path := Py.concat_lines lines]> fs.

Definition DQ : ascii := "034"%char.
Definition dq : string := String DQ EmptyString.
Definition SQ : ascii := "'"%char.
Definition nl : string := String Py.LF EmptyString.

(** ** [fixer.py]: the rule engine *)

Module FixEngine.

Import Re.

Fixpoint cat (l : list regex) : regex :=
  match l with
  | [] => Eps
  | [r] => r
  | r :: l' => Seq r (cat l')
  end.

Definition quote : regex :=
  Cls (fun c => Ascii.eqb c DQ || Ascii.eqb c SQ).

(** The patterns, spelled with the spacing of re.VERBOSE.
    [print \s+ ( [quotes] .* [quotes] | [^\n]+ ) $], where [quotes] is the
    class of the single and the double quote *)
Definition re_print : regex :=
  cat [lit "print"; Plus space;
       Group 1 (Alt (cat [quote; Star true dot; quote]) (Plus (notc Py.LF)));
       Eol].

(** [if \s+ ( \w+ ) \s* = \s* ( [^=] )] *)
Definition re_comparison : regex :=
  cat [lit "if"; Plus space; Group 1 (Plus word); Star true space; Chr "=";
       Star true space; Group 2 (notc "=")].

(** [name '( \w+ )' is not defined] *)
Definition re_name_word : regex :=
  cat [lit "name '"; Group 1 (Plus word); lit "' is not defined"].

(** [name '( .*? )' is not defined] *)
Definition re_name_any : regex :=
  cat [lit "name '"; Group 1 (Star false dot); lit "' is not defined"].

(** [not '? ( \w+ ) '?] *)
Definition re_not_type : regex :=
  cat [lit "not "; Opt (Chr SQ); Group 1 (Plus word); Opt (Chr SQ)].

(** [( \+ \s* ) ( \w+ ) ( \s* \+ | \s* $ )] *)
Definition re_concat : regex :=
  cat [Group 1 (cat [Chr "+"; Star true space]); Group 2 (Plus word);
       Group 3 (Alt (cat [Star true space; Chr "+"])
                    (cat [Star true space; Eol]))].

(** [No module named '( .*? )'] *)
Definition re_no_module : regex :=
  cat [lit "No module named '"; Group 1 (Star false dot); Chr SQ].

(** [cannot import name '( .*? )'] under [re.IGNORECASE] *)
Definition re_cannot_import : regex :=
  cat [litI "cannot import name '"; Group 1 (Star false dot); ChrI SQ].

Definition any_in (subs : list string) (s : string) : bool :=
  existsb (fun sub => Py.contains sub s) subs.

(** *** Syntax rules: they edit [lines] and say whether they did *)

Definition keywords : list string :=
  ["def "; "class "; "if "; "for "; "while "; "elif "; "else"; "try:";
   "except"; "finally"; "with "].

Definition _fix_missing_colon (lines : list string) (line_num : Z)
    (line : string) : Res (bool * list string) :=
  if any_in keywords line then
    let* parts :=
      (if Py.has_char "#" line then
         let* code := item (Py.split_max "#" 1 line) 0 in
         let* comment := item (Py.split_max "#" 1 line) 1 in
         Ok (Py.rstrip code, " #" ++ comment)
       else Ok (Py.rstrip line, EmptyString)) in
    let '(code_part, comment_part) := parts in
    if negb (Py.endswith ":" code_part) && negb (Py.endswith "\" code_part)
    then
      let* lines' :=
        set_item lines (line_num - 1) (code_part ++ ":" ++ comment_part ++ nl) in
      Ok (true, lines')
    else Ok (false, lines)
  else Ok (false, lines).

Definition _fix_print_statement (lines : list string) (line_num : Z)
    (line : string) : Res (bool * list string) :=
  match search re_print line with
  | Some m =>
      let content := group 1 m in
      let indent := Py.indent_of line in
      let* lines' :=
        set_item lines (line_num - 1)
          (Py.spaces indent ++ "print(" ++ content ++ ")" ++ nl) in
      Ok (true, lines')
  | None => Ok (false, lines)
  end.

Definition _fix_comparison_operator (lines : list string) (line_num : Z)
    (line : string) : Res (bool * list string) :=
  if Py.contains "if " line then
    let fixed_line :=
      sub re_comparison [Text "if "; Ref 1; Text " == "; Ref 2] None line in
    if negb (String.eqb fixed_line line) then
      let* lines' := set_item lines (line_num - 1) fixed_line in
      Ok (true, lines')
    else Ok (false, lines)
  else Ok (false, lines).

Definition _fix_missing_comma (lines : list string) (line_num : Z)
    (line : string) : Res (bool * list string) :=
  Ok (false, lines).

Definition _fix_unclosed_string (lines : list string) (line_num : Z)
    (line : string) : Res (bool * list string) :=
  let stripped := Py.rstrip line in
  let single_quotes := Py.count "'" stripped - Py.count "\'" stripped in
  let double_quotes := Py.count dq stripped - Py.count ("\" ++ dq) stripped in
  if (single_quotes mod 2 =? 1) && negb (Py.endswith "'" stripped) then
    let* lines' := set_item lines (line_num - 1) (Py.rstrip line ++ "'" ++ nl) in
    Ok (true, lines')
  else if (double_quotes mod 2 =? 1) && negb (Py.endswith dq stripped) then
    let* lines' := set_item lines (line_num - 1) (Py.rstrip line ++ dq ++ nl) in
    Ok (true, lines')
  else Ok (false, lines).

Definition _fix_empty_block (lines : list string) (line_num : Z)
    (line : string) : Res (bool * list string) :=
  if line_num >? 1 then
    let* prev_line := item lines (line_num - 2) in
    if Py.endswith ":" (Py.rstrip prev_line) then
      let prev_indent := Py.indent_of prev_line in
      let indent := (prev_indent + 4)%nat in
      let* lines' :=
        set_item lines (line_num - 1) (Py.spaces indent ++ "pass" ++ nl) in
      Ok (true, lines')
    else Ok (false, lines)
  else Ok (false, lines).

Definition _fix_quote_mismatch (lines : list string) (line_num : Z)
    (line : string) : Res (bool * list string) :=
  Ok (false, lines).

Definition raised {A} (r : Res A) (fs : FS) : Res bool * FS :=
  match r with
  | Ok _ => (Ok false, fs)
  | Raise e => (Raise e, fs)
  end.

Definition _fix_syntax (repo_path : string) (error : ErrorInfo) (fs : FS)
    : Res bool * FS :=
  let file_path := Py.path_join repo_path (err_file error) in
  match fs !! file_path with
  | None => (Ok false, fs)
  | Some text =>
      let lines := Py.readlines text in
      let line_num := err_line error in
      let message := err_message error in
      if (line_num >? len lines) || (line_num <? 1) then (Ok false, fs)
      else
        let outcome :=
          let* line := item lines (line_num - 1) in
          let* first :=
            (if Py.contains "expected ':'" message
                || Py.contains ("expected " ++ dq ++ ":" ++ dq) message
             then _fix_missing_colon lines line_num line
             else if Py.contains "Missing parentheses in call to 'print'" message
             then _fix_print_statement lines line_num line
             else if Py.contains "invalid syntax" (Py.lower message)
                     && Py.has_char "=" line && Py.contains "if " line
             then _fix_comparison_operator lines line_num line
             else if Py.contains "invalid syntax" (Py.lower message)
                     && any_in ["["; "{"; "("] line
             then _fix_missing_comma lines line_num line
             else if Py.contains "EOL while scanning string literal" message
                     || Py.contains "unterminated string" (Py.lower message)
             then _fix_unclosed_string lines line_num line
             else if Py.contains "expected an indented block" message
             then _fix_empty_block lines line_num line
             else if Py.contains "invalid syntax" (Py.lower message)
                     && (Py.has_char DQ line || Py.has_char SQ line)
             then _fix_quote_mismatch lines line_num line
             else Ok (false, lines)) in
          let '(fixed, lines1) := first in
          if negb fixed then _fix_missing_colon lines1 line_num line
          else Ok (fixed, lines1) in
        match outcome with
        | Ok (true, lines') => (Ok true, writelines file_path lines' fs)
        | Ok (false, _) => (Ok false, fs)
        | Raise e => (Raise e, fs)
        end
  end.

(** *** Indentation *)

Definition _fix_indentation (repo_path : string) (error : ErrorInfo) (fs : FS)
    : Res bool * FS :=
  let file_path := Py.path_join repo_path (err_file error) in
  match fs !! file_path with
  | None => (Ok false, fs)
  | Some text =>
      let lines := Py.readlines text in
      let line_num := err_line error in
      if (line_num >? len lines) || (line_num <? 1) then (Ok false, fs)
      else
        let outcome :=
          let* line0 := item lines (line_num - 1) in
          let* tabs :=
            (if Py.has_char Py.TAB line0 then
               let* lines' :=
                 set_item lines (line_num - 1) (Py.replace (String Py.TAB "") "    " line0) in
               Ok (true, lines')
             else Ok (false, lines)) in
          let '(fixed, lines) := tabs in
          let* current_line := item lines (line_num - 1) in
          let current_stripped := Py.lstrip current_line in
          if (line_num >? 1) && negb (String.eqb current_stripped "") then
            let* prev_line := item lines (line_num - 2) in
            let prev_stripped := Py.lstrip prev_line in
            let prev_indent :=
              (String.length prev_line - String.length prev_stripped)%nat in
            let current_indent :=
              (String.length current_line - String.length current_stripped)%nat in
            if Py.endswith ":" (Py.rstrip prev_stripped) then
              let expected_indent := (prev_indent + 4)%nat in
              if negb (current_indent =? expected_indent)%nat then
                let* lines' :=
                  set_item lines (line_num - 1)
                    (Py.spaces expected_indent ++ current_stripped) in
                Ok (true, lines')
              else Ok (fixed, lines)
            else if (current_indent <? prev_indent)%nat then
              let* lines' :=
                set_item lines (line_num - 1)
                  (Py.spaces prev_indent ++ current_stripped) in
              Ok (true, lines')
            else Ok (fixed, lines)
          else Ok (fixed, lines) in
        match outcome with
        | Ok (true, lines') => (Ok true, writelines file_path lines' fs)
        | Ok (false, _) => (Ok false, fs)
        | Raise e => (Raise e, fs)
        end
  end.

(** *** Type errors *)

Definition typing_names : list string :=
  ["List"; "Dict"; "Optional"; "Set"; "Tuple"; "Union"; "Any"; "Callable";
   "Iterable"; "Mapping"; "Sequence"; "TypeVar"; "Generic"].

Definition in_list (x : string) (l : list string) : bool :=
  existsb (String.eqb x) l.

Definition is_some {A} (o : option A) : bool :=
  match o with Some _ => true | None => false end.

(** The scan of [_extract_undefined_name] over the set literal of typing
    names; [names] lists the set in the order the interpreter iterates it. *)
Fixpoint scan_typing_names (names : list string) (content : string)
    : Res (option string) :=
  match names with
  | [] => Ok None
  | name :: names' =>
      if is_some (search (cat [WordB; lit name; Chr "["]) content)
         || is_some (search (cat [lit ": "; lit name; WordB]) content)
      then
        if negb (Py.contains "from typing import" content) then Ok (Some name)
        else
          let* tail := item (Py.split "from typing import" content) 1 in
          let* first_line := item (Py.split nl tail) 0 in
          if negb (Py.contains name first_line) then Ok (Some name)
          else scan_typing_names names' content
      else scan_typing_names names' content
  end.

Definition _extract_undefined_name (set_order : list string)
    (message content : string) : Res (option string) :=
  match search re_name_word message with
  | Some m => Ok (Some (group 1 m))
  | None => scan_typing_names set_order content
  end.

Inductive import_scan : Type :=
| AlreadyImported
| TypingImportAt (i : Z)
| NoTypingImport (last_import : Z).

(** The [for i, line in enumerate(lines)] loop of [_add_typing_import] *)
Fixpoint scan_imports (type_name : string) (lines : list string) (i : Z)
    (last_import : Z) : import_scan :=
  match lines with
  | [] => NoTypingImport last_import
  | line :: lines' =>
      if Py.startswith "from typing import" line then
        if is_some (search (cat [WordB; lit type_name; WordB]) line)
        then AlreadyImported
        else TypingImportAt i
      else if Py.startswith "import " line || Py.startswith "from " line
      then scan_imports type_name lines' (i + 1) i
      else scan_imports type_name lines' (i + 1) last_import
  end.

Definition _add_typing_import (lines : list string) (type_name : string)
    (file_path : string) (fs : FS) : Res bool * FS :=
  match scan_imports type_name lines 0 (-1) with
  | AlreadyImported => (Ok false, fs)
  | TypingImportAt import_line =>
      let updated :=
        let* old := item lines import_line in
        set_item lines import_line
          (Py.rstrip_by (Ascii.eqb ",") (Py.rstrip old)
           ++ ", " ++ type_name ++ nl) in
      match updated with
      | Ok lines' => (Ok true, writelines file_path lines' fs)
      | Raise e => (Raise e, fs)
      end
  | NoTypingImport last_import =>
      let insert_pos := if last_import >=? 0 then last_import + 1 else 0 in
      let lines' :=
        Py.insert_at lines insert_pos ("from typing import " ++ type_name ++ nl) in
      (Ok true, writelines file_path lines' fs)
  end.

Definition _fix_string_concatenation (lines : list string) (line_num : Z)
    (message file_path : string) (fs : FS) : Res bool * FS :=
  if line_num >? len lines then (Ok false, fs)
  else
    match item lines (line_num - 1) with
    | Raise e => (Raise e, fs)
    | Ok line =>
        match search re_not_type message with
        | None => (Ok false, fs)
        | Some var_match =>
            let var_type := group 1 var_match in
            if in_list var_type ["int"; "float"; "bool"] then
              let new_line :=
                sub re_concat [Ref 1; Text "str("; Ref 2; Text ")"; Ref 3]
                  (Some 1%nat) line in
              if negb (String.eqb new_line line) then
                match set_item lines (line_num - 1) new_line with
                | Ok lines' => (Ok true, writelines file_path lines' fs)
                | Raise e => (Raise e, fs)
                end
              else (Ok false, fs)
            else (Ok false, fs)
        end
    end.

Definition _fix_operand_type (lines : list string) (line_num : Z)
    (message file_path : string) (fs : FS) : Res bool * FS :=
  (Ok false, fs).

Definition _fix_type_error (set_order : list string) (repo_path : string)
    (error : ErrorInfo) (fs : FS) : Res bool * FS :=
  let file_path := Py.path_join repo_path (err_file error) in
  match fs !! file_path with
  | None => (Ok false, fs)
  | Some text =>
      let lines := Py.readlines text in
      let content := Py.concat_lines lines in
      let message := err_message error in
      let rest_of_rules (_ : unit) :=
        if Py.contains "can only concatenate str" message
           || Py.contains "must be str, not" message
        then _fix_string_concatenation lines (err_line error) message file_path fs
        else if Py.contains "missing" (Py.lower message)
                && Py.contains "required positional argument" (Py.lower message)
        then (Ok false, fs)
        else if Py.contains "unsupported operand type" (Py.lower message)
        then _fix_operand_type lines (err_line error) message file_path fs
        else (Ok false, fs) in
      if Py.contains "is not defined" message then
        match _extract_undefined_name set_order message content with
        | Raise e => (Raise e, fs)
        | Ok (Some undefined_name) =>
            if in_list undefined_name typing_names
            then _add_typing_import lines undefined_name file_path fs
            else rest_of_rules tt
        | Ok None => rest_of_rules tt
        end
      else rest_of_rules tt
  end.

(** *** Import errors *)

(** The loop of [_comment_out_import]; [i] is the index of the head of
    [rest] in [lines]. *)
Fixpoint comment_out_loop (lines rest : list string) (i : Z)
    (module_name file_path : string) (fs : FS) : Res bool * FS :=
  match rest with
  | [] => (Ok false, fs)
  | line :: rest' =>
      if (Py.contains ("import " ++ module_name) line
          || Py.contains ("from " ++ module_name) line)
         && negb (Py.startswith "#" (Py.strip line))
      then
        match set_item lines i ("# " ++ line) with
        | Ok lines' => (Ok true, writelines file_path lines' fs)
        | Raise e => (Raise e, fs)
        end
      else comment_out_loop lines rest' (i + 1) module_name file_path fs
  end.

Definition _comment_out_import (lines : list string)
    (module_name file_path : string) (fs : FS) : Res bool * FS :=
  comment_out_loop lines lines 0 module_name file_path fs.

(** The line [_remove_from_import] writes in place of [line], when the line
    splits in two around the word import. *)
Definition without_import (import_name line : string) : option string :=
  match Py.split "import" line with
  | [before; imports] =>
      let import_list := map Py.strip (Py.split "," imports) in
      let import_list :=
        List.filter (fun imp => negb (Py.contains import_name imp)) import_list in
      match import_list with
      | _ :: _ => Some (before ++ "import " ++ Py.join ", " import_list ++ nl)
      | [] => Some ("# " ++ line)
      end
  | _ => None
  end.

Fixpoint remove_from_loop (lines rest : list string) (i : Z)
    (import_name file_path : string) (fs : FS) : Res bool * FS :=
  match rest with
  | [] => (Ok false, fs)
  | line :: rest' =>
      if Py.contains "from " line && Py.contains import_name line then
        match without_import import_name line with
        | Some new_line =>
            match set_item lines i new_line with
            | Ok lines' => (Ok true, writelines file_path lines' fs)
            | Raise e => (Raise e, fs)
            end
        | None => remove_from_loop lines rest' (i + 1) import_name file_path fs
        end
      else remove_from_loop lines rest' (i + 1) import_name file_path fs
  end.

Definition _remove_from_import (lines : list string)
    (import_name file_path : string) (fs : FS) : Res bool * FS :=
  remove_from_loop lines lines 0 import_name file_path fs.

Definition _fix_relative_import (lines : list string) (line_num : Z)
    (file_path : string) (fs : FS) : Res bool * FS :=
  (Ok false, fs).

Definition _fix_import (repo_path : string) (error : ErrorInfo) (fs : FS)
    : Res bool * FS :=
  let file_path := Py.path_join repo_path (err_file error) in
  match fs !! file_path with
  | None => (Ok false, fs)
  | Some text =>
      let lines := Py.readlines text in
      let message := err_message error in
      let relative (_ : unit) :=
        if Py.contains "attempted relative import" (Py.lower message)
        then _fix_relative_import lines (err_line error) file_path fs
        else (Ok false, fs) in
      match search re_no_module message with
      | Some module_match =>
          _comment_out_import lines (group 1 module_match) file_path fs
      | None =>
          if Py.contains "cannot import name" (Py.lower message) then
            match search re_cannot_import message with
            | Some name_match =>
                _remove_from_import lines (group 1 name_match) file_path fs
            | None => relative tt
            end
          else relative tt
      end
  end.

(** *** Logic errors *)

Definition _initialize_variable (lines : list string) (var_name : string)
    (line_num : Z) (file_path : string) (fs : FS) : Res bool * FS :=
  if line_num <=? len lines then
    match item lines (line_num - 1) with
    | Raise e => (Raise e, fs)
    | Ok current_line =>
        let indent := Py.indent_of current_line in
        let init_line :=
          Py.spaces indent ++ var_name
          ++ " = None  # AI-AGENT: Auto-initialized" ++ nl in
        let lines' := Py.insert_at lines (line_num - 1) init_line in
        (Ok true, writelines file_path lines' fs)
    end
  else (Ok false, fs).

Definition _fix_attribute_error (lines : list string) (line_num : Z)
    (message file_path : string) (fs : FS) : Res bool * FS :=
  (Ok false, fs).

Definition _fix_logic (repo_path : string) (error : ErrorInfo) (fs : FS)
    : Res bool * FS :=
  let file_path := Py.path_join repo_path (err_file error) in
  match fs !! file_path with
  | None => (Ok false, fs)
  | Some text =>
      let lines := Py.readlines text in
      let message := err_message error in
      let rest_of_rules (_ : unit) :=
        if Py.contains "has no attribute" (Py.lower message)
        then _fix_attribute_error lines (err_line error) message file_path fs
        else if Py.contains "division by zero" (Py.lower message)
        then (Ok false, fs)
        else if Py.contains "index out of range" (Py.lower message)
        then (Ok false, fs)
        else (Ok false, fs) in
      if Py.contains "name '.*?' is not defined" message
         || Py.contains "is not defined" message
      then
        match search re_name_any message with
        | Some var_match =>
            _initialize_variable lines (group 1 var_match) (err_line error)
              file_path fs
        | None => rest_of_rules tt
        end
      else rest_of_rules tt
  end.

(** *** Linting *)

Definition _remove_unused_import (lines : list string) (line_num : Z)
    (file_path : string) (fs : FS) : Res bool * FS :=
  if line_num <=? len lines then
    match item lines (line_num - 1) with
    | Raise e => (Raise e, fs)
    | Ok line =>
        if Py.contains "import" (Py.lower line) then
          match del_item lines (line_num - 1) with
          | Ok lines' => (Ok true, writelines file_path lines' fs)
          | Raise e => (Raise e, fs)
          end
        else (Ok false, fs)
    end
  else (Ok false, fs).

Definition _remove_unused_variable (lines : list string) (line_num : Z)
    (file_path : string) (fs : FS) : Res bool * FS :=
  (Ok false, fs).

Definition _remove_trailing_whitespace (lines : list string) (line_num : Z)
    (file_path : string) (fs : FS) : Res bool * FS :=
  if line_num <=? len lines then
    let updated :=
      let* old := item lines (line_num - 1) in
      set_item lines (line_num - 1) (Py.rstrip old ++ nl) in
    match updated with
    | Ok lines' => (Ok true, writelines file_path lines' fs)
    | Raise e => (Raise e, fs)
    end
  else (Ok false, fs).

Definition _fix_linting (repo_path : string) (error : ErrorInfo) (fs : FS)
    : Res bool * FS :=
  let file_path := Py.path_join repo_path (err_file error) in
  match fs !! file_path with
  | None => (Ok false, fs)
  | Some text =>
      let lines := Py.readlines text in
      let message := Py.lower (err_message error) in
      if Py.contains "unused import" message
         || Py.contains "imported but unused" message
      then _remove_unused_import lines (err_line error) file_path fs
      else if Py.contains "unused variable" message
      then _remove_unused_variable lines (err_line error) file_path fs
      else if Py.contains "trailing whitespace" message
      then _remove_trailing_whitespace lines (err_line error) file_path fs
      else (Ok false, fs)
  end.

(** *** The dispatcher *)

(** The body of the [try] of [apply_fix]. *)
Definition dispatch_rule (set_order : list string) (repo_path : string)
    (error : ErrorInfo) (fs : FS) : Res bool * FS :=
  match err_type error with
  | SYNTAX => _fix_syntax repo_path error fs
  | INDENTATION => _fix_indentation repo_path error fs
  | TYPE_ERROR => _fix_type_error set_order repo_path error fs
  | IMPORT => _fix_import repo_path error fs
  | LOGIC => _fix_logic repo_path error fs
  | LINTING => _fix_linting repo_path error fs
  end.

(** [apply_fix]: what the rule raises (an [IndexError], the one exception
    the rules raise) is caught by its [except Exception] and reported as
    False. *)
Definition apply_fix (set_order : list string) (repo_path : string)
    (error : ErrorInfo) (fs : FS) : bool * FS :=
  match dispatch_rule set_order repo_path error fs with
  | (Ok b, fs') => (b, fs')
  | (Raise _, fs') => (false, fs')
  end.

End FixEngine.

(** ** State and exceptions

    A method of an object with mutable fields, run in a world it can change:
    it returns a value or raises, and the state as left in either case. *)

Definition ST (S A : Type) : Type := S -> Res A * S.

Definition ret {S A} (a : A) : ST S A := fun s => (Ok a, s).

Definition raise {S A} (e : exn) : ST S A := fun s => (Raise e, s).

Definition bindS {S A B} (c : ST S A) (k : A -> ST S B) : ST S B :=
  fun s =>
    match c s with
    | (Ok a, s') => k a s'
    | (Raise e, s') => (Raise e, s')
    end.

(** [try: c  except <the exceptions h answers>: h e]; [h e = None] lets
    [e] through. *)
Definition try_except {S A} (c : ST S A) (h : exn -> option (ST S A))
    : ST S A :=
  fun s =>
    match c s with
    | (Ok a, s') => (Ok a, s')
    | (Raise e, s') =>
        match h e with
        | Some handler => handler s'
        | None => (Raise e, s')
        end
    end.

Definition get {S} : ST S S := fun s => (Ok s, s).
Definition modify {S} (f : S -> S) : ST S unit := fun s => (Ok tt, f s).

Notation "x <- c ;; k" := (bindS c (fun x => k))
  (at level 100, c at next level, right associativity).
Notation "c ;; k" := (bindS c (fun _ => k))
  (at level 100, right associativity).

(** [except Exception], which does not catch a [SystemExit], and
    [except GitCommandError] *)
Definition any_exception {S A} (h : exn -> ST S A) : exn -> option (ST S A) :=
  fun e => if is_Exception e then Some (h e) else None.

Definition only_git_error {S A} (h : ST S A) : exn -> option (ST S A) :=
  fun e => match e with GitCommandError => Some h | _ => None end.

Definition only_timeout {S A} (h : ST S A) : exn -> option (ST S A) :=
  fun e => match e with TimeoutExpired => Some h | _ => None end.

(** A computation that raises exceptions only: whatever it raises,
    [except Exception] catches. *)
Definition raises_exceptions {S A} (c : ST S A) : Prop :=
  forall s e s', c s = (Raise e, s') -> is_Exception e = true.

(** ** The world outside the program

    The files the fixer edits are a file store; everything else (the git
    repository and its remote, processes, the network, the progress sink)
    is reached through primitives whose behaviour is left open. *)

Record World (X : Type) : Type := {
  files : FS;
  outside : X
}.
Arguments files {X} w.
Arguments outside {X} w.

Definition set_files {X} (fs : FS) (w : World X) : World X :=
  {| files := fs; outside := outside w |}.

(** What a finished process gives back. *)
Record CompletedProcess : Type := {
  returncode : Z;
  stdout : string;
  stderr : string
}.

(** The JSON body the sandbox answers with. *)
Record SandboxReply : Type := {
  reply_stdout : string;
  reply_stderr : string;
  reply_returncode : Z;
  reply_timed_out : bool;
  reply_project_type : string
}.

(** An HTTP response: its status and its body, if it parses as JSON. *)
Record Response : Type := {
  status_code : Z;
  json : option SandboxReply
}.

(** The payload of the progress event that closes a run. *)
Record ProgressData : Type := {
  data_status : string;
  data_total_fixes : Z;
  data_total_failures : Z;
  data_iterations : Z;
  data_branch : string
}.

Class Primitives (X : Type) : Type := {
  (* os, shutil, time *)
  path_exists : string -> World X -> bool;
  rmtree : string -> ST (World X) unit;
  time_time : World X -> Z;
  (* GitPython *)
  clone_from : string -> string -> ST (World X) unit;
  git_checkout_b : string -> ST (World X) unit;
  git_checkout : string -> ST (World X) unit;
  index_add : string -> ST (World X) unit;
  index_commit : string -> ST (World X) unit;
  origin_push : string -> ST (World X) unit;
  (* venv, subprocess, httpx *)
  venv_create : string -> ST (World X) unit;
  subprocess_run :
    list string -> string -> bool -> Z -> ST (World X) CompletedProcess;
  popen : list string -> string -> bool -> ST (World X) nat;
  communicate : nat -> option Z -> ST (World X) CompletedProcess;
  kill : nat -> ST (World X) unit;
  httpx_post :
    string -> string -> option string -> Z -> list (string * string) -> Z ->
    ST (World X) Response;
  (* the files of the run *)
  write_results : AgentResponse -> ST (World X) unit;
  (* the order in which the interpreter iterates the set of typing names *)
  typing_set_order : list string;
  (* [venv.create] can leave through [sys.exit] (it does when ensurepip is
     missing); what the primitives called under an [except Exception] raise
     is an [Exception] *)
  rmtree_raises : forall path, raises_exceptions (rmtree path);
  index_add_raises : forall path, raises_exceptions (index_add path);
  index_commit_raises : forall message, raises_exceptions (index_commit message);
  origin_push_raises : forall refspec, raises_exceptions (origin_push refspec);
  subprocess_run_raises :
    forall cmd cwd shell timeout,
      raises_exceptions (subprocess_run cmd cwd shell timeout);
  popen_raises : forall cmd cwd shell, raises_exceptions (popen cmd cwd shell);
  communicate_raises :
    forall process timeout, raises_exceptions (communicate process timeout);
  kill_raises : forall process, raises_exceptions (kill process);
  httpx_post_raises :
    forall url repo_url branch timeout_sec headers timeout,
      raises_exceptions
        (httpx_post url repo_url branch timeout_sec headers timeout);
  write_results_raises :
    forall response, raises_exceptions (write_results response)
}.

(** Modelled from the spec: the modules [app/parser.py], [app/models.py] and
    the progress sink [ws_manager] the runner is given are not among the
    sources; the runner uses one operation of each.
    - [parse_errors test_output repo_path], the classifier: the design
      document has it pure but for the checks that a path lies in the
      repository, so it reads the world and leaves it as it is;
    - [send_progress_sync status message data], the sink: the design
      document has it fire-and-forget, never failing the run, so it returns,
      and what it changes is outside the files of the repository;
    - [type_value], the string a member of [ErrorType] stands for (the
      [kind] of the commit message template). *)
Class AppModules (X : Type) : Type := {
  parse_errors : string -> string -> World X -> list ErrorInfo;
  send_progress_sync : string -> string -> option ProgressData -> X -> X;
  type_value : ErrorType -> string
}.

(** A primitive of the world, run from a method of an object of state [S]. *)
Definition in_world {S X A} (p : ST (World X) A) : ST (S * World X) A :=
  fun sw =>
    let '(r, w') := p (snd sw) in (r, (fst sw, w')).

Definition world_read {S X A} (f : World X -> A) : ST (S * World X) A :=
  fun sw => (Ok (f (snd sw)), sw).

Definition self_update {S X} (f : S -> S) : ST (S * World X) unit :=
  fun sw => (Ok tt, (f (fst sw), snd sw)).

Definition self_read {S X A} (f : S -> A) : ST (S * World X) A :=
  fun sw => (Ok (f (fst sw)), sw).

Definition of_res {S A} (r : Res A) : ST S A := fun s => (r, s).

(** ** [git_utils.py]: the version-control adapter *)

(** [stat.S_IWRITE] *)
Definition S_IWRITE : Z := 128.

(** [remove_readonly(func, path, excinfo)], the handler [shutil.rmtree] is
    given for a path it could not remove: make it writable, then call the
    function that failed once more. *)
Definition remove_readonly {W} (chmod : string -> Z -> ST W unit)
    (func : string -> ST W unit) (path : string) : ST W unit :=
  chmod path S_IWRITE ;; func path.

Module GitHandler.

Record t : Type := {
  workspace_dir : string;
  repo : option string;
  repo_path : option string
}.

Definition __init__ (workspace_dir : string) : t :=
  {| workspace_dir := workspace_dir; repo := None; repo_path := None |}.

Definition _format_branch_name (team leader : string) : string :=
  let team_clean := Py.upper (Py.replace " " "_" (Py.strip team)) in
  let leader_clean := Py.upper (Py.replace " " "_" (Py.strip leader)) in
  team_clean ++ "_" ++ leader_clean ++ "_AI_FIX".

(** The message [commit_fix] commits under. *)
Definition commit_message_of (file_path bug_type : string) (line : Z) : string :=
  "[AI-AGENT] Fixed " ++ bug_type ++ " error in " ++ Py.basename file_path
  ++ " line " ++ Py.str_of_int line.

Section Methods.
Context {X : Type} `{Primitives X}.

Local Abbreviation G := (ST (t * World X)).

(** The retry loop that removes a stale checkout: [attempt] counts up to
    [max_attempts], [todo] is the number of attempts left. *)
Fixpoint remove_attempts (todo : nat) (attempt max_attempts : Z)
    (repo_path : string) : G unit :=
  match todo with
  | O => ret tt
  | S todo' =>
      try_except (in_world (rmtree repo_path))
        (any_exception (fun e =>
           if attempt <? max_attempts - 1
           then remove_attempts todo' (attempt + 1) max_attempts repo_path
           else raise (Exception_ "Failed to clean workspace directory")))
  end.

Definition clone_repo (repo_url : string) : G string :=
  last <- of_res (item (Py.split "/" (Py.rstrip_by (Ascii.eqb "/") repo_url)) (-1)) ;;
  let repo_name := Py.replace ".git" "" last in
  workspace <- self_read workspace_dir ;;
  let repo_path := Py.path_join workspace repo_name in
  stale <- world_read (path_exists repo_path) ;;
  (if stale : bool then
     remove_attempts 3 0 3 repo_path ;;
     still <- world_read (path_exists repo_path) ;;
     if still : bool
     then raise (Exception_ "Directory still exists after deletion")
     else ret tt
   else ret tt) ;;
  in_world (clone_from repo_url repo_path) ;;
  self_update (fun g => {| workspace_dir := workspace_dir g;
                           repo := Some repo_path;
                           repo_path := Some repo_path |}) ;;
  ret repo_path.

Definition require_repo : G unit :=
  r <- self_read repo ;;
  match r with
  | Some _ => ret tt
  | None => raise (ValueError "Repository not initialized")
  end.

Definition create_branch (team leader : string) : G string :=
  require_repo ;;
  let branch_name := _format_branch_name team leader in
  try_except
    (in_world (git_checkout_b branch_name) ;; ret branch_name)
    (only_git_error
       (try_except
          (in_world (git_checkout branch_name) ;; ret branch_name)
          (only_git_error
             (now <- world_read time_time ;;
              let unique_branch := branch_name ++ "_" ++ Py.str_of_int now in
              in_world (git_checkout_b unique_branch) ;;
              ret unique_branch)))).

Definition commit_fix (file_path bug_type : string) (line : Z)
    (message : string) : G string :=
  require_repo ;;
  in_world (index_add file_path) ;;
  let commit_message := commit_message_of file_path bug_type line in
  in_world (index_commit commit_message) ;;
  ret commit_message.

Definition push_branch (branch_name : string) : G bool :=
  require_repo ;;
  try_except
    (in_world (origin_push (branch_name ++ ":" ++ branch_name)) ;; ret true)
    (only_git_error (ret false)).

End Methods.

(** [get_repo_name]: the last component of the path of the checkout *)
Definition get_repo_name (self : t) : string :=
  match repo_path self with
  | Some p => if String.eqb p EmptyString then "unknown" else Py.basename p
  | None => "unknown"
  end.

Section Queries.
Context {X : Type}.
(** [Repo.is_dirty] *)
Variable is_dirty : ST (World X) bool.

Definition has_uncommitted_changes : ST (t * World X) bool :=
  r <- self_read repo ;;
  match r with
  | Some _ => in_world is_dirty
  | None => ret false
  end.

End Queries.
End GitHandler.

(** ** [docker/agent_server.py]: the sandbox service *)

Module agent_server.

Record RunTestsRequest : Type := {
  repo_url : string;
  branch : option string;
  timeout_sec : Z
}.

(** [SANDBOX_TOKEN = os.getenv("SANDBOX_TOKEN", "").strip()], from the value
    of the environment variable if it is set *)
Definition SANDBOX_TOKEN (env : option string) : string :=
  Py.strip (match env with Some v => v | None => EmptyString end).

Definition truthy (s : string) : bool := negb (String.eqb s EmptyString).

(** [GET /health] *)
Definition health : list (string * string) := [("status", "ok")].

(** How a child process can fail to complete. *)
Inductive process_error : Type :=
| Expired                     (* subprocess.TimeoutExpired *)
| Failed (msg : string).      (* any other exception of subprocess.run *)

Section Service.
(** The host the service runs on: its processes and its files. *)
Variable Y : Type.
Variable run :
  list string -> string -> Z -> Y -> (process_error + CompletedProcess) * Y.
Variable host_exists : string -> Y -> bool.
Variable make_tmpdir : Y -> string * Y.
Variable cleanup : string -> Y -> Y.
(** The environment of the service *)
Variable env_token : option string.

Definition _check_auth (x_sandbox_token : option string) : ST Y unit :=
  let token := SANDBOX_TOKEN env_token in
  if truthy token
     && negb (bool_decide (x_sandbox_token = Some token))
  then raise (HTTPException 401)
  else ret tt.

Definition _run_cmd (cmd : list string) (cwd : string) (timeout_sec : Z)
    : ST Y CompletedProcess :=
  fun y =>
    match run cmd cwd timeout_sec y with
    | (inr done, y') => (Ok done, y')
    | (inl Expired, y') => (Raise TimeoutExpired, y')
    | (inl (Failed msg), y') => (Raise (Exception_ msg), y')
    end.

(** [with tempfile.TemporaryDirectory(...) as tmpdir: body] *)
Definition with_tmpdir {A} (body : string -> ST Y A) : ST Y A :=
  fun y =>
    let '(tmpdir, y1) := make_tmpdir y in
    let '(r, y2) := body tmpdir y1 in
    (r, cleanup tmpdir y2).

Definition run_tests (req : RunTestsRequest) (x_sandbox_token : option string)
    : ST Y SandboxReply :=
  _check_auth x_sandbox_token ;;
  with_tmpdir (fun tmpdir =>
    let repo_path := Py.path_join tmpdir "repo" in
    let clone_cmd :=
      (["git"; "clone"; "--depth"; "1"]
       ++ match branch req with
          | Some b => if truthy b then ["--branch"; b] else []
          | None => []
          end
       ++ [repo_url req; repo_path])%list in
    cloned <-
      try_except (_run_cmd clone_cmd tmpdir 60 ;; ret true)
        (only_timeout (ret false)) ;;
    if negb cloned then
      ret {| reply_stdout := "";
             reply_stderr := "git clone timed out";
             reply_returncode := 1;
             reply_timed_out := true;
             reply_project_type := "unknown" |}
    else
      has_package <- (fun y => (Ok (host_exists (Py.path_join repo_path "package.json") y), y)) ;;
      has_requirements <- (fun y => (Ok (host_exists (Py.path_join repo_path "requirements.txt") y), y)) ;;
      let project_type :=
        if has_package : bool then "javascript"
        else if has_requirements : bool then "python"
        else "unknown" in
      try_except
        (result <-
           (if String.eqb project_type "javascript" then
              _run_cmd ["npm"; "install"] repo_path (timeout_sec req) ;;
              _run_cmd ["npm"; "test"; "--"; "--passWithNoTests"] repo_path
                (timeout_sec req)
            else
              requirements <- (fun y => (Ok (host_exists (Py.path_join repo_path "requirements.txt") y), y)) ;;
              (if requirements : bool then
                 _run_cmd ["python"; "-m"; "pip"; "install"; "-r"; "requirements.txt"]
                   repo_path (timeout_sec req) ;; ret tt
               else ret tt) ;;
              _run_cmd ["pytest"; "--maxfail=10"; "-v"; "--tb=short"] repo_path
                (timeout_sec req)) ;;
         ret {| reply_stdout := stdout result;
                reply_stderr := stderr result;
                reply_returncode := returncode result;
                reply_timed_out := false;
                reply_project_type := project_type |})
        (only_timeout
           (ret {| reply_stdout := "";
                   reply_stderr := "test execution timed out";
                   reply_returncode := 1;
                   reply_timed_out := true;
                   reply_project_type := project_type |}))).

(** What the client of [POST /run-tests] sees: the body under status 200,
    the status of an [HTTPException], or 500 for any other exception. *)
Definition post_run_tests (req : RunTestsRequest)
    (x_sandbox_token : option string) (y : Y) : Response * Y :=
  match run_tests req x_sandbox_token y with
  | (Ok reply, y') => ({| status_code := 200; json := Some reply |}, y')
  | (Raise (HTTPException code), y') =>
      ({| status_code := code; json := None |}, y')
  | (Raise _, y') => ({| status_code := 500; json := None |}, y')
  end.

End Service.
End agent_server.

(** ** [docker_runner.py]: the orchestrator *)

Module DockerRunner.

(** What a run is started with: the arguments of the constructor, the
    settings read from [app.config] and from the environment, and the
    platform. *)
Record Config : Type := {
  repo_url : string;
  team : string;
  leader : string;
  max_retries : Z;
  has_sink : bool;          (* ws_manager and run_id are both set *)
  sandbox_url : string;     (* os.getenv("SANDBOX_URL", "").strip() *)
  sandbox_token : string;   (* os.getenv("SANDBOX_TOKEN", "").strip() *)
  WORKSPACE_DIR : string;
  win32 : bool              (* sys.platform == "win32" *)
}.

(** The fields of the runner that change during a run. *)
Record t : Type := {
  git_handler : GitHandler.t;
  fixer : option string;                (* FixEngine(repo_path) *)
  project_type : option string;
  test_command : option (list string);
  venv_path : option string;
  venv_python : option string;
  fixes : list FixResult;
  total_failures : Z;
  iterations : Z;
  branch_name : option string
}.

Definition __init__ (cfg : Config) : t :=
  {| git_handler := GitHandler.__init__ (WORKSPACE_DIR cfg);
     fixer := None;
     project_type := None;
     test_command := None;
     venv_path := None;
     venv_python := None;
     fixes := [];
     total_failures := 0;
     iterations := 0;
     branch_name := None |}.

Definition set_git_handler (g : GitHandler.t) (self : t) : t :=
  {| git_handler := g; fixer := fixer self; project_type := project_type self;
     test_command := test_command self; venv_path := venv_path self;
     venv_python := venv_python self; fixes := fixes self;
     total_failures := total_failures self; iterations := iterations self;
     branch_name := branch_name self |}.

Definition set_fixer (p : string) (self : t) : t :=
  {| git_handler := git_handler self; fixer := Some p;
     project_type := project_type self;
     test_command := test_command self; venv_path := venv_path self;
     venv_python := venv_python self; fixes := fixes self;
     total_failures := total_failures self; iterations := iterations self;
     branch_name := branch_name self |}.

Definition set_project (kind : string) (cmd : list string) (self : t) : t :=
  {| git_handler := git_handler self; fixer := fixer self;
     project_type := Some kind;
     test_command := Some cmd; venv_path := venv_path self;
     venv_python := venv_python self; fixes := fixes self;
     total_failures := total_failures self; iterations := iterations self;
     branch_name := branch_name self |}.

Definition set_venv (path python : option string) (self : t) : t :=
  {| git_handler := git_handler self; fixer := fixer self;
     project_type := project_type self;
     test_command := test_command self; venv_path := path;
     venv_python := python; fixes := fixes self;
     total_failures := total_failures self; iterations := iterations self;
     branch_name := branch_name self |}.

Definition set_fixes (l : list FixResult) (self : t) : t :=
  {| git_handler := git_handler self; fixer := fixer self;
     project_type := project_type self;
     test_command := test_command self; venv_path := venv_path self;
     venv_python := venv_python self; fixes := l;
     total_failures := total_failures self; iterations := iterations self;
     branch_name := branch_name self |}.

Definition set_total_failures (n : Z) (self : t) : t :=
  {| git_handler := git_handler self; fixer := fixer self;
     project_type := project_type self;
     test_command := test_command self; venv_path := venv_path self;
     venv_python := venv_python self; fixes := fixes self;
     total_failures := n; iterations := iterations self;
     branch_name := branch_name self |}.

Definition set_iterations (n : Z) (self : t) : t :=
  {| git_handler := git_handler self; fixer := fixer self;
     project_type := project_type self;
     test_command := test_command self; venv_path := venv_path self;
     venv_python := venv_python self; fixes := fixes self;
     total_failures := total_failures self; iterations := n;
     branch_name := branch_name self |}.

Definition set_branch_name (b : string) (self : t) : t :=
  {| git_handler := git_handler self; fixer := fixer self;
     project_type := project_type self;
     test_command := test_command self; venv_path := venv_path self;
     venv_python := venv_python self; fixes := fixes self;
     total_failures := total_failures self; iterations := iterations self;
     branch_name := Some b |}.

(** [sum(1 for fix in fixes if fix.status == "Fixed")] *)
Fixpoint successful (l : list FixResult) : Z :=
  match l with
  | [] => 0
  | fx :: l' =>
      if String.eqb (fix_status fx) "Fixed" then 1 + successful l'
      else successful l'
  end.

(** The status [_generate_response] reports for a list of outcomes. *)
Definition status_of (l : list FixResult) : string :=
  let successful_fixes := successful l in
  let status :=
    if (successful_fixes >? 0) && (successful_fixes =? len l)
    then "PASSED" else "PARTIAL" in
  if successful_fixes =? 0 then "FAILED" else status.

Definition _generate_response (cfg : Config) (branch_name : string) (self : t)
    : AgentResponse :=
  {| models.repo := repo_url cfg;
     models.branch := branch_name;
     models.total_failures := total_failures self;
     models.total_fixes := successful (fixes self);
     models.iterations := iterations self;
     models.status := status_of (fixes self);
     models.fixes := fixes self |}.

(** [str(e)] for the exceptions of the model *)
Definition str_exn (e : exn) : string :=
  match e with
  | IndexError => "list index out of range"
  | ValueError msg => msg
  | GitCommandError => "GitCommandError"
  | TimeoutExpired => "TimeoutExpired"
  | HTTPException code => Py.str_of_int code
  | Exception_ msg => msg
  | SystemExit code => Py.str_of_int code
  end.

Section Methods.
Context {X : Type} `{Primitives X} `{AppModules X}.
Variable cfg : Config.

Local Abbreviation R := (ST (t * World X)).

(** A method of [self.git_handler] *)
Definition in_git {A} (c : ST (GitHandler.t * World X) A) : R A :=
  fun sw =>
    let '(r, (g', w')) := c (git_handler (fst sw), snd sw) in
    (r, (set_git_handler g' (fst sw), w')).

(** [_emit_progress]: the event goes to the sink if there is one.  The
    message texts are given without their leading pictograph, and what is
    only printed is left out. *)
Definition _emit_progress (status message : string)
    (data : option ProgressData) : R unit :=
  fun sw =>
    (Ok tt,
     (fst sw,
      if has_sink cfg then
        {| files := files (snd sw);
           outside := send_progress_sync status message data (outside (snd sw)) |}
      else snd sw)).

Definition remote : bool := negb (String.eqb (sandbox_url cfg) EmptyString).

Definition _detect_project_type (repo_path : string) : R unit :=
  let package_json := Py.path_join repo_path "package.json" in
  let requirements_txt := Py.path_join repo_path "requirements.txt" in
  has_package <- world_read (path_exists package_json) ;;
  if has_package : bool then
    self_update (set_project "javascript" ["npm"; "test"; "--"; "--passWithNoTests"])
  else
    has_requirements <- world_read (path_exists requirements_txt) ;;
    if has_requirements : bool then
      self_update (set_project "python" ["pytest"; "--maxfail=10"; "-v"])
    else
      self_update (set_project "unknown" ["pytest"; "--maxfail=10"; "-v"]).

Definition _create_venv (repo_path : string) : R unit :=
  let path := Py.path_join repo_path ".venv" in
  self_update (fun self => set_venv (Some path) (venv_python self) self) ;;
  present <- world_read (path_exists path) ;;
  created <-
    (if present : bool then ret true
     else
       try_except (in_world (venv_create path) ;; ret true)
         (any_exception (fun _ =>
            self_update (set_venv None None) ;; ret false))) ;;
  if created : bool then
    self_update
      (set_venv (Some path)
         (Some (if win32 cfg
                then Py.path_join (Py.path_join path "Scripts") "python.exe"
                else Py.path_join (Py.path_join path "bin") "python")))
  else ret tt.

Definition is_kind (kind : string) (self : t) : bool :=
  bool_decide (project_type self = Some kind).

Definition _install_dependencies (repo_path : string) : R unit :=
  javascript <- self_read (is_kind "javascript") ;;
  python <- self_read (is_kind "python") ;;
  if javascript : bool then
    present <- world_read (path_exists (Py.path_join repo_path "package.json")) ;;
    if present : bool then
      try_except
        (in_world (subprocess_run ["npm install"] repo_path true 300) ;; ret tt)
        (any_exception (fun _ => ret tt))
    else ret tt
  else if python : bool then
    present <- world_read (path_exists (Py.path_join repo_path "requirements.txt")) ;;
    if present : bool then
      python_exe <- self_read venv_python ;;
      let pip_cmd :=
        match python_exe with
        | Some exe => if agent_server.truthy exe then [exe; "-m"; "pip"] else ["pip"]
        | None => ["pip"]
        end in
      try_except
        (in_world (subprocess_run (pip_cmd ++ ["install"; "-r"; "requirements.txt"])
                     repo_path false 300) ;; ret tt)
        (any_exception (fun _ => ret tt))
    else ret tt
  else ret tt.

(** The remote branch of [_run_tests]: one request to the sandbox. *)
Definition run_tests_remote : R string :=
  try_except
    (let url := Py.rstrip_by (Ascii.eqb "/") (sandbox_url cfg) ++ "/run-tests" in
     let headers :=
       if agent_server.truthy (sandbox_token cfg)
       then [("X-Sandbox-Token", sandbox_token cfg)] else [] in
     branch <- self_read branch_name ;;
     resp <- in_world (httpx_post url (repo_url cfg) branch 120 headers 150) ;;
     (* resp.raise_for_status(): every status but 2xx raises *)
     (if negb ((200 <=? status_code resp) && (status_code resp <=? 299))
      then raise (Exception_ "HTTPStatusError") else ret tt) ;;
     (* resp.json() *)
     data <-
       match json resp with
       | Some data => ret data
       | None => raise (ValueError "JSONDecodeError")
       end ;;
     (if reply_timed_out data
      then _emit_progress "warning" "Sandbox tests timed out" None
      else ret tt) ;;
     ret (reply_stdout data ++ nl ++ reply_stderr data))
    (any_exception (fun e =>
       _emit_progress "error" ("Sandbox test execution failed: " ++ str_exn e) None ;;
       ret EmptyString)).

(** The local branch of [_run_tests]: a child process, given 120 seconds.
    The thread that reports that the tests are still running is left out. *)
Definition run_tests_local (repo_path : string) (test_command : list string)
    : R string :=
  try_except
    (python <- self_read (is_kind "python") ;;
     javascript <- self_read (is_kind "javascript") ;;
     exe <- self_read venv_python ;;
     let cmd :=
       if python : bool then
         [match exe with
          | Some e => if agent_server.truthy e then e else "python"
          | None => "python"
          end; "-m"; "pytest"; "--maxfail=10"; "-v"; "--tb=short"]
       else if javascript : bool then [Py.join " " test_command]
       else test_command in
     process <- in_world (popen cmd repo_path javascript) ;;
     finished <-
       try_except
         (done <- in_world (communicate process (Some 120)) ;; ret (Some done))
         (only_timeout
            (in_world (kill process) ;;
             in_world (communicate process None) ;;
             _emit_progress "warning" "Test execution timed out" None ;;
             ret None)) ;;
     match finished with
     | None => ret EmptyString
     | Some done =>
         let output := stdout done ++ nl ++ stderr done in
         (if returncode done =? 0
          then _emit_progress "success" "Tests completed successfully" None
          else _emit_progress "info"
                 ("Tests completed with " ++ Py.str_of_int (returncode done)
                  ++ " failures") None) ;;
         ret output
     end)
    (any_exception (fun e =>
       _emit_progress "error" ("Error running tests: " ++ str_exn e) None ;;
       ret EmptyString)).

Definition _run_tests (repo_path : string) : R string :=
  command <- self_read test_command ;;
  match command with
  | None => raise (Exception_ "TypeError")   (* ' '.join(None) *)
  | Some test_command =>
      if remote then run_tests_remote
      else run_tests_local repo_path test_command
  end.

(** [self.fixer.apply_fix(error)]: the rule engine on the files of the
    world *)
Definition fixer_apply_fix (error : ErrorInfo) : R bool :=
  engine <- self_read fixer ;;
  match engine with
  | None => raise (Exception_ "AttributeError")
  | Some repo_path =>
      fun sw =>
        let '(success, fs') :=
          FixEngine.apply_fix typing_set_order repo_path error (files (snd sw)) in
        (Ok success, (fst sw, set_files fs' (snd sw)))
  end.

Definition record_fix (error : ErrorInfo) (message status : string) : R unit :=
  self_update (fun self =>
    set_fixes
      (fixes self ++
       [{| fix_file := err_file error;
           fix_line := err_line error;
           fix_type := type_value (err_type error);
           commit_message := message;
           fix_status := status |}])
      self).

Definition _apply_and_commit_fix (error : ErrorInfo) : R bool :=
  let where_ :=
    type_value (err_type error) ++ " in " ++ Py.basename (err_file error)
    ++ ":" ++ Py.str_of_int (err_line error) in
  _emit_progress "fixing" ("Fixing " ++ where_) None ;;
  success <- fixer_apply_fix error ;;
  if success : bool then
    try_except
      (commit_message <-
         in_git (GitHandler.commit_fix (err_file error)
                   (type_value (err_type error)) (err_line error)
                   (err_message error)) ;;
       _emit_progress "success" ("Fixed " ++ where_) None ;;
       record_fix error commit_message "Fixed" ;;
       ret true)
      (any_exception (fun _ => ret false))
  else
    record_fix error "" "Failed" ;;
    ret false.

(** [for error in errors: if self._apply_and_commit_fix(error): fixed_count += 1] *)
Fixpoint apply_fixes (errors : list ErrorInfo) (fixed_count : Z) : R Z :=
  match errors with
  | [] => ret fixed_count
  | error :: errors' =>
      fixed <- _apply_and_commit_fix error ;;
      apply_fixes errors' (if fixed : bool then fixed_count + 1 else fixed_count)
  end.

(** The body of the repair loop for one value of [iteration]; the result
    says whether the loop goes on ([false] stands for [break]). *)
Definition iteration_body (iteration : Z) (branch_name repo_path : string)
    : R bool :=
  self_update (set_iterations (iteration + 1)) ;;
  _emit_progress "testing"
    ("Running tests (Iteration " ++ Py.str_of_int (iteration + 1) ++ "/"
     ++ Py.str_of_int (max_retries cfg) ++ ")...") None ;;
  (if remote then
     pushed <- in_git (GitHandler.push_branch branch_name) ;;
     if pushed : bool then ret tt
     else
       _emit_progress "error" "Failed to push branch updates for sandbox" None ;;
       raise (Exception_ "Failed to push branch updates for sandbox")
   else ret tt) ;;
  test_output <- _run_tests repo_path ;;
  errors <- world_read (parse_errors test_output repo_path) ;;
  match errors with
  | [] =>
      _emit_progress "success" "All tests passed!" None ;;
      ret false
  | _ :: _ =>
      self_update (set_total_failures (len errors)) ;;
      _emit_progress "warning"
        ("Found " ++ Py.str_of_int (len errors) ++ " error(s) to fix") None ;;
      _emit_progress "fixing"
        ("Applying fixes to " ++ Py.str_of_int (len errors) ++ " error(s)...")
        None ;;
      fixed_count <- apply_fixes errors 0 ;;
      _emit_progress "info"
        ("Applied " ++ Py.str_of_int fixed_count ++ " fix(es) in iteration "
         ++ Py.str_of_int (iteration + 1)) None ;;
      if fixed_count =? 0 then
        _emit_progress "error" "No fixes could be applied. Stopping iterations."
          None ;;
        ret false
      else ret true
  end.

(** [for iteration in range(self.max_retries)], with [todo] values of
    [iteration] still to come *)
Fixpoint fix_loop (todo : nat) (iteration : Z) (branch_name repo_path : string)
    : R unit :=
  match todo with
  | O => ret tt
  | S todo' =>
      go_on <- iteration_body iteration branch_name repo_path ;;
      if go_on : bool then fix_loop todo' (iteration + 1) branch_name repo_path
      else ret tt
  end.

Definition _save_results (response : AgentResponse) : R unit :=
  try_except (in_world (write_results response))
    (any_exception (fun _ => ret tt)).

Definition run : R AgentResponse :=
  _emit_progress "info" ("Starting AI DevOps Agent for " ++ repo_url cfg) None ;;
  (* Step 1: clone the repository *)
  _emit_progress "cloning" "Cloning repository..." None ;;
  repo_path <- in_git (GitHandler.clone_repo (repo_url cfg)) ;;
  self_update (set_fixer repo_path) ;;
  _emit_progress "success" "Repository cloned successfully" None ;;
  (* Step 1.5: detect the project type *)
  _emit_progress "analyzing" "Detecting project type..." None ;;
  _detect_project_type repo_path ;;
  kind <- self_read project_type ;;
  _emit_progress "info"
    ("Detected " ++ match kind with Some k => k | None => "None" end
     ++ " project") None ;;
  (* Step 2.5: a virtual environment, locally and for Python only *)
  python <- self_read (is_kind "python") ;;
  (if negb remote && python then
     _emit_progress "venv" "Creating isolated Python environment..." None ;;
     _create_venv repo_path ;;
     _emit_progress "success" "Virtual environment created" None
   else ret tt) ;;
  (* Step 2: install dependencies, locally only *)
  (if negb remote then
     _emit_progress "installing" "Installing dependencies..." None ;;
     _install_dependencies repo_path ;;
     _emit_progress "success" "Dependencies installed" None
   else ret tt) ;;
  (* Step 3: the branch *)
  _emit_progress "info" "Creating feature branch..." None ;;
  branch_name <- in_git (GitHandler.create_branch (team cfg) (leader cfg)) ;;
  self_update (set_branch_name branch_name) ;;
  _emit_progress "success" ("Branch created: " ++ branch_name) None ;;
  (if remote then
     _emit_progress "info" "Pushing branch for sandbox access..." None ;;
     pushed <- in_git (GitHandler.push_branch branch_name) ;;
     if pushed : bool then ret tt
     else raise (Exception_ "Failed to push branch for sandbox access")
   else ret tt) ;;
  (* Step 4: the repair loop *)
  fix_loop (Z.to_nat (max_retries cfg)) 0 branch_name repo_path ;;
  (* Step 5: push, if anything was recorded *)
  recorded <- self_read fixes ;;
  (if len recorded >? 0 then
     _emit_progress "pushing" "Pushing changes to GitHub..." None ;;
     try_except
       (in_git (GitHandler.push_branch branch_name) ;;
        _emit_progress "success" ("Branch pushed: " ++ branch_name) None)
       (any_exception (fun e =>
          _emit_progress "error" ("Failed to push branch: " ++ str_exn e) None))
   else _emit_progress "warning" "No fixes were applied, skipping push" None) ;;
  (* Step 6: the report *)
  _emit_progress "completing" "Generating final report..." None ;;
  response <- self_read (_generate_response cfg branch_name) ;;
  _emit_progress "completed"
    ("Agent run completed! Status: " ++ status response)
    (Some {| data_status := status response;
             data_total_fixes := total_fixes response;
             data_total_failures := models.total_failures response;
             data_iterations := models.iterations response;
             data_branch := branch_name |}) ;;
  (* Step 7: results.json *)
  _save_results response ;;
  ret response.

End Methods.
End DockerRunner.

(** * Vocabulary of the properties *)

(** An outcome that reports a fix. *)
Definition Fixed (f : FixResult) : Prop := fix_status f = "Fixed".

(** A rule of the dispatcher is quiet when it leaves the file store as it
    found it unless it answers True. *)
Definition quiet (r : Res bool * FS) (fs : FS) : Prop :=
  fst r = Ok true \/ snd r = fs.

(** A text without line breaks. *)
Fixpoint plain (s : string) : bool :=
  match s with
  | EmptyString => true
  | String c s' =>
      negb (Ascii.eqb c Py.LF) && negb (Ascii.eqb c Py.CR) && plain s'
  end.

Fixpoint no_cr (s : string) : bool :=
  match s with
  | EmptyString => true
  | String c s' => negb (Ascii.eqb c Py.CR) && no_cr s'
  end.

(** The lists of lines that reading a file can give: every line but the
    last ends in its line feed, which is its only line break, and the last
    one may lack it. *)
Inductive shaped : list string -> Prop :=
| shaped_nil : shaped []
| shaped_last (s : string) :
    plain s = true -> s <> EmptyString -> shaped [s]
| shaped_cons (body : string) (rest : list string) :
    plain body = true -> shaped rest -> shaped ((body ++ nl) :: rest).

(** The line [_initialize_variable] inserts above the line [cur]. *)
Definition initializer_for (name cur : string) : string :=
  Py.spaces (Py.indent_of cur) ++ name
  ++ " = None  # AI-AGENT: Auto-initialized" ++ nl.

(** What a computation establishes from a state: [Q] on the value and state
    it returns, [E] on the exception and state it raises. *)
Definition wp {S A} (c : ST S A) (Q : A -> S -> Prop) (E : exn -> S -> Prop)
    (s : S) : Prop :=
  match c s with
  | (Ok a, s') => Q a s'
  | (Raise e, s') => E e s'
  end.

(** A computation that leaves a view [f] of the runner as it was, however it
    ends. *)
Definition keeps {X A B} (f : DockerRunner.t -> B)
    (c : ST (DockerRunner.t * World X) A) : Prop :=
  forall s,
    wp c (fun _ s' => f (fst s') = f (fst s))
      (fun _ s' => f (fst s') = f (fst s)) s.


(** A computation that keeps the runner within [I], however it ends. *)
Definition stays {X A} (I : DockerRunner.t -> Prop)
    (c : ST (DockerRunner.t * World X) A) : Prop :=
  forall s,
    I (fst s) -> wp c (fun _ s' => I (fst s')) (fun _ s' => I (fst s')) s.

(** A property of the runner that the repair loop cannot break through the
    fields it writes besides the count of iterations. *)
Definition loop_invariant (I : DockerRunner.t -> Prop) : Prop :=
  (forall g self, I self -> I (DockerRunner.set_git_handler g self)) /\
  (forall l self, I self -> I (DockerRunner.set_fixes l self)) /\
  (forall n self, I self -> I (DockerRunner.set_total_failures n self)).


Section Phases.
Context {X : Type} `{Primitives X} `{AppModules X}.
Variable cfg : DockerRunner.Config.

(** The outcome [_apply_and_commit_fix] records for a failure. *)
Definition outcome_of (error : ErrorInfo) (message status : string) : FixResult :=
  {| fix_file := err_file error;
     fix_line := err_line error;
     fix_type := type_value (err_type error);
     commit_message := message;
     fix_status := status |}.

(** The first half of [_apply_and_commit_fix]: the event that announces the
    fix, and the dispatch. *)
Definition attempt (error : ErrorInfo) : ST (DockerRunner.t * World X) bool :=
  DockerRunner._emit_progress cfg "fixing"
    ("Fixing "
     ++ (type_value (err_type error) ++ " in " ++ Py.basename (err_file error)
         ++ ":" ++ Py.str_of_int (err_line error))) None ;;
  DockerRunner.fixer_apply_fix error.

(** The commit [_apply_and_commit_fix] asks for after a successful
    dispatch. *)
Definition commit_of (error : ErrorInfo) : ST (DockerRunner.t * World X) string :=
  DockerRunner.in_git
    (GitHandler.commit_fix (err_file error) (type_value (err_type error))
       (err_line error) (err_message error)).

(** The start of an iteration, up to the test run. *)
Definition before_tests (iteration : Z) (branch_name : string)
    : ST (DockerRunner.t * World X) unit :=
  self_update (DockerRunner.set_iterations (iteration + 1)) ;;
  DockerRunner._emit_progress cfg "testing"
    ("Running tests (Iteration " ++ Py.str_of_int (iteration + 1) ++ "/"
     ++ Py.str_of_int (DockerRunner.max_retries cfg) ++ ")...") None ;;
  (if DockerRunner.remote cfg then
     pushed <- DockerRunner.in_git (GitHandler.push_branch branch_name) ;;
     if pushed : bool then ret tt
     else
       DockerRunner._emit_progress cfg "error"
         "Failed to push branch updates for sandbox" None ;;
       raise (Exception_ "Failed to push branch updates for sandbox")
   else ret tt).

(** The first part of an iteration of the repair loop: up to the list of
    classified failures. *)
Definition classification (iteration : Z) (branch_name repo_path : string)
    : ST (DockerRunner.t * World X) (list ErrorInfo) :=
  before_tests iteration branch_name ;;
  test_output <- DockerRunner._run_tests cfg repo_path ;;
  world_read (parse_errors test_output repo_path).

(** The second part, for a non-empty list of failures: up to the number of
    fixes applied and committed. *)
Definition fixing (iteration : Z) (errors : list ErrorInfo)
    : ST (DockerRunner.t * World X) Z :=
  self_update (DockerRunner.set_total_failures (len errors)) ;;
  DockerRunner._emit_progress cfg "warning"
    ("Found " ++ Py.str_of_int (len errors) ++ " error(s) to fix") None ;;
  DockerRunner._emit_progress cfg "fixing"
    ("Applying fixes to " ++ Py.str_of_int (len errors) ++ " error(s)...")
    None ;;
  fixed_count <- DockerRunner.apply_fixes cfg errors 0 ;;
  DockerRunner._emit_progress cfg "info"
    ("Applied " ++ Py.str_of_int fixed_count ++ " fix(es) in iteration "
     ++ Py.str_of_int (iteration + 1)) None ;;
  ret fixed_count.












End Phases.


(** * Concrete inputs *)

Module Lab.

Definition repo_root : string := "/workspace/demo".

Definition file_of (l : list string) : string := Py.concat_lines l.

(** A module with an assignment inside a condition on its tenth line. *)
Definition shapes_py : string :=
  file_of
    ["import math" ++ nl;
     nl;
     "def area(r):" ++ nl;
     "    return math.pi * r * r" ++ nl;
     nl;
     "def classify(x):" ++ nl;
     "    kind = 'none'" ++ nl;
     "    if x < 0:" ++ nl;
     "        kind = 'negative'" ++ nl;
     "if x = 5:" ++ nl;
     "    kind = 'five'" ++ nl].

Definition shapes_fs : FS := {[ "/workspace/demo/shapes.py" := shapes_py ]}.

Definition invalid_syntax : ErrorInfo :=
  {| err_type := SYNTAX; err_file := "shapes.py"; err_line := 10;
     err_message := "SyntaxError: invalid syntax" |}.

(** A record the dispatcher declines: the rule for a division by zero. *)
Definition division_by_zero : ErrorInfo :=
  {| err_type := LOGIC; err_file := "shapes.py"; err_line := 4;
     err_message := "ZeroDivisionError: division by zero" |}.

(** A script that uses a name it never defines. *)
Definition report_py : string :=
  file_of ["import os" ++ nl; "print(total)" ++ nl].

Definition report_fs : FS := {[ "/workspace/demo/report.py" := report_py ]}.

Definition undefined_total : ErrorInfo :=
  {| err_type := LOGIC; err_file := "report.py"; err_line := 2;
     err_message := "NameError: name 'total' is not defined" |}.

(** The match of [name '( .*? )' is not defined] in that message. *)
Definition total_found : Re.found :=
  {| Re.start := 11;
     Re.matched := "name 'total' is not defined";
     Re.groups := [(1%nat, "total")];
     Re.after := "" |}.

(** An import list in which one name is the beginning of another. *)
Definition draw_py : string :=
  file_of ["from shapes import area, area_of_circle, perimeter" ++ nl;
           "print(perimeter(2))" ++ nl].

Definition draw_fs : FS := {[ "/workspace/demo/draw.py" := draw_py ]}.

Definition cannot_import_area : ErrorInfo :=
  {| err_type := IMPORT; err_file := "draw.py"; err_line := 1;
     err_message := "ImportError: cannot import name 'area' from 'shapes'" |}.

(** *** A host for the sandbox service: what its next commands do is
    scripted; when the script is used up a command succeeds silently. *)

Record Host : Type := {
  host_runs : list (agent_server.process_error + CompletedProcess);
  host_paths : list string
}.

Definition silent : CompletedProcess :=
  {| returncode := 0; stdout := ""; stderr := "" |}.

Definition host_run (cmd : list string) (cwd : string) (timeout_sec : Z)
    (y : Host) : (agent_server.process_error + CompletedProcess) * Host :=
  match host_runs y with
  | [] => (inr silent, y)
  | r :: rs => (r, {| host_runs := rs; host_paths := host_paths y |})
  end.

Definition host_exists (p : string) (y : Host) : bool :=
  existsb (String.eqb p) (host_paths y).

Definition host_tmpdir (y : Host) : string * Host :=
  ("/tmp/agent-workspace-0", y).

Definition host_cleanup (tmpdir : string) (y : Host) : Host := y.

Definition sandbox (env_token : option string)
    (req : agent_server.RunTestsRequest) (header : option string) (y : Host)
    : Response * Host :=
  agent_server.post_run_tests Host host_run host_exists host_tmpdir
    host_cleanup env_token req header y.

Definition demo_request : agent_server.RunTestsRequest :=
  {| agent_server.repo_url := "https://github.com/acme/demo.git";
     agent_server.branch := Some "ACME_ANA_AI_FIX";
     agent_server.timeout_sec := 120 |}.

(** A host on which the clone succeeds and the test command runs out of
    time. *)
Definition slow_host : Host :=
  {| host_runs := [inr silent; inl agent_server.Expired];
     host_paths := [] |}.

(** *** A world for the orchestrator: what git, the processes and the
    network do next is scripted, and the events sent to the sink are kept. *)

Record Outside : Type := {
  remote_files : FS;                        (* what a clone checks out *)
  clone : Res unit;                         (* what Repo.clone_from does *)
  checkouts : list (Res unit);              (* the next calls of git checkout *)
  commits : list (Res unit);                (* the next calls of index.commit *)
  pushes : list (Res unit);                 (* the next calls of origin.push *)
  runs : list (Res CompletedProcess);       (* the next test processes *)
  replies : list (Res Response);            (* the next answers of the sandbox *)
  classifier : list (string * list ErrorInfo);
  events : list (string * string);          (* latest first *)
  committed : list string                   (* commit messages, latest first *)
}.

(** A scripted result, as a primitive that raises exceptions only gives it:
    a [SystemExit] in a script stands for the exception of that name. *)
Definition scripted {A} (r : Res A) : Res A :=
  match r with
  | Raise (SystemExit _) => Raise (Exception_ "SystemExit")
  | _ => r
  end.

Definition next {A} (script : list (Res A)) (default : Res A)
    : Res A * list (Res A) :=
  match script with
  | [] => (scripted default, [])
  | r :: rs => (scripted r, rs)
  end.

Definition with_outside (f : Outside -> Outside) (w : World Outside)
    : World Outside :=
  {| files := files w; outside := f (outside w) |}.

Definition lab_clone (url path : string) : ST (World Outside) unit :=
  fun w =>
    match clone (outside w) with
    | Ok _ => (Ok tt, set_files (remote_files (outside w)) w)
    | Raise e => (Raise e, w)
    end.

Definition lab_checkout (name : string) : ST (World Outside) unit :=
  fun w =>
    let '(r, rs) := next (checkouts (outside w)) (Ok tt) in
    (r, with_outside (fun o =>
          {| remote_files := remote_files o; clone := clone o;
             checkouts := rs; commits := commits o; pushes := pushes o;
             runs := runs o; replies := replies o;
             classifier := classifier o; events := events o;
             committed := committed o |}) w).

Definition lab_commit (message : string) : ST (World Outside) unit :=
  fun w =>
    let '(r, rs) := next (commits (outside w)) (Ok tt) in
    (r, with_outside (fun o =>
          {| remote_files := remote_files o; clone := clone o;
             checkouts := checkouts o; commits := rs; pushes := pushes o;
             runs := runs o; replies := replies o;
             classifier := classifier o; events := events o;
             committed :=
               match r with
               | Ok _ => message :: committed o
               | Raise _ => committed o
               end |}) w).

Definition lab_push (refspec : string) : ST (World Outside) unit :=
  fun w =>
    let '(r, rs) := next (pushes (outside w)) (Ok tt) in
    (r, with_outside (fun o =>
          {| remote_files := remote_files o; clone := clone o;
             checkouts := checkouts o; commits := commits o; pushes := rs;
             runs := runs o; replies := replies o;
             classifier := classifier o; events := events o;
             committed := committed o |}) w).

Definition lab_communicate (process : nat) (timeout : option Z)
    : ST (World Outside) CompletedProcess :=
  fun w =>
    let '(r, rs) := next (runs (outside w)) (Ok silent) in
    (r, with_outside (fun o =>
          {| remote_files := remote_files o; clone := clone o;
             checkouts := checkouts o; commits := commits o; pushes := pushes o;
             runs := rs; replies := replies o;
             classifier := classifier o; events := events o;
             committed := committed o |}) w).

Definition lab_post (url repo_url : string) (branch : option string)
    (timeout_sec : Z) (headers : list (string * string)) (timeout : Z)
    : ST (World Outside) Response :=
  fun w =>
    let '(r, rs) :=
      next (replies (outside w)) (Raise (Exception_ "ConnectError")) in
    (r, with_outside (fun o =>
          {| remote_files := remote_files o; clone := clone o;
             checkouts := checkouts o; commits := commits o; pushes := pushes o;
             runs := runs o; replies := rs;
             classifier := classifier o; events := events o;
             committed := committed o |}) w).

(** The classifier of the laboratory: nothing for the empty output, and the
    failures listed for an output of the table. *)
Definition lab_parse (test_output repo_path : string) (w : World Outside)
    : list ErrorInfo :=
  if String.eqb test_output "" then []
  else
    match List.find (fun entry => String.eqb (fst entry) test_output)
            (classifier (outside w)) with
    | Some entry => snd entry
    | None => []
    end.

Definition lab_progress (status message : string) (data : option ProgressData)
    (o : Outside) : Outside :=
  {| remote_files := remote_files o; clone := clone o;
     checkouts := checkouts o; commits := commits o; pushes := pushes o;
     runs := runs o; replies := replies o;
     classifier := classifier o; events := (status, message) :: events o;
     committed := committed o |}.

(** The members of [ErrorType] under their own names. *)
Definition kind_name (kind : ErrorType) : string :=
  match kind with
  | SYNTAX => "SYNTAX"
  | INDENTATION => "INDENTATION"
  | TYPE_ERROR => "TYPE_ERROR"
  | IMPORT => "IMPORT"
  | LOGIC => "LOGIC"
  | LINTING => "LINTING"
  end.

(** The scripted primitives raise exceptions only. *)
Ltac returns_only := intros; intros w e w' Heq; discriminate Heq.
Ltac scripted_only script :=
  intros; intros w e w' Heq;
  cbv beta iota delta
    [lab_commit lab_push lab_communicate lab_post next with_outside] in Heq;
  destruct (script (outside w)) as [|[a|[]] rs]; cbn [scripted] in Heq;
  first [discriminate Heq | injection Heq as <- _; reflexivity].

#[global] Instance lab_primitives : Primitives Outside := {|
  path_exists := fun p w => exists_ p (files w);
  rmtree := fun p => ret tt;
  time_time := fun w => 1700000000;
  clone_from := lab_clone;
  git_checkout_b := lab_checkout;
  git_checkout := lab_checkout;
  index_add := fun p => ret tt;
  index_commit := lab_commit;
  origin_push := lab_push;
  venv_create := fun p => ret tt;
  subprocess_run := fun cmd cwd shell timeout => ret silent;
  popen := fun cmd cwd shell => ret O;
  communicate := lab_communicate;
  kill := fun process => ret tt;
  httpx_post := lab_post;
  write_results := fun response => ret tt;
  typing_set_order :=
    ["List"; "Dict"; "Optional"; "Set"; "Tuple"; "Union"; "Any"; "Callable"];
  rmtree_raises := ltac:(returns_only);
  index_add_raises := ltac:(returns_only);
  index_commit_raises := ltac:(scripted_only commits);
  origin_push_raises := ltac:(scripted_only pushes);
  subprocess_run_raises := ltac:(returns_only);
  popen_raises := ltac:(returns_only);
  communicate_raises := ltac:(scripted_only runs);
  kill_raises := ltac:(returns_only);
  httpx_post_raises := ltac:(scripted_only replies);
  write_results_raises := ltac:(returns_only)
|}.


#[global] Instance lab_modules : AppModules Outside := {|
  parse_errors := lab_parse;
  send_progress_sync := lab_progress;
  type_value := kind_name
|}.

(** *** The demo repository: two assignments where comparisons were meant *)

Definition faulty_py : string :=
  file_of
    ["def classify(x):" ++ nl;
     "    kind = 'other'" ++ nl;
     "    if x = 5:" ++ nl;
     "        kind = 'five'" ++ nl;
     "    y = x + 1" ++ nl;
     "    if y = 7:" ++ nl;
     "        kind = 'six'" ++ nl;
     "    return kind" ++ nl].

Definition demo_files : FS :=
  {[ "/workspace/demo/requirements.txt" := "pytest" ++ nl;
     "/workspace/demo/faulty.py" := faulty_py ]}.

Definition fault_at (line : Z) : ErrorInfo :=
  {| err_type := SYNTAX; err_file := "faulty.py"; err_line := line;
     err_message := "SyntaxError: invalid syntax" |}.

Definition failing (out : string) : Res CompletedProcess :=
  Ok {| returncode := 1; stdout := out; stderr := "" |}.

Definition demo_config (budget : Z) (sandbox_url : string)
    : DockerRunner.Config :=
  {| DockerRunner.repo_url := "https://github.com/acme/demo.git";
     DockerRunner.team := "Acme";
     DockerRunner.leader := "Ana";
     DockerRunner.max_retries := budget;
     DockerRunner.has_sink := true;
     DockerRunner.sandbox_url := sandbox_url;
     DockerRunner.sandbox_token := "";
     DockerRunner.WORKSPACE_DIR := "/workspace";
     DockerRunner.win32 := false |}.

Definition demo_outside : Outside :=
  {| remote_files := demo_files;
     clone := Ok tt;
     checkouts := [];
     commits := [];
     pushes := [];
     runs := [];
     replies := [];
     classifier :=
       [("first report" ++ nl, [fault_at 3]);
        ("second report" ++ nl, [fault_at 6]);
        ("both" ++ nl, [fault_at 3; fault_at 6]);
        ("foreign" ++ nl, [division_by_zero])];
     events := [];
     committed := [] |}.

Definition with_runs (l : list (Res CompletedProcess)) (o : Outside) : Outside :=
  {| remote_files := remote_files o; clone := clone o;
     checkouts := checkouts o; commits := commits o; pushes := pushes o;
     runs := l; replies := replies o;
     classifier := classifier o; events := events o;
     committed := committed o |}.

Definition with_commits (l : list (Res unit)) (o : Outside) : Outside :=
  {| remote_files := remote_files o; clone := clone o;
     checkouts := checkouts o; commits := l; pushes := pushes o;
     runs := runs o; replies := replies o;
     classifier := classifier o; events := events o;
     committed := committed o |}.


Definition with_replies (l : list (Res Response)) (o : Outside) : Outside :=
  {| remote_files := remote_files o; clone := clone o;
     checkouts := checkouts o; commits := commits o; pushes := pushes o;
     runs := runs o; replies := l;
     classifier := classifier o; events := events o;
     committed := committed o |}.


(** A run starts in an empty workspace. *)
Definition start (cfg : DockerRunner.Config) (o : Outside)
    : DockerRunner.t * World Outside :=
  (DockerRunner.__init__ cfg, {| files := ∅; outside := o |}).

(** Budget three: the first two test runs report one fault each, the third
    reports nothing. *)
Definition two_faults_then_green : Outside :=
  with_runs [failing "first report"; failing "second report"; Ok silent]
    demo_outside.

(** The runner and the world once the demo repository is cloned, its kind
    detected and its branch created. *)
Definition cloned (o : Outside) : DockerRunner.t * World Outside :=
  ({| DockerRunner.git_handler :=
        {| GitHandler.workspace_dir := "/workspace";
           GitHandler.repo := Some "/workspace/demo";
           GitHandler.repo_path := Some "/workspace/demo" |};
      DockerRunner.fixer := Some "/workspace/demo";
      DockerRunner.project_type := Some "python";
      DockerRunner.test_command := Some ["pytest"; "--maxfail=10"; "-v"];
      DockerRunner.venv_path := None;
      DockerRunner.venv_python := None;
      DockerRunner.fixes := [];
      DockerRunner.total_failures := 0;
      DockerRunner.iterations := 0;
      DockerRunner.branch_name := Some "ACME_ANA_AI_FIX" |},
   {| files := demo_files; outside := o |}).

(** What the sandbox service answers when its test command runs out of
    time, as the next answer the orchestrator gets. *)
Definition timed_out_reply : Response :=
  fst (sandbox None demo_request None slow_host).

Definition sandbox_timed_out : Outside :=
  with_replies [Ok timed_out_reply] demo_outside.

Definition local_config : DockerRunner.Config := demo_config 3 "".

Definition sandbox_config : DockerRunner.Config :=
  demo_config 3 "http://sandbox:9000/".


(** A test run that reports a failure in a file the repository does not
    have. *)
Definition foreign_failure : Outside :=
  with_runs [failing "foreign"] demo_outside.

(** A test run that finishes without a word. *)
Definition tests_pass : Outside := with_runs [Ok silent] demo_outside.

(** The first commit is refused, the next ones go through. *)
Definition first_commit_refused : Outside :=
  with_commits [Raise GitCommandError]
    (with_runs [failing "both"] demo_outside).



(** The report of the run with a budget of three on the demo repository. *)
Definition green_report : AgentResponse :=
  {| repo := "https://github.com/acme/demo.git";
     branch := "ACME_ANA_AI_FIX";
     total_failures := 1;
     total_fixes := 2;
     iterations := 3;
     status := "PASSED";
     fixes :=
       [{| fix_file := "faulty.py"; fix_line := 3; fix_type := "SYNTAX";
           commit_message := "[AI-AGENT] Fixed SYNTAX error in faulty.py line 3";
           fix_status := "Fixed" |};
        {| fix_file := "faulty.py"; fix_line := 6; fix_type := "SYNTAX";
           commit_message := "[AI-AGENT] Fixed SYNTAX error in faulty.py line 6";
           fix_status := "Fixed" |}] |}.

(** The runner of the demo in front of the module with the assignment on
    its tenth line. *)
Definition at_shapes : DockerRunner.t * World Outside :=
  (fst (cloned demo_outside), {| files := shapes_fs; outside := demo_outside |}).

End Lab.

(** * Vocabulary of the further properties *)

(** A store that differs from [fs] at most in the text of [target]. *)
Definition edits_only (target : string) (fs fs' : FS) : Prop :=
  fs' = fs \/ exists lines, fs' = writelines target lines fs.

(** What a rule that works on line [n] (counted from 0) of [lines] may
    answer: False with the lines as they were, or True with that one line
    replaced; it does not raise. *)
Definition rewrites_line (lines : list string) (n : nat)
    (r : Res (bool * list string)) : Prop :=
  match r with
  | Ok (false, lines') => lines' = lines
  | Ok (true, lines') => exists new_line, lines' = <[n := new_line]> lines
  | Raise _ => False
  end.

(** The position in a list that Python's index [i] stands for: from the
    start when it is not negative, from the end when it is. *)
Definition position {A} (l : list A) (i : Z) : nat :=
  Z.to_nat (if i <? 0 then len l + i else i).

(** A line that ends in its line feed, which is its only line break. *)
Definition full_line (s : string) : Prop :=
  exists body, plain body = true /\ s = body ++ nl.

(** A line that does not open an import from [typing]. *)
Definition not_typing_import (line : string) : Prop :=
  Py.startswith "from typing import" line = false.

(** The pattern that finds [name] as a word of its own. *)
Definition re_whole_word (name : string) : Re.regex :=
  FixEngine.cat [Re.WordB; Re.lit name; Re.WordB].

(** The lines [_comment_out_import] looks for: they mention the import of
    the module and are not comments already. *)
Definition imports_module (module_name line : string) : bool :=
  (Py.contains ("import " ++ module_name) line
   || Py.contains ("from " ++ module_name) line)
  && negb (Py.startswith "#" (Py.strip line)).

(** The name [clone_repo] gives the checkout of [repo_url]: the last
    component of the address, without any [.git]. *)
Definition checkout_name (repo_url : string) : string :=
  Py.replace ".git" ""
    (default "" (last (Py.split "/" (Py.rstrip_by (Ascii.eqb "/") repo_url)))).

(** The parts of [run_tests] of the sandbox: the command of its clone, the
    project type it detects in the clone, and the commands it runs under the
    timeout of the request (the body of its second [try]). *)
Definition clone_command (req : agent_server.RunTestsRequest) (tmpdir : string)
    : list string :=
  (["git"; "clone"; "--depth"; "1"]
   ++ match agent_server.branch req with
      | Some b => if agent_server.truthy b then ["--branch"; b] else []
      | None => []
      end
   ++ [agent_server.repo_url req; Py.path_join tmpdir "repo"])%list.

Section SandboxParts.
Variable Y : Type.
Variable run :
  list string -> string -> Z -> Y ->
  (agent_server.process_error + CompletedProcess) * Y.
Variable host_exists : string -> Y -> bool.

Definition detected_type (repo_path : string) (y : Y) : string :=
  if host_exists (Py.path_join repo_path "package.json") y then "javascript"
  else if host_exists (Py.path_join repo_path "requirements.txt") y
       then "python"
       else "unknown".

Definition test_phase (req : agent_server.RunTestsRequest)
    (repo_path project_type : string) : ST Y CompletedProcess :=
  if String.eqb project_type "javascript" then
    agent_server._run_cmd Y run ["npm"; "install"] repo_path
      (agent_server.timeout_sec req) ;;
    agent_server._run_cmd Y run ["npm"; "test"; "--"; "--passWithNoTests"]
      repo_path (agent_server.timeout_sec req)
  else
    requirements <-
      (fun y => (Ok (host_exists (Py.path_join repo_path "requirements.txt") y), y)) ;;
    (if requirements : bool then
       agent_server._run_cmd Y run
         ["python"; "-m"; "pip"; "install"; "-r"; "requirements.txt"]
         repo_path (agent_server.timeout_sec req) ;; ret tt
     else ret tt) ;;
    agent_server._run_cmd Y run ["pytest"; "--maxfail=10"; "-v"; "--tb=short"]
      repo_path (agent_server.timeout_sec req).

End SandboxParts.

(** *** Concrete inputs *)

Module Lab2.

(** A module that annotates with [List] and does not import it. *)
Definition inventory_py : string :=
  Lab.file_of
    ["import os" ++ nl;
     "items: List[str] = []" ++ nl].

Definition inventory_fs : FS :=
  {[ "/workspace/demo/inventory.py" := inventory_py ]}.

Definition list_not_defined : string :=
  "NameError: name 'List' is not defined".

(** The match of [name '( \w+ )' is not defined] in that message. *)
Definition list_found : Re.found :=
  {| Re.start := 11;
     Re.matched := "name 'List' is not defined";
     Re.groups := [(1%nat, "List")];
     Re.after := "" |}.

(** A module with blanks at the end of its lines. *)
Definition tidy_py : string :=
  Lab.file_of
    ["total = 1   " ++ nl;
     "count = 2" ++ nl;
     "ratio = 3 " ++ String Py.TAB "" ++ nl].

Definition tidy_fs : FS := {[ "/workspace/demo/tidy.py" := tidy_py ]}.

Definition trailing_whitespace_at (line : Z) : ErrorInfo :=
  {| err_type := LINTING; err_file := "tidy.py"; err_line := line;
     err_message := "W291 trailing whitespace" |}.

End Lab2.

(** * Properties *)

(** ** The status of a report *)

Lemma successful_bounds (l : list FixResult) :
  0 <= DockerRunner.successful l <= len l.
Proof.
  unfold len. induction l as [|f l IH]; simpl; [lia|].
  destruct (String.eqb _ _); lia.
Qed.

Lemma successful_all (l : list FixResult) :
  DockerRunner.successful l = len l <-> forall f, In f l -> Fixed f.
Proof.
  unfold len, Fixed. induction l as [|f l IH]; simpl.
  - split; [intros _ f []|reflexivity].
  - pose proof (successful_bounds l) as B. unfold len in B.
    destruct (String.eqb_spec (fix_status f) "Fixed") as [E|E].
    + split.
      * intros Hs g [<-|Hg]; [exact E|]. apply IH; [lia|exact Hg].
      * intros Hall. assert (DockerRunner.successful l = Z.of_nat (length l)) as ->
          by (apply IH; intros g Hg; apply Hall; now right).
        lia.
    + split; [lia|]. intros Hall. exfalso. apply E, Hall. now left.
Qed.

Lemma successful_none (l : list FixResult) :
  DockerRunner.successful l = 0 <-> forall f, In f l -> ~ Fixed f.
Proof.
  unfold Fixed. induction l as [|f l IH]; simpl.
  - split; [intros _ f []|reflexivity].
  - pose proof (successful_bounds l) as B.
    destruct (String.eqb_spec (fix_status f) "Fixed") as [E|E].
    + split; [lia|]. intros Hnone. exfalso. apply (Hnone f); [now left|exact E].
    + rewrite IH. split.
      * intros Hn g [<-|Hg]; [exact E|now apply Hn].
      * intros Hn g Hg. apply Hn. now right.
Qed.

Lemma successful_some (l : list FixResult) :
  DockerRunner.successful l > 0 <-> exists f, In f l /\ Fixed f.
Proof.
  unfold Fixed. induction l as [|f l IH]; simpl.
  - split; [lia|intros (f & [] & _)].
  - pose proof (successful_bounds l) as B.
    destruct (String.eqb_spec (fix_status f) "Fixed") as [E|E].
    + split; [|lia]. intros _. exists f. split; [now left|exact E].
    + rewrite IH. split.
      * intros (g & Hg & HF). exists g. split; [now right|exact HF].
      * intros (g & [<-|Hg] & HF); [contradiction|]. exists g. now split.
Qed.

(** The three values of the status, each with the outcome lists that give it. *)
Lemma status_of_cases (l : list FixResult) :
  (DockerRunner.status_of l = "PASSED" <->
     (exists f, In f l /\ Fixed f) /\ (forall f, In f l -> Fixed f)) /\
  (DockerRunner.status_of l = "FAILED" <-> forall f, In f l -> ~ Fixed f) /\
  (DockerRunner.status_of l = "PARTIAL" <->
     ~ ((exists f, In f l /\ Fixed f) /\ (forall f, In f l -> Fixed f)) /\
     ~ (forall f, In f l -> ~ Fixed f)).
Proof.
  rewrite <- successful_some, <- successful_all, <- successful_none.
  unfold DockerRunner.status_of.
  pose proof (successful_bounds l) as B.
  destruct (Z.eqb_spec (DockerRunner.successful l) 0) as [E0|E0].
  - repeat split; try discriminate; try tauto; lia.
  - destruct (Z.gtb_spec (DockerRunner.successful l) 0) as [G|G]; [|lia].
    destruct (Z.eqb_spec (DockerRunner.successful l) (len l)) as [EL|EL]; simpl.
    + repeat split; try discriminate; try tauto; try lia.
    + repeat split; try discriminate; try tauto; try lia.
Qed.

(** ** The dispatcher writes only when it answers True *)

Ltac quiet_cases :=
  repeat match goal with
  | |- quiet (_, ?fs) ?fs => right; reflexivity
  | |- quiet (Ok true, _) _ => left; reflexivity
  | |- quiet (match ?x with _ => _ end) _ => destruct x
  | |- quiet (if ?x then _ else _) _ => destruct x
  | |- quiet (let '(_, _) := ?x in _) _ => destruct x
  end.

Lemma quiet_fix_syntax repo_path error fs :
  quiet (FixEngine._fix_syntax repo_path error fs) fs.
Proof.
  unfold FixEngine._fix_syntax.
  destruct (fs !! _); [|quiet_cases].
  destruct (_ || _); [quiet_cases|].
  match goal with |- quiet (match ?o with _ => _ end) _ => generalize o end.
  intros o. quiet_cases.
Qed.

Lemma quiet_fix_indentation repo_path error fs :
  quiet (FixEngine._fix_indentation repo_path error fs) fs.
Proof.
  unfold FixEngine._fix_indentation.
  destruct (fs !! _); [|quiet_cases].
  destruct (_ || _); [quiet_cases|].
  match goal with |- quiet (match ?o with _ => _ end) _ => generalize o end.
  intros o. quiet_cases.
Qed.

Lemma quiet_add_typing_import lines type_name file_path fs :
  quiet (FixEngine._add_typing_import lines type_name file_path fs) fs.
Proof.
  unfold FixEngine._add_typing_import.
  destruct (FixEngine.scan_imports _ _ _ _); [quiet_cases| |quiet_cases].
  match goal with |- quiet (match ?o with _ => _ end) _ => generalize o end.
  intros o. quiet_cases.
Qed.

Lemma quiet_fix_string_concatenation lines line_num message file_path fs :
  quiet (FixEngine._fix_string_concatenation lines line_num message file_path fs) fs.
Proof. unfold FixEngine._fix_string_concatenation. quiet_cases. Qed.

Lemma quiet_fix_type_error set_order repo_path error fs :
  quiet (FixEngine._fix_type_error set_order repo_path error fs) fs.
Proof.
  unfold FixEngine._fix_type_error.
  destruct (fs !! _); [|quiet_cases].
  assert (forall lines,
    quiet (if Py.contains "can only concatenate str" (err_message error)
              || Py.contains "must be str, not" (err_message error)
           then FixEngine._fix_string_concatenation lines (err_line error)
                  (err_message error) (Py.path_join repo_path (err_file error)) fs
           else if Py.contains "missing" (Py.lower (err_message error))
                   && Py.contains "required positional argument"
                        (Py.lower (err_message error))
           then (Ok false, fs)
           else if Py.contains "unsupported operand type"
                     (Py.lower (err_message error))
           then FixEngine._fix_operand_type lines (err_line error)
                  (err_message error) (Py.path_join repo_path (err_file error)) fs
           else (Ok false, fs)) fs) as Hrest.
  { intros lines. destruct (_ || _); [apply quiet_fix_string_concatenation|].
    unfold FixEngine._fix_operand_type. quiet_cases. }
  destruct (Py.contains "is not defined" _); [|apply Hrest].
  destruct (FixEngine._extract_undefined_name _ _ _) as [[name|]|e];
    [|apply Hrest|quiet_cases].
  destruct (FixEngine.in_list _ _); [apply quiet_add_typing_import|apply Hrest].
Qed.

Lemma quiet_comment_out_loop lines rest i module_name file_path fs :
  quiet (FixEngine.comment_out_loop lines rest i module_name file_path fs) fs.
Proof.
  revert i. induction rest as [|line rest IH]; intros i; simpl; [quiet_cases|].
  destruct (_ && _); [quiet_cases|apply IH].
Qed.

Lemma quiet_remove_from_loop lines rest i import_name file_path fs :
  quiet (FixEngine.remove_from_loop lines rest i import_name file_path fs) fs.
Proof.
  revert i. induction rest as [|line rest IH]; intros i; simpl; [quiet_cases|].
  destruct (_ && _); [|apply IH].
  destruct (FixEngine.without_import _ _); [quiet_cases|apply IH].
Qed.

Lemma quiet_fix_import repo_path error fs :
  quiet (FixEngine._fix_import repo_path error fs) fs.
Proof.
  unfold FixEngine._fix_import, FixEngine._comment_out_import,
    FixEngine._remove_from_import, FixEngine._fix_relative_import.
  destruct (fs !! _); [|quiet_cases].
  destruct (Re.search FixEngine.re_no_module _); [apply quiet_comment_out_loop|].
  destruct (Py.contains "cannot import name" _); [|quiet_cases].
  destruct (Re.search FixEngine.re_cannot_import _);
    [apply quiet_remove_from_loop|quiet_cases].
Qed.

Lemma quiet_fix_logic repo_path error fs :
  quiet (FixEngine._fix_logic repo_path error fs) fs.
Proof.
  unfold FixEngine._fix_logic, FixEngine._initialize_variable,
    FixEngine._fix_attribute_error.
  quiet_cases.
Qed.

Lemma quiet_fix_linting repo_path error fs :
  quiet (FixEngine._fix_linting repo_path error fs) fs.
Proof.
  unfold FixEngine._fix_linting, FixEngine._remove_unused_import,
    FixEngine._remove_unused_variable, FixEngine._remove_trailing_whitespace.
  destruct (fs !! _); [|quiet_cases].
  destruct (_ || _); [quiet_cases|].
  destruct (Py.contains "unused variable" _); [quiet_cases|].
  destruct (Py.contains "trailing whitespace" _); [|quiet_cases].
  destruct (_ <=? _); [|quiet_cases].
  match goal with |- quiet (match ?o with _ => _ end) _ => generalize o end.
  intros o. quiet_cases.
Qed.

Lemma quiet_dispatch_rule set_order repo_path error fs :
  quiet (FixEngine.dispatch_rule set_order repo_path error fs) fs.
Proof.
  unfold FixEngine.dispatch_rule. destruct (err_type error).
  - apply quiet_fix_syntax.
  - apply quiet_fix_indentation.
  - apply quiet_fix_type_error.
  - apply quiet_fix_import.
  - apply quiet_fix_logic.
  - apply quiet_fix_linting.
Qed.

(** Shared by the properties of the orchestrator: a dispatch that answers
    False hands back the file store it was given. *)
Lemma apply_fix_false_untouched set_order repo_path error fs :
  fst (FixEngine.apply_fix set_order repo_path error fs) = false ->
  snd (FixEngine.apply_fix set_order repo_path error fs) = fs.
Proof.
  unfold FixEngine.apply_fix.
  destruct (quiet_dispatch_rule set_order repo_path error fs) as [Q|Q];
    destruct (FixEngine.dispatch_rule set_order repo_path error fs) as [[b|e] fs'];
    simpl in *; congruence.
Qed.

(** C6. Whenever dispatch answers False the file store, and so the target
    file, is exactly as before the call; put the other way round, dispatch
    changes a file only on a path that ends in the answer True. *)
Theorem C6_dispatch_false_leaves_files
    (set_order : list string) (repo_path : string) (error : ErrorInfo)
    (fs fs' : FS) (answer : bool) :
  FixEngine.apply_fix set_order repo_path error fs = (answer, fs') ->
  (answer = false -> fs' = fs) /\ (fs' <> fs -> answer = true).
Proof.
  intros Hrun.
  pose proof (apply_fix_false_untouched set_order repo_path error fs) as Hq.
  rewrite Hrun in Hq. simpl in Hq.
  split.
  - intros ->. now apply Hq.
  - intros Hne. destruct answer; [reflexivity|]. exfalso. now apply Hne, Hq.
Qed.

Lemma C6_declined_record_witness :
  FixEngine.apply_fix [] Lab.repo_root Lab.division_by_zero Lab.shapes_fs
    = (false, Lab.shapes_fs)
  /\ ((false = false -> Lab.shapes_fs = Lab.shapes_fs)
      /\ (Lab.shapes_fs <> Lab.shapes_fs -> false = true)).
Proof.
  assert (FixEngine.apply_fix [] Lab.repo_root Lab.division_by_zero Lab.shapes_fs
          = (false, Lab.shapes_fs)) as Hrun by (vm_compute; reflexivity).
  split; [exact Hrun|].
  exact (C6_dispatch_false_leaves_files [] Lab.repo_root Lab.division_by_zero
           Lab.shapes_fs Lab.shapes_fs false Hrun).
Defined.

(** ** The comparison rule *)

Lemma item_lookup {A} (l : list A) (i : nat) (x : A) :
  l !! i = Some x -> item l (Z.of_nat i) = Ok x.
Proof.
  intros Hl. unfold item, Py.index.
  pose proof (lookup_lt_Some _ _ _ Hl) as Hlt.
  destruct (Z.leb_spec 0 (Z.of_nat i)); [|lia].
  destruct (Z.ltb_spec (Z.of_nat i) (Z.of_nat (length l))); [|lia].
  simpl. now rewrite Nat2Z.id, Hl.
Qed.

Lemma set_item_lookup {A} (l : list A) (i : nat) (x y : A) :
  l !! i = Some x -> set_item l (Z.of_nat i) y = Ok (<[i := y]> l).
Proof.
  intros Hl. unfold set_item, Py.set_index.
  pose proof (lookup_lt_Some _ _ _ Hl) as Hlt.
  destruct (Z.leb_spec 0 (Z.of_nat i)); [|lia].
  destruct (Z.ltb_spec (Z.of_nat i) (Z.of_nat (length l))); [|lia].
  simpl. now rewrite Nat2Z.id.
Qed.

(** The comparison rule on a line that reads [if x = 5:], under a message
    that leads to it. *)
Lemma comparison_rule_applies
    (set_order : list string) (repo_path file message text eol : string)
    (fs : FS) :
  let path := Py.path_join repo_path file in
  let lines := Py.readlines text in
  let error :=
    {| err_type := SYNTAX; err_file := file; err_line := 10;
       err_message := message |} in
  fs !! path = Some text ->
  eol = nl \/ eol = EmptyString ->
  lines !! 9%nat = Some ("if x = 5:" ++ eol) ->
  Py.contains "invalid syntax" (Py.lower message) = true ->
  Py.contains "expected ':'" message = false ->
  Py.contains ("expected " ++ dq ++ ":" ++ dq) message = false ->
  Py.contains "Missing parentheses in call to 'print'" message = false ->
  FixEngine.apply_fix set_order repo_path error fs
  = (true,
     <[path := Py.concat_lines (<[9%nat := "if x == 5:" ++ eol]> lines)]> fs).
Proof.
  intros path lines error Hfile Heol Hline Hinv Hc1 Hc2 Hpr.
  unfold FixEngine.apply_fix, FixEngine.dispatch_rule, error. simpl err_type.
  unfold FixEngine._fix_syntax. simpl err_file. simpl err_line.
  simpl err_message. fold path. rewrite Hfile. fold lines.
  pose proof (lookup_lt_Some _ _ _ Hline) as Hlen.
  assert ((10 >? len lines) || (10 <? 1) = false) as ->.
  { unfold len. destruct (Z.gtb_spec 10 (Z.of_nat (length lines))); [lia|].
    reflexivity. }
  change (10 - 1) with (Z.of_nat 9).
  rewrite (item_lookup _ _ _ Hline). cbn [bind].
  rewrite Hc1, Hc2, Hpr, Hinv. cbn [orb andb].
  assert (FixEngine._fix_comparison_operator lines 10 ("if x = 5:" ++ eol)
          = Ok (true, <[9%nat := "if x == 5:" ++ eol]> lines)) as Hfix.
  { unfold FixEngine._fix_comparison_operator.
    change (10 - 1) with (Z.of_nat 9).
    destruct Heol as [-> | ->].
    - replace (Py.contains "if " ("if x = 5:" ++ nl)) with true
        by (vm_compute; reflexivity).
      replace (Re.sub FixEngine.re_comparison
                 [Re.Text "if "; Re.Ref 1; Re.Text " == "; Re.Ref 2] None
                 ("if x = 5:" ++ nl))
        with ("if x == 5:" ++ nl) by (vm_compute; reflexivity).
      replace (negb (String.eqb ("if x == 5:" ++ nl) ("if x = 5:" ++ nl)))
        with true by (vm_compute; reflexivity).
      now rewrite (set_item_lookup _ _ _ _ Hline).
    - replace (Py.contains "if " ("if x = 5:" ++ "")) with true
        by (vm_compute; reflexivity).
      replace (Re.sub FixEngine.re_comparison
                 [Re.Text "if "; Re.Ref 1; Re.Text " == "; Re.Ref 2] None
                 ("if x = 5:" ++ ""))
        with ("if x == 5:" ++ "") by (vm_compute; reflexivity).
      replace (negb (String.eqb ("if x == 5:" ++ "") ("if x = 5:" ++ "")))
        with true by (vm_compute; reflexivity).
      now rewrite (set_item_lookup _ _ _ _ Hline). }
  assert (Py.has_char "=" ("if x = 5:" ++ eol)
          && Py.contains "if " ("if x = 5:" ++ eol) = true) as ->
    by (destruct Heol as [-> | ->]; vm_compute; reflexivity).
  rewrite Hfix. cbn [bind negb]. reflexivity.
Qed.

(** ** Removing a name from an import list *)

(** C9 (the rule at work on an import list where the unresolvable name is
    the beginning of another one).  Asked to drop [area], dispatch answers
    True and leaves [from shapes import perimeter]: [area_of_circle] is gone
    as well. *)
Theorem C9_substring_drops_another_symbol :
  FixEngine.apply_fix [] Lab.repo_root Lab.cannot_import_area Lab.draw_fs
  = (true,
     {[ "/workspace/demo/draw.py" :=
          "from shapes import perimeter" ++ nl ++ "print(perimeter(2))" ++ nl ]}).
Proof. vm_compute. reflexivity. Qed.

(** ** Lines written and read back *)

Lemma str_app_assoc (a b c : string) : (a ++ b) ++ c = a ++ b ++ c.
Proof. induction a as [|x a IH]; simpl; [reflexivity|now rewrite IH]. Qed.

Lemma str_app_nil_r (a : string) : a ++ "" = a.
Proof. induction a as [|x a IH]; simpl; [reflexivity|now rewrite IH]. Qed.

Lemma str_length_app (a b : string) :
  String.length (a ++ b) = (String.length a + String.length b)%nat.
Proof. induction a as [|x a IH]; simpl; [reflexivity|now rewrite IH]. Qed.

Lemma concat_lines_cons (x : string) (l : list string) :
  Py.concat_lines (x :: l) = x ++ Py.concat_lines l.
Proof.
  unfold Py.concat_lines. destruct l as [|y l]; simpl; [now rewrite str_app_nil_r|].
  reflexivity.
Qed.

Lemma concat_lines_app (a b : list string) :
  Py.concat_lines (a ++ b) = Py.concat_lines a ++ Py.concat_lines b.
Proof.
  induction a as [|x a IH]; [reflexivity|].
  change ((x :: a) ++ b)%list with (x :: (a ++ b))%list.
  now rewrite !concat_lines_cons, IH, str_app_assoc.
Qed.

Lemma no_cr_app (a b : string) : no_cr (a ++ b) = no_cr a && no_cr b.
Proof.
  induction a as [|x a IH]; simpl; [reflexivity|].
  now rewrite IH, andb_assoc.
Qed.

Lemma plain_no_cr (s : string) : plain s = true -> no_cr s = true.
Proof.
  induction s as [|c s IH]; simpl; [reflexivity|].
  intros H. apply andb_prop in H as [H1 H2]. apply andb_prop in H1 as [_ H1].
  now rewrite H1, IH.
Qed.

Lemma plain_app (a b : string) : plain (a ++ b) = plain a && plain b.
Proof.
  induction a as [|x a IH]; simpl; [reflexivity|].
  now rewrite IH, !andb_assoc.
Qed.

Lemma plain_spaces (n : nat) : plain (Py.spaces n) = true.
Proof. induction n as [|n IH]; simpl; [reflexivity|exact IH]. Qed.

Lemma shaped_no_cr (l : list string) :
  shaped l -> no_cr (Py.concat_lines l) = true.
Proof.
  induction 1 as [|s Hs _|body rest Hb _ IH].
  - reflexivity.
  - now apply plain_no_cr.
  - rewrite concat_lines_cons, !no_cr_app, IH, (plain_no_cr _ Hb). reflexivity.
Qed.

Lemma universal_newlines_id (s : string) :
  no_cr s = true -> Py.universal_newlines s = s.
Proof.
  induction s as [|c s IH]; simpl; [reflexivity|].
  intros H. apply andb_prop in H as [Hc Hs].
  destruct (Ascii.eqb c Py.CR); [discriminate|]. now rewrite IH.
Qed.

Lemma universal_newlines_no_cr (s : string) :
  no_cr (Py.universal_newlines s) = true.
Proof.
  enough (forall n s, (String.length s <= n)%nat ->
                      no_cr (Py.universal_newlines s) = true) as Hn
    by (apply (Hn (String.length s)); lia).
  clear s. induction n as [|n IH]; intros [|c s] Hlen; simpl in *;
    try reflexivity; try lia.
  destruct (Ascii.eqb c Py.CR) eqn:Ec.
  - simpl. destruct s as [|c' s']; [reflexivity|].
    destruct (Ascii.eqb c' Py.LF); apply IH; simpl in *; lia.
  - simpl. rewrite Ec. simpl. apply IH. lia.
Qed.

Lemma readlines_go_body (body cur t : string) :
  plain body = true ->
  Py.readlines_go cur (body ++ nl ++ t)
  = (cur ++ body ++ nl) :: Py.readlines_go "" t.
Proof.
  revert cur. induction body as [|c body IH]; intros cur Hb; simpl.
  - reflexivity.
  - simpl in Hb. apply andb_prop in Hb as [Hc Hb].
    apply andb_prop in Hc as [Hc _].
    destruct (Ascii.eqb c Py.LF); [discriminate|].
    rewrite (IH _ Hb). unfold Py.snoc. now rewrite str_app_assoc.
Qed.

Lemma readlines_go_last (s cur : string) :
  plain s = true -> cur ++ s <> "" ->
  Py.readlines_go cur s = [cur ++ s].
Proof.
  revert cur. induction s as [|c s IH]; intros cur Hs Hne; simpl.
  - rewrite str_app_nil_r in *. destruct cur; [contradiction|reflexivity].
  - simpl in Hs. apply andb_prop in Hs as [Hc Hs].
    apply andb_prop in Hc as [Hc _].
    destruct (Ascii.eqb c Py.LF); [discriminate|].
    unfold Py.snoc. rewrite IH; [now rewrite str_app_assoc|exact Hs|].
    rewrite str_app_assoc. simpl. exact Hne.
Qed.

Lemma readlines_go_concat (l : list string) :
  shaped l -> Py.readlines_go "" (Py.concat_lines l) = l.
Proof.
  induction 1 as [|s Hs Hne|body rest Hb _ IH].
  - reflexivity.
  - unfold Py.concat_lines; simpl. now apply readlines_go_last.
  - rewrite concat_lines_cons, str_app_assoc, (readlines_go_body _ _ _ Hb), IH.
    reflexivity.
Qed.

(** Reading back what [writelines] wrote gives the same lines. *)
Lemma readlines_concat (l : list string) :
  shaped l -> Py.readlines (Py.concat_lines l) = l.
Proof.
  intros Hl. unfold Py.readlines.
  rewrite (universal_newlines_id _ (shaped_no_cr _ Hl)).
  now apply readlines_go_concat.
Qed.

Lemma plain_snoc (cur : string) (c : ascii) :
  plain cur = true -> Ascii.eqb c Py.LF = false -> Ascii.eqb c Py.CR = false ->
  plain (Py.snoc cur c) = true.
Proof.
  intros Hc H1 H2. unfold Py.snoc. rewrite plain_app, Hc. simpl.
  now rewrite H1, H2.
Qed.

Lemma readlines_go_shaped (s cur : string) :
  no_cr s = true -> plain cur = true -> shaped (Py.readlines_go cur s).
Proof.
  revert cur. induction s as [|c s IH]; intros cur Hs Hcur; simpl.
  - destruct cur eqn:E; [constructor|]. rewrite <- E in *.
    apply shaped_last; [exact Hcur|]. rewrite E. discriminate.
  - simpl in Hs. apply andb_prop in Hs as [Hc Hs].
    destruct (Ascii.eqb c Py.LF) eqn:El.
    + apply Ascii.eqb_eq in El as ->.
      change (Py.snoc cur Py.LF) with (cur ++ nl).
      apply shaped_cons; [exact Hcur|]. now apply IH.
    + apply IH; [exact Hs|]. apply plain_snoc; [exact Hcur|exact El|].
      now destruct (Ascii.eqb c Py.CR).
Qed.

Lemma readlines_shaped (text : string) : shaped (Py.readlines text).
Proof.
  unfold Py.readlines. apply readlines_go_shaped; [|reflexivity].
  apply universal_newlines_no_cr.
Qed.

(** A full line put in front of an existing line keeps the list shaped. *)
Lemma shaped_insert (l : list string) (j : nat) (body : string) :
  shaped l -> (j < length l)%nat -> plain body = true ->
  shaped (take j l ++ (body ++ nl)%string :: drop j l)%list.
Proof.
  intros Hl. revert j. induction Hl as [|s Hs Hne|b rest Hb Hrest IH];
    intros j Hj Hbody; simpl in Hj.
  - lia.
  - destruct j as [|j]; [|lia]. simpl.
    apply shaped_cons; [exact Hbody|]. now apply shaped_last.
  - destruct j as [|j]; simpl.
    + apply shaped_cons; [exact Hbody|]. now apply shaped_cons.
    + apply shaped_cons; [exact Hb|]. apply IH; [lia|exact Hbody].
Qed.

(** ** The rule that initialises an undefined name *)

Lemma insert_at_in_range {A} (l : list A) (i : Z) (x : A) :
  0 <= i <= len l ->
  Py.insert_at l i x = (take (Z.to_nat i) l ++ x :: drop (Z.to_nat i) l)%list.
Proof.
  intros Hi. unfold Py.insert_at. unfold len in Hi.
  destruct (Z.ltb_spec i 0); [lia|]. now rewrite Z.min_l by lia.
Qed.

Lemma item_in_range {A} (l : list A) (i : Z) :
  0 <= i < len l ->
  exists x, l !! Z.to_nat i = Some x /\ item l i = Ok x.
Proof.
  intros Hi. unfold len in Hi.
  destruct (lookup_lt_is_Some_2 l (Z.to_nat i)) as [x Hx]; [lia|].
  exists x. split; [exact Hx|].
  rewrite <- (Z2Nat.id i) by lia. now apply item_lookup.
Qed.

Lemma lookup_inserted {A} (l : list A) (j : nat) (x : A) :
  (j <= length l)%nat -> (take j l ++ x :: drop j l)%list !! j = Some x.
Proof.
  intros Hj. rewrite lookup_app_r; rewrite length_take, Nat.min_l by lia;
    [|lia].
  now rewrite Nat.sub_diag.
Qed.

Lemma length_inserted {A} (l : list A) (j : nat) (x : A) :
  length (take j l ++ x :: drop j l)%list = S (length l).
Proof.
  rewrite length_app, length_take. simpl. rewrite length_drop. lia.
Qed.

Lemma concat_inserted_length (l : list string) (j : nat) (x : string) :
  String.length (Py.concat_lines (take j l ++ x :: drop j l)%list)
  = (String.length (Py.concat_lines l) + String.length x)%nat.
Proof.
  rewrite <- (take_drop j l) at 3.
  rewrite !concat_lines_app, concat_lines_cons, !str_length_app. lia.
Qed.

Lemma initialize_variable_in_range
    (lines : list string) (name : string) (line : Z) (path cur : string)
    (fs : FS) :
  1 <= line <= len lines ->
  lines !! Z.to_nat (line - 1) = Some cur ->
  FixEngine._initialize_variable lines name line path fs
  = (Ok true,
     writelines path
       (take (Z.to_nat (line - 1)) lines
        ++ initializer_for name cur :: drop (Z.to_nat (line - 1)) lines)%list
       fs).
Proof.
  intros Hline Hcur. unfold FixEngine._initialize_variable.
  destruct (Z.leb_spec line (len lines)); [|lia].
  rewrite <- (Z2Nat.id (line - 1)) at 1 by lia.
  rewrite (item_lookup _ _ _ Hcur).
  rewrite insert_at_in_range by lia. reflexivity.
Qed.

Lemma fix_logic_undefined_name
    (repo_path : string) (error : ErrorInfo) (text : string) (m : Re.found)
    (fs : FS) :
  fs !! Py.path_join repo_path (err_file error) = Some text ->
  Py.contains "is not defined" (err_message error) = true ->
  Re.search FixEngine.re_name_any (err_message error) = Some m ->
  FixEngine._fix_logic repo_path error fs
  = FixEngine._initialize_variable (Py.readlines text) (Re.group 1 m)
      (err_line error) (Py.path_join repo_path (err_file error)) fs.
Proof.
  intros Hfile Hdef Hm. unfold FixEngine._fix_logic.
  now rewrite Hfile, Hdef, orb_true_r, Hm.
Qed.

Lemma plain_initializer (name cur : string) :
  plain name = true ->
  exists body, plain body = true /\ initializer_for name cur = body ++ nl.
Proof.
  intros Hname.
  exists (Py.spaces (Py.indent_of cur) ++ name
          ++ " = None  # AI-AGENT: Auto-initialized").
  split.
  - now rewrite !plain_app, plain_spaces, Hname.
  - unfold initializer_for. now rewrite !str_app_assoc.
Qed.

(** C5, as the code has it.  For a Logic record that names an undefined
    variable (a name without line breaks) on a line of the file, dispatch
    answers True and puts an initialising line above that line; on the file so
    changed the same record makes dispatch answer True again and put one more
    initialising line above it, so that the second call changes the file
    once more. *)
Theorem C5_initializer_inserted_at_every_dispatch
    (set_order : list string) (repo_path file message text : string)
    (line : Z) (m : Re.found) (fs : FS) :
  let path := Py.path_join repo_path file in
  let error :=
    {| err_type := LOGIC; err_file := file; err_line := line;
       err_message := message |} in
  let lines := Py.readlines text in
  let first := FixEngine.apply_fix set_order repo_path error fs in
  let second := FixEngine.apply_fix set_order repo_path error (snd first) in
  fs !! path = Some text ->
  Py.contains "is not defined" message = true ->
  Re.search FixEngine.re_name_any message = Some m ->
  plain (Re.group 1 m) = true ->
  1 <= line <= len lines ->
  exists cur lines1 lines2,
    lines !! Z.to_nat (line - 1) = Some cur /\
    lines1 = Py.insert_at lines (line - 1) (initializer_for (Re.group 1 m) cur) /\
    first = (true, <[path := Py.concat_lines lines1]> fs) /\
    lines2 = Py.insert_at lines1 (line - 1)
               (initializer_for (Re.group 1 m)
                  (initializer_for (Re.group 1 m) cur)) /\
    second = (true, <[path := Py.concat_lines lines2]> (snd first)) /\
    snd second !! path <> snd first !! path.
Proof.
  intros path error lines first second Hfile Hdef Hm Hname Hline.
  destruct (item_in_range lines (line - 1)) as (cur & Hcur & _); [lia|].
  set (name := Re.group 1 m) in *.
  set (j := Z.to_nat (line - 1)) in *.
  set (lines1 := (take j lines ++ initializer_for name cur :: drop j lines)%list).
  set (lines2 :=
         (take j lines1 ++ initializer_for name (initializer_for name cur)
            :: drop j lines1)%list).
  assert (j < length lines)%nat as Hj by (unfold len in Hline; lia).
  assert (first = (true, <[path := Py.concat_lines lines1]> fs)) as Hfirst.
  { unfold first, FixEngine.apply_fix, FixEngine.dispatch_rule. simpl err_type.
    rewrite (fix_logic_undefined_name repo_path error text m fs Hfile Hdef Hm).
    simpl err_line. simpl err_file. fold path lines name.
    now rewrite (initialize_variable_in_range lines name line path cur fs Hline Hcur). }
  assert (shaped lines1) as Hshaped.
  { destruct (plain_initializer name cur Hname) as (body & Hbody & Heq).
    unfold lines1. rewrite Heq.
    apply shaped_insert; [apply readlines_shaped|exact Hj|exact Hbody]. }
  assert (length lines1 = S (length lines)) as Hlen1 by apply length_inserted.
  assert (lines1 !! j = Some (initializer_for name cur)) as Hcur1
    by (apply lookup_inserted; lia).
  assert (second = (true, <[path := Py.concat_lines lines2]> (snd first)))
    as Hsecond.
  { unfold second. rewrite Hfirst. simpl snd.
    unfold FixEngine.apply_fix, FixEngine.dispatch_rule. simpl err_type.
    rewrite (fix_logic_undefined_name repo_path error (Py.concat_lines lines1) m);
      [|simpl err_file; fold path; apply lookup_insert_eq|exact Hdef|exact Hm].
    simpl err_line. simpl err_file. fold path name.
    rewrite (readlines_concat _ Hshaped).
    rewrite (initialize_variable_in_range lines1 name line path
               (initializer_for name cur)); [reflexivity| |exact Hcur1].
    unfold len in *. lia. }
  exists cur, lines1, lines2. repeat split.
  - exact Hcur.
  - unfold lines1. rewrite insert_at_in_range by lia. reflexivity.
  - exact Hfirst.
  - unfold lines2. rewrite insert_at_in_range; [reflexivity|].
    unfold len in *. lia.
  - exact Hsecond.
  - rewrite Hsecond, Hfirst. simpl snd. rewrite !lookup_insert_eq.
    intros Heq. injection Heq as Heq.
    apply (f_equal String.length) in Heq.
    unfold lines2 in Heq. rewrite concat_inserted_length in Heq.
    unfold initializer_for in Heq at 1. rewrite !str_length_app in Heq.
    simpl in Heq. lia.
Qed.

Lemma C5_report_witness :
  let first :=
    FixEngine.apply_fix [] Lab.repo_root Lab.undefined_total Lab.report_fs in
  let second :=
    FixEngine.apply_fix [] Lab.repo_root Lab.undefined_total (snd first) in
  fst second = true /\
  snd second !! "/workspace/demo/report.py"
  <> snd first !! "/workspace/demo/report.py".
Proof.
  destruct (C5_initializer_inserted_at_every_dispatch [] Lab.repo_root
              "report.py" "NameError: name 'total' is not defined"
              Lab.report_py 2 Lab.total_found Lab.report_fs)
    as (cur & lines1 & lines2 & _ & _ & _ & _ & Hsecond & Hdiff).
  - vm_compute; reflexivity.
  - vm_compute; reflexivity.
  - vm_compute; reflexivity.
  - vm_compute; reflexivity.
  - vm_compute; split; discriminate.
  - split; [|exact Hdiff].
    change (FixEngine.apply_fix [] Lab.repo_root Lab.undefined_total
              (snd (FixEngine.apply_fix [] Lab.repo_root Lab.undefined_total
                      Lab.report_fs)))
      with (FixEngine.apply_fix [] Lab.repo_root
              {| err_type := LOGIC; err_file := "report.py"; err_line := 2;
                 err_message := "NameError: name 'total' is not defined" |}
              (snd (FixEngine.apply_fix [] Lab.repo_root
                      {| err_type := LOGIC; err_file := "report.py";
                         err_line := 2;
                         err_message := "NameError: name 'total' is not defined" |}
                      Lab.report_fs))).
    now rewrite Hsecond.
Defined.

(** C5 as stated fails: on the script that prints an undefined [total], the
    second dispatch of the same record neither answers False nor leaves the
    file as the first dispatch left it. *)
Lemma C5_second_dispatch_edits_again :
  let first :=
    FixEngine.apply_fix [] Lab.repo_root Lab.undefined_total Lab.report_fs in
  let second :=
    FixEngine.apply_fix [] Lab.repo_root Lab.undefined_total (snd first) in
  fst first = true /\ ~ (fst second = false \/ snd second = snd first).
Proof.
  split; [vm_compute; reflexivity|].
  intros [Hfalse | Hsame].
  - vm_compute in Hfalse. discriminate.
  - apply (f_equal (fun fs : FS => fs !! "/workspace/demo/report.py")) in Hsame.
    vm_compute in Hsame. discriminate.
Qed.

(** ** The sandbox endpoint *)

Section SandboxAuth.
Variable Y : Type.
Variable run :
  list string -> string -> Z -> Y ->
  (agent_server.process_error + CompletedProcess) * Y.
Variable host_exists : string -> Y -> bool.
Variable make_tmpdir : Y -> string * Y.
Variable cleanup : string -> Y -> Y.
Variable env_token : option string.

Let check := agent_server._check_auth Y env_token.
Let serve := agent_server.run_tests Y run host_exists make_tmpdir cleanup env_token.

Lemma check_auth_cases (header : option string) (y : Y) :
  let token := agent_server.SANDBOX_TOKEN env_token in
  (token <> "" /\ header <> Some token /\
   check header y = (Raise (HTTPException 401), y))
  \/ ((token = "" \/ header = Some token) /\ check header y = (Ok tt, y)).
Proof.
  intros token. unfold check, agent_server._check_auth, agent_server.truthy.
  fold token.
  destruct (String.eqb_spec token "") as [E|E]; simpl.
  - right. split; [now left|reflexivity].
  - destruct (bool_decide_reflect (header = Some token)) as [H|H]; simpl.
    + right. split; [now right|reflexivity].
    + left. repeat split; assumption.
Qed.

(** Past the check, nothing in the handler raises an [HTTPException]. *)
Lemma run_tests_authorized (req : agent_server.RunTestsRequest)
    (header : option string) (y : Y) :
  check header y = (Ok tt, y) ->
  forall code y', serve req header y <> (Raise (HTTPException code), y').
Proof.
  intros Hok code y'. unfold serve, agent_server.run_tests, bindS.
  fold check. rewrite Hok.
  unfold agent_server.with_tmpdir, try_except, bindS, ret, only_timeout,
    agent_server._run_cmd.
  destruct (make_tmpdir y) as [tmpdir y1].
  repeat match goal with
  | |- context [run ?c ?d ?t ?w] =>
      destruct (run c d t w) as [[[|?]|?] ?]; simpl
  | |- context [if ?b then _ else _] => destruct b; simpl
  | |- context [host_exists ?p ?w] => destruct (host_exists p w); simpl
  end; congruence.
Qed.

End SandboxAuth.

(** C10, as the code has it.  The token of the service is the value of
    SANDBOX_TOKEN in its environment with the white space around it
    stripped, not the value itself.  [POST /run-tests] answers 401 exactly
    when that token is not empty and the X-Sandbox-Token header is absent or
    different from it; the request is then turned down before anything is
    run.  When the token is empty (SANDBOX_TOKEN unset, empty, or white
    space only), the check lets every request through, whatever its
    header. *)
Theorem C10_unauthorized_iff_token_set_and_header_differs
    (Y : Type)
    (run : list string -> string -> Z -> Y ->
           (agent_server.process_error + CompletedProcess) * Y)
    (host_exists : string -> Y -> bool)
    (make_tmpdir : Y -> string * Y) (cleanup : string -> Y -> Y)
    (env_token : option string)
    (req : agent_server.RunTestsRequest) (header : option string) (y : Y) :
  let token := agent_server.SANDBOX_TOKEN env_token in
  let answer :=
    agent_server.post_run_tests Y run host_exists make_tmpdir cleanup
      env_token req header y in
  (status_code (fst answer) = 401 <-> token <> "" /\ header <> Some token) /\
  (token <> "" /\ header <> Some token ->
   answer = ({| status_code := 401; json := None |}, y)) /\
  (token = "" ->
   forall any_header,
     agent_server._check_auth Y env_token any_header y = (Ok tt, y) /\
     status_code
       (fst (agent_server.post_run_tests Y run host_exists make_tmpdir cleanup
               env_token req any_header y)) <> 401).
Proof.
  intros token answer.
  assert (forall h,
    (token <> "" /\ h <> Some token /\
       agent_server.post_run_tests Y run host_exists make_tmpdir cleanup
         env_token req h y = ({| status_code := 401; json := None |}, y))
    \/ ((token = "" \/ h = Some token) /\
        agent_server._check_auth Y env_token h y = (Ok tt, y) /\
        status_code
          (fst (agent_server.post_run_tests Y run host_exists make_tmpdir
                  cleanup env_token req h y)) <> 401)) as Hcases.
  { intros h.
    destruct (check_auth_cases Y env_token h y) as [(Ht & Hh & Hc)|(Hor & Hc)].
    - left. repeat split; try assumption.
      unfold agent_server.post_run_tests, agent_server.run_tests, bindS.
      now rewrite Hc.
    - right. repeat split; try assumption.
      pose proof (run_tests_authorized Y run host_exists make_tmpdir cleanup
                    env_token req h y Hc) as Hno.
      unfold agent_server.post_run_tests.
      destruct (agent_server.run_tests Y run host_exists make_tmpdir cleanup
                  env_token req h y) as [[reply|e] y'] eqn:E; simpl.
      + discriminate.
      + destruct e; simpl; try discriminate.
        intros ->. now apply (Hno 401 y'). }
  split; [split|split].
  - intros H401. destruct (Hcases header) as [(Ht & Hh & _)|(_ & _ & Hn)].
    + now split.
    + contradiction.
  - intros [Ht Hh]. destruct (Hcases header) as [(_ & _ & Ha)|([Hor|Hor] & _)].
    + unfold answer. now rewrite Ha.
    + contradiction.
    + contradiction.
  - intros [Ht Hh]. destruct (Hcases header) as [(_ & _ & Ha)|([Hor|Hor] & _)].
    + exact Ha.
    + contradiction.
    + contradiction.
  - intros Hempty any_header.
    destruct (Hcases any_header) as [(Ht & _)|(_ & Hc & Hn)]; [|now split].
    contradiction.
Qed.

(** ** Reasoning about computations with state and exceptions *)

Section WP.
Context {S : Type}.

Lemma wp_ret {A} (a : A) Q E (s : S) : Q a s -> wp (ret a) Q E s.
Proof. intros H. exact H. Qed.

Lemma wp_raise {A} (e : exn) (Q : A -> S -> Prop) E (s : S) :
  E e s -> wp (raise e) Q E s.
Proof. intros H. exact H. Qed.

Lemma wp_of_res {A} (r : Res A) Q E (s : S) :
  match r with Ok a => Q a s | Raise e => E e s end -> wp (of_res r) Q E s.
Proof. unfold wp, of_res. now destruct r. Qed.

Lemma wp_bind {A B} (c : ST S A) (k : A -> ST S B) Q E (s : S) :
  wp c (fun a s' => wp (k a) Q E s') E s -> wp (bindS c k) Q E s.
Proof. unfold wp, bindS. destruct (c s) as [[a|e] s']; auto. Qed.

Lemma wp_try {A} (c : ST S A) h Q E (s : S) :
  wp c Q (fun e s' => match h e with
                      | Some handler => wp handler Q E s'
                      | None => E e s'
                      end) s
  -> wp (try_except c h) Q E s.
Proof.
  unfold wp, try_except. destruct (c s) as [[a|e] s']; [auto|].
  destruct (h e); auto.
Qed.





Lemma wp_mono {A} (c : ST S A) (Q Q' : A -> S -> Prop) (E E' : exn -> S -> Prop)
    (s : S) :
  wp c Q E s ->
  (forall a s', Q a s' -> Q' a s') -> (forall e s', E e s' -> E' e s') ->
  wp c Q' E' s.
Proof. unfold wp. destruct (c s) as [[a|e] s']; auto. Qed.

Lemma wp_any {A} (c : ST S A) (Q : A -> S -> Prop) (E : exn -> S -> Prop)
    (s : S) :
  (forall a s', Q a s') -> (forall e s', E e s') -> wp c Q E s.
Proof. unfold wp. destruct (c s) as [[a|e] s']; auto. Qed.

Lemma wp_result {A} (c : ST S A) Q E (s : S) r s' :
  c s = (r, s') ->
  wp c Q E s -> match r with Ok a => Q a s' | Raise e => E e s' end.
Proof. unfold wp. now intros ->. Qed.

End WP.

Section WPRunner.
Context {X : Type} `{Primitives X} `{AppModules X}.

Local Abbreviation St := (DockerRunner.t * World X)%type.

Lemma wp_in_world {S A} (p : ST (World X) A) Q E (s : S * World X) :
  (forall a w', Q a (fst s, w')) -> (forall e w', E e (fst s, w')) ->
  wp (in_world p) Q E s.
Proof.
  intros HQ HE. unfold wp, in_world. destruct (p (snd s)) as [[a|e] w']; auto.
Qed.

(** A primitive that raises exceptions only, and a method of the git
    handler that does. *)
Lemma wp_in_world_exc {S A} (p : ST (World X) A) Q E (s : S * World X) :
  raises_exceptions p ->
  (forall a w', Q a (fst s, w')) ->
  (forall e w', is_Exception e = true -> E e (fst s, w')) ->
  wp (in_world p) Q E s.
Proof.
  intros Hp HQ HE. unfold wp, in_world.
  destruct (p (snd s)) as [[a|e] w'] eqn:Heq; [apply HQ|].
  apply HE. exact (Hp _ _ _ Heq).
Qed.


Lemma wp_world_read {S A} (f : World X -> A) Q E (s : S * World X) :
  Q (f (snd s)) s -> wp (world_read f) Q E s.
Proof. intros HQ. exact HQ. Qed.

Lemma wp_self_read {S A} (f : S -> A) Q E (s : S * World X) :
  Q (f (fst s)) s -> wp (self_read f) Q E s.
Proof. intros HQ. exact HQ. Qed.

Lemma wp_self_update {S} (g : S -> S) Q E (s : S * World X) :
  Q tt (g (fst s), snd s) -> wp (self_update g) Q E s.
Proof. intros HQ. exact HQ. Qed.

Lemma wp_emit cfg status message data Q E (s : St) :
  (forall w', Q tt (fst s, w')) ->
  wp (DockerRunner._emit_progress cfg status message data) Q E s.
Proof. intros HQ. unfold wp, DockerRunner._emit_progress. apply HQ. Qed.

Lemma wp_in_git {A} (c : ST (GitHandler.t * World X) A) Q E (s : St) :
  (forall a g' w', Q a (DockerRunner.set_git_handler g' (fst s), w')) ->
  (forall e g' w', E e (DockerRunner.set_git_handler g' (fst s), w')) ->
  wp (DockerRunner.in_git c) Q E s.
Proof.
  intros HQ HE. unfold wp, DockerRunner.in_git.
  destruct (c _) as [[a|e] [g' w']]; auto.
Qed.

Lemma wp_in_git_exc {A} (c : ST (GitHandler.t * World X) A) Q E (s : St) :
  raises_exceptions c ->
  (forall a g' w', Q a (DockerRunner.set_git_handler g' (fst s), w')) ->
  (forall e g' w',
     is_Exception e = true -> E e (DockerRunner.set_git_handler g' (fst s), w')) ->
  wp (DockerRunner.in_git c) Q E s.
Proof.
  intros Hc HQ HE. unfold wp, DockerRunner.in_git.
  destruct (c _) as [[a|e] [g' w']] eqn:Heq; [apply HQ|].
  apply HE. exact (Hc _ _ _ Heq).
Qed.

Lemma commit_fix_raises file_path bug_type line message :
  raises_exceptions
    (GitHandler.commit_fix (X:=X) file_path bug_type line message).
Proof.
  intros [g w] e s' Heq.
  unfold GitHandler.commit_fix, GitHandler.require_repo, bindS, self_read,
    in_world, ret, raise in Heq.
  cbv beta iota delta [fst snd] in Heq. destruct (GitHandler.repo g).
  - destruct (index_add file_path w) as [[[]|e1] w1] eqn:Hadd.
    + destruct (index_commit _ w1) as [[[]|e2] w2] eqn:Hcommit.
      * discriminate.
      * injection Heq as <- _. exact (index_commit_raises _ _ _ _ Hcommit).
    + injection Heq as <- _. exact (index_add_raises _ _ _ _ Hadd).
  - now injection Heq as <- _.
Qed.

Lemma push_branch_raises branch_name :
  raises_exceptions (GitHandler.push_branch (X:=X) branch_name).
Proof.
  intros [g w] e s' Heq.
  unfold GitHandler.push_branch, GitHandler.require_repo, try_except, bindS,
    self_read, in_world, ret, raise, only_git_error in Heq.
  cbv beta iota delta [fst snd] in Heq. destruct (GitHandler.repo g).
  - destruct (origin_push _ w) as [[[]|e1] w1] eqn:Hpush.
    + discriminate.
    + pose proof (origin_push_raises _ _ _ _ Hpush) as He1.
      destruct e1; try discriminate; now injection Heq as <- _.
  - now injection Heq as <- _.
Qed.

Lemma in_git_raises {A} (c : ST (GitHandler.t * World X) A) :
  raises_exceptions c -> raises_exceptions (DockerRunner.in_git c).
Proof.
  intros Hc s e s' Heq. unfold DockerRunner.in_git in Heq.
  destruct (c _) as [[a|e'] [g' w']] eqn:Hcs; [discriminate|].
  injection Heq as <- _. exact (Hc _ _ _ Hcs).
Qed.

End WPRunner.

Create HintDb raises discriminated.
#[export] Hint Resolve rmtree_raises index_add_raises index_commit_raises
  origin_push_raises subprocess_run_raises popen_raises communicate_raises
  kill_raises httpx_post_raises write_results_raises commit_fix_raises
  push_branch_raises : raises.

(** What [except Exception] catches and what it lets through. *)
Lemma any_exception_catches {S A} (h : exn -> ST S A) (e : exn) :
  is_Exception e = true -> any_exception h e = Some (h e).
Proof. unfold any_exception. now intros ->. Qed.

Lemma any_exception_passes {S A} (h : exn -> ST S A) (e : exn) :
  is_Exception e = false -> any_exception h e = None.
Proof. unfold any_exception. now intros ->. Qed.

(** An exception that [except Exception] catches is not a [SystemExit]. *)
Ltac absurd_exit :=
  match goal with
  | Hexc : is_Exception (SystemExit _) = true |- _ => discriminate Hexc
  end.

(** One step of a proof about [wp]: the rule of the computation at hand. *)
Ltac wp_step :=
  lazymatch goal with
  | |- wp (bindS _ _) _ _ _ => apply wp_bind
  | |- wp (ret _) _ _ _ => apply wp_ret
  | |- wp (raise _) _ _ _ => apply wp_raise
  | |- wp (of_res _) _ _ _ => apply wp_of_res
  | |- wp (try_except _ _) _ _ _ => apply wp_try
  | |- wp (in_world _) _ _ _ =>
      first [ apply wp_in_world_exc; [solve [auto with raises]|intros|intros]
            | apply wp_in_world; intros ]
  | |- wp (world_read _) _ _ _ => apply wp_world_read
  | |- wp (self_read _) _ _ _ => apply wp_self_read
  | |- wp (self_update _) _ _ _ => apply wp_self_update
  | |- wp (DockerRunner._emit_progress _ _ _ _) _ _ _ => apply wp_emit; intros
  | |- wp (DockerRunner.in_git _) _ _ _ =>
      first [ apply wp_in_git_exc; [solve [auto with raises]|intros|intros]
            | apply wp_in_git; intros ]
  | |- wp (if ?b then _ else _) _ _ _ => destruct b
  | |- wp (match ?x with _ => _ end) _ _ _ => destruct x
  | |- match any_exception _ ?e with _ => _ end =>
      first [ match goal with
              | Hexc : is_Exception e = true |- _ =>
                  rewrite (any_exception_catches _ e Hexc)
              end
            | rewrite (any_exception_catches _ e eq_refl)
            | rewrite (any_exception_passes _ e eq_refl)
            | let Hexc := fresh "Hexc" in
              destruct (is_Exception e) eqn:Hexc;
              [ rewrite (any_exception_catches _ e Hexc)
              | rewrite (any_exception_passes _ e Hexc) ] ]
  | |- match only_timeout _ ?e with _ => _ end =>
      destruct e; cbn [only_timeout]; try absurd_exit
  | |- match only_git_error _ ?e with _ => _ end =>
      destruct e; cbn [only_git_error]; try absurd_exit
  end; cbn beta iota; cbn [fst snd].

(** ** What the steps of a run keep *)

Section Steps.
Context {X : Type} `{Primitives X} `{AppModules X}.
Variable cfg : DockerRunner.Config.
Variable I : DockerRunner.t -> Prop.

Lemma stays_run_tests repo_path :
  stays I (DockerRunner._run_tests cfg repo_path).
Proof.
  intros s Hs.
  unfold DockerRunner._run_tests, DockerRunner.run_tests_remote,
    DockerRunner.run_tests_local.
  repeat wp_step; assumption.
Qed.


Hypothesis Hloop : loop_invariant I.

Lemma stays_in_git {A} (c : ST (GitHandler.t * World X) A) :
  stays I (DockerRunner.in_git c).
Proof.
  intros s Hs. destruct Hloop as (Hg & _ & _). wp_step; now apply Hg.
Qed.

Lemma stays_apply_and_commit_fix error :
  stays I (DockerRunner._apply_and_commit_fix cfg error).
Proof.
  intros s Hs. destruct Hloop as (Hg & Hf & _).
  unfold DockerRunner._apply_and_commit_fix, DockerRunner.fixer_apply_fix,
    DockerRunner.record_fix.
  do 5 wp_step.
  destruct (DockerRunner.fixer (fst s)); [|wp_step; assumption].
  unfold wp at 1.
  destruct (FixEngine.apply_fix _ _ _ _) as [success fs'].
  cbn [fst snd]. destruct success; repeat wp_step; auto.
Qed.


Lemma stays_apply_fixes errors fixed_count :
  stays I (DockerRunner.apply_fixes cfg errors fixed_count).
Proof.
  revert fixed_count. induction errors as [|error errors IH];
    intros fixed_count s Hs; simpl.
  - now wp_step.
  - wp_step.
    eapply wp_mono; [apply (stays_apply_and_commit_fix error s Hs)| |auto].
    intros fixed s' Hs'. now apply IH.
Qed.


End Steps.

(** ** The repair loop *)

Section Loop.
Context {X : Type} `{Primitives X} `{AppModules X}.
Variable cfg : DockerRunner.Config.

Lemma counts_iterations_loop_invariant (n : Z) :
  loop_invariant (fun self => DockerRunner.iterations self = n).
Proof. repeat split; intros; assumption. Qed.

(** An iteration is its classification followed, when there are failures, by
    its fixing. *)
Lemma iteration_body_phases iteration branch_name repo_path s :
  DockerRunner.iteration_body cfg iteration branch_name repo_path s
  = (errors <- classification cfg iteration branch_name repo_path ;;
     match errors with
     | [] =>
         DockerRunner._emit_progress cfg "success" "All tests passed!" None ;;
         ret false
     | _ :: _ =>
         fixed_count <- fixing cfg iteration errors ;;
         if fixed_count =? 0 then
           DockerRunner._emit_progress cfg "error"
             "No fixes could be applied. Stopping iterations." None ;;
           ret false
         else ret true
     end) s.
Proof.
  unfold DockerRunner.iteration_body, classification, before_tests, fixing,
    bindS.
  cbn [self_update DockerRunner._emit_progress].
  destruct (DockerRunner.remote cfg).
  - destruct (DockerRunner.in_git _ _) as [[[|]|e] s1]; [|reflexivity..].
    cbn [ret]. destruct (DockerRunner._run_tests _ _ _) as [[out|e] s2];
      [|reflexivity].
    cbn [world_read]. destruct (parse_errors _ _ _) as [|error errors];
      [reflexivity|].
    destruct (DockerRunner.apply_fixes _ _ _ _) as [[n|e] s3]; reflexivity.
  - cbn [ret]. destruct (DockerRunner._run_tests _ _ _) as [[out|e] s2];
      [|reflexivity].
    cbn [world_read]. destruct (parse_errors _ _ _) as [|error errors];
      [reflexivity|].
    destruct (DockerRunner.apply_fixes _ _ _ _) as [[n|e] s3]; reflexivity.
Qed.

Lemma classification_counts iteration branch_name repo_path s :
  wp (classification cfg iteration branch_name repo_path)
    (fun _ s' => DockerRunner.iterations (fst s') = iteration + 1)
    (fun _ s' => DockerRunner.iterations (fst s') = iteration + 1) s.
Proof.
  unfold classification, before_tests.
  pose proof (counts_iterations_loop_invariant (iteration + 1)) as Hinv.
  wp_step.
  assert (wp (self_update (DockerRunner.set_iterations (iteration + 1)) ;;
              DockerRunner._emit_progress cfg "testing"
                ("Running tests (Iteration " ++ Py.str_of_int (iteration + 1)
                 ++ "/" ++ Py.str_of_int (DockerRunner.max_retries cfg)
                 ++ ")...") None ;;
              (if DockerRunner.remote cfg then
                 pushed <- DockerRunner.in_git
                             (GitHandler.push_branch branch_name) ;;
                 if pushed : bool then ret tt
                 else
                   DockerRunner._emit_progress cfg "error"
                     "Failed to push branch updates for sandbox" None ;;
                   raise (Exception_ "Failed to push branch updates for sandbox")
               else ret tt))
            (fun _ s' => DockerRunner.iterations (fst s') = iteration + 1)
            (fun _ s' => DockerRunner.iterations (fst s') = iteration + 1) s)
    as Hbefore.
  { do 4 wp_step.
    destruct (DockerRunner.remote cfg); [|now wp_step].
    wp_step.
    eapply wp_mono;
      [apply (stays_in_git
                (fun self => DockerRunner.iterations self = iteration + 1) Hinv);
       reflexivity| |auto].
    intros pushed s1 Hs1. cbn beta in *.
    destruct pushed; repeat wp_step; exact Hs1. }
  eapply wp_mono; [exact Hbefore| |auto].
  intros ? s1 Hs1. cbn beta in *. wp_step.
  eapply wp_mono;
    [apply (stays_run_tests cfg
              (fun self => DockerRunner.iterations self = iteration + 1));
     exact Hs1| |auto].
  intros out s2 Hs2. now wp_step.
Qed.

Lemma fixing_counts iteration errors n s :
  DockerRunner.iterations (fst s) = n ->
  wp (fixing cfg iteration errors)
    (fun _ s' => DockerRunner.iterations (fst s') = n)
    (fun _ s' => DockerRunner.iterations (fst s') = n) s.
Proof.
  intros Hs. unfold fixing.
  pose proof (counts_iterations_loop_invariant n) as Hinv.
  wp_step. wp_step. wp_step. wp_step. wp_step. wp_step. wp_step.
  eapply wp_mono;
    [apply (stays_apply_fixes cfg
              (fun self => DockerRunner.iterations self = n) Hinv);
     exact Hs| |auto].
  intros fixed_count s1 Hs1. cbn beta. repeat wp_step. exact Hs1.
Qed.

Lemma iteration_body_counts iteration branch_name repo_path s :
  wp (DockerRunner.iteration_body cfg iteration branch_name repo_path)
    (fun _ s' => DockerRunner.iterations (fst s') = iteration + 1)
    (fun _ s' => DockerRunner.iterations (fst s') = iteration + 1) s.
Proof.
  unfold wp. rewrite iteration_body_phases. fold (wp
    (errors <- classification cfg iteration branch_name repo_path ;;
     match errors with
     | [] =>
         DockerRunner._emit_progress cfg "success" "All tests passed!" None ;;
         ret false
     | _ :: _ =>
         fixed_count <- fixing cfg iteration errors ;;
         if fixed_count =? 0 then
           DockerRunner._emit_progress cfg "error"
             "No fixes could be applied. Stopping iterations." None ;;
           ret false
         else ret true
     end)
    (fun _ s' => DockerRunner.iterations (fst s') = iteration + 1)
    (fun _ s' => DockerRunner.iterations (fst s') = iteration + 1) s).
  wp_step.
  eapply wp_mono; [apply classification_counts| |auto].
  intros errors s1 Hs1. cbn beta. destruct errors as [|error errors].
  - repeat wp_step. exact Hs1.
  - wp_step.
    eapply wp_mono; [apply (fixing_counts _ _ _ _ Hs1)| |auto].
    intros fixed_count s2 Hs2. cbn beta. repeat wp_step; exact Hs2.
Qed.

(** The loop leaves the count of iterations as it was, when it runs no
    iteration, or between the first and the last value it could take. *)
Lemma fix_loop_counts todo iteration branch_name repo_path s :
  let s' :=
    snd (DockerRunner.fix_loop cfg todo iteration branch_name repo_path s) in
  DockerRunner.iterations (fst s') = DockerRunner.iterations (fst s)
  \/ iteration < DockerRunner.iterations (fst s') <= iteration + Z.of_nat todo.
Proof.
  revert iteration s. induction todo as [|todo IH]; intros iteration s.
  - left. reflexivity.
  - right. cbn [DockerRunner.fix_loop]. unfold bindS.
    pose proof (iteration_body_counts iteration branch_name repo_path s) as Hb.
    unfold wp in Hb.
    destruct (DockerRunner.iteration_body _ _ _ _ _) as [[go_on|e] s1];
      cbn [snd]; [|lia].
    destruct go_on; [|cbn [ret snd]; lia].
    specialize (IH (iteration + 1) s1). cbv zeta in IH. lia.
Qed.

(** An iteration that classifies nothing is the last one. *)
Lemma loop_ends_without_failures todo iteration branch_name repo_path s s1 :
  classification cfg iteration branch_name repo_path s = (Ok [], s1) ->
  let s' :=
    snd (DockerRunner._emit_progress cfg "success" "All tests passed!" None s1) in
  DockerRunner.fix_loop cfg (S todo) iteration branch_name repo_path s
  = (Ok tt, s')
  /\ DockerRunner.iterations (fst s') = iteration + 1.
Proof.
  intros Hcl s'.
  pose proof (classification_counts iteration branch_name repo_path s) as Hit.
  unfold wp in Hit. rewrite Hcl in Hit.
  split; [|exact Hit].
  cbn [DockerRunner.fix_loop]. unfold bindS at 1.
  rewrite iteration_body_phases. unfold bindS at 1. rewrite Hcl.
  reflexivity.
Qed.

(** An iteration that applies no fix is the last one. *)
Lemma loop_ends_without_fixes todo iteration branch_name repo_path s errors
    s1 s2 :
  classification cfg iteration branch_name repo_path s = (Ok errors, s1) ->
  errors <> [] ->
  fixing cfg iteration errors s1 = (Ok 0, s2) ->
  let s' :=
    snd (DockerRunner._emit_progress cfg "error"
           "No fixes could be applied. Stopping iterations." None s2) in
  DockerRunner.fix_loop cfg (S todo) iteration branch_name repo_path s
  = (Ok tt, s')
  /\ DockerRunner.iterations (fst s') = iteration + 1.
Proof.
  intros Hcl Hne Hfix s'.
  pose proof (classification_counts iteration branch_name repo_path s) as Hit.
  unfold wp in Hit. rewrite Hcl in Hit.
  pose proof (fixing_counts iteration errors _ s1 Hit) as Hit2.
  unfold wp in Hit2. rewrite Hfix in Hit2.
  split; [|exact Hit2].
  cbn [DockerRunner.fix_loop]. unfold bindS at 1.
  rewrite iteration_body_phases. unfold bindS at 1. rewrite Hcl.
  destruct errors as [|error errors]; [contradiction|].
  unfold bindS at 1. rewrite Hfix. reflexivity.
Qed.


(** The three ways [_apply_and_commit_fix] can go. *)
Lemma attempt_keeps_runner error s b s1 :
  attempt cfg error s = (Ok b, s1) -> fst s1 = fst s.
Proof.
  unfold attempt, DockerRunner._emit_progress, DockerRunner.fixer_apply_fix,
    self_read, bindS.
  cbn [fst snd]. destruct (DockerRunner.fixer (fst s)); [|discriminate].
  destruct (FixEngine.apply_fix _ _ _ _) as [success fs']. cbn [fst snd].
  now intros [= _ <-].
Qed.

Lemma in_git_keeps_fixes {A} (c : ST (GitHandler.t * World X) A) s r s' :
  DockerRunner.in_git c s = (r, s') ->
  DockerRunner.fixes (fst s') = DockerRunner.fixes (fst s).
Proof.
  unfold DockerRunner.in_git. destruct (c _) as [r' [g' w']].
  now intros [= _ <-].
Qed.

Lemma fix_committed error s s1 message s2 :
  attempt cfg error s = (Ok true, s1) ->
  commit_of error s1 = (Ok message, s2) ->
  exists s',
    DockerRunner._apply_and_commit_fix cfg error s = (Ok true, s')
    /\ DockerRunner.fixes (fst s')
       = (DockerRunner.fixes (fst s) ++ [outcome_of error message "Fixed"])%list.
Proof.
  intros Hattempt Hcommit.
  pose proof (attempt_keeps_runner _ _ _ _ Hattempt) as Hself.
  pose proof (in_git_keeps_fixes _ _ _ _ Hcommit) as Hfixes.
  unfold attempt, bindS in Hattempt. unfold commit_of in Hcommit.
  unfold DockerRunner._apply_and_commit_fix, bindS at 1.
  destruct (DockerRunner._emit_progress _ _ _ _ s) as [[[]|e] s0];
    [|discriminate].
  unfold bindS at 1. rewrite Hattempt.
  unfold try_except, bindS, DockerRunner.record_fix, self_update, ret,
    DockerRunner._emit_progress.
  rewrite Hcommit. cbn [fst snd]. eexists. split; [reflexivity|].
  cbn [fst DockerRunner.fixes DockerRunner.set_fixes].
  now rewrite Hfixes, Hself.
Qed.

Lemma commit_refused error s s1 e s2 :
  attempt cfg error s = (Ok true, s1) ->
  commit_of error s1 = (Raise e, s2) ->
  DockerRunner._apply_and_commit_fix cfg error s = (Ok false, s2)
  /\ DockerRunner.fixes (fst s2) = DockerRunner.fixes (fst s).
Proof.
  intros Hattempt Hcommit.
  pose proof (attempt_keeps_runner _ _ _ _ Hattempt) as Hself.
  pose proof (in_git_keeps_fixes _ _ _ _ Hcommit) as Hfixes.
  unfold attempt, bindS in Hattempt. unfold commit_of in Hcommit.
  unfold DockerRunner._apply_and_commit_fix, bindS at 1.
  destruct (DockerRunner._emit_progress _ _ _ _ s) as [[[]|e0] s0];
    [|discriminate].
  unfold bindS at 1. rewrite Hattempt.
  unfold try_except, bindS, any_exception, ret. rewrite Hcommit.
  rewrite (in_git_raises _ (commit_fix_raises _ _ _ _) _ _ _ Hcommit).
  split; [reflexivity|]. now rewrite Hfixes, Hself.
Qed.

Lemma fix_declined error s s1 :
  attempt cfg error s = (Ok false, s1) ->
  exists s',
    DockerRunner._apply_and_commit_fix cfg error s = (Ok false, s')
    /\ DockerRunner.fixes (fst s')
       = (DockerRunner.fixes (fst s) ++ [outcome_of error "" "Failed"])%list.
Proof.
  intros Hattempt.
  pose proof (attempt_keeps_runner _ _ _ _ Hattempt) as Hself.
  unfold attempt, bindS in Hattempt.
  unfold DockerRunner._apply_and_commit_fix, bindS at 1.
  destruct (DockerRunner._emit_progress _ _ _ _ s) as [[[]|e0] s0];
    [|discriminate].
  unfold bindS at 1. rewrite Hattempt.
  unfold bindS, DockerRunner.record_fix, self_update, ret.
  eexists. split; [reflexivity|].
  cbn [fst DockerRunner.fixes DockerRunner.set_fixes]. now rewrite Hself.
Qed.

Lemma attempt_result error s repo_path b fs' :
  DockerRunner.fixer (fst s) = Some repo_path ->
  FixEngine.apply_fix typing_set_order repo_path error (files (snd s))
  = (b, fs') ->
  exists s1, attempt cfg error s = (Ok b, s1) /\ files (snd s1) = fs'.
Proof.
  intros Hfixer Hfix.
  unfold attempt, DockerRunner._emit_progress, DockerRunner.fixer_apply_fix,
    self_read, bindS.
  cbn [fst snd]. rewrite Hfixer.
  destruct (DockerRunner.has_sink cfg); cbn [fst snd files]; rewrite Hfix;
    eexists; (split; reflexivity).
Qed.

End Loop.


(** ** The run as a whole *)

Section Run.
Context {X : Type} `{Primitives X} `{AppModules X}.
Variable cfg : DockerRunner.Config.

Local Abbreviation St := (DockerRunner.t * World X)%type.

Lemma wp_evident {A} (c : ST St A) (s : St) :
  wp c (fun a s' => c s = (Ok a, s')) (fun e s' => c s = (Raise e, s')) s.
Proof. unfold wp. destruct (c s) as [[a|e] s']; reflexivity. Qed.


(** The report a run returns is the one [_generate_response] makes of the
    runner as the run leaves it. *)
Lemma run_reports (s : St) :
  wp (DockerRunner.run cfg)
    (fun report s' =>
       exists branch_name,
         report = DockerRunner._generate_response cfg branch_name (fst s'))
    (fun _ _ => True) s.
Proof.
  unfold DockerRunner.run.
  do 21 (apply wp_bind; apply wp_any; [intros ? ?|intros; exact Logic.I]).
  match goal with |- wp _ _ _ ?st => generalize st end. intros s0.
  unfold DockerRunner._save_results.
  wp_step. wp_step. wp_step. wp_step. wp_step. wp_step.
  wp_step.
  - wp_step. now eexists.
  - wp_step. wp_step. now eexists.
Qed.

Lemma fix_loop_bound branch_name repo_path (s : St) :
  DockerRunner.iterations (fst s) = 0 ->
  wp (DockerRunner.fix_loop cfg (Z.to_nat (DockerRunner.max_retries cfg)) 0
        branch_name repo_path)
    (fun _ s' =>
       0 <= DockerRunner.iterations (fst s')
         <= Z.max 0 (DockerRunner.max_retries cfg))
    (fun _ _ => True) s.
Proof.
  intros Hs.
  pose proof (fix_loop_counts cfg (Z.to_nat (DockerRunner.max_retries cfg)) 0
                branch_name repo_path s) as Hc.
  cbv zeta in Hc. unfold wp.
  destruct (DockerRunner.fix_loop _ _ _ _ _ _) as [[[]|e] s'];
    [|exact Logic.I].
  cbn [snd] in Hc. lia.
Qed.

(** The count of iterations a run reports is within its budget. *)
Lemma run_counts (s : St) :
  DockerRunner.iterations (fst s) = 0 ->
  wp (DockerRunner.run cfg)
    (fun report _ =>
       0 <= iterations report <= Z.max 0 (DockerRunner.max_retries cfg))
    (fun _ _ => True) s.
Proof.
  intros Hs.
  unfold DockerRunner.run, DockerRunner._detect_project_type,
    DockerRunner._create_venv, DockerRunner._install_dependencies,
    DockerRunner._save_results.
  repeat (wp_step; try exact Logic.I).
  all: eapply wp_mono;
    [apply fix_loop_bound; exact Hs
    |intros ? s1 Hs1; cbn beta in Hs1 |- *
    |intros; exact Logic.I].
  all: repeat (wp_step; try exact Logic.I); exact Hs1.
Qed.

End Run.

(** C3. The repair loop runs at most [max_retries] iterations, and so the
    report of a run counts no more; an iteration that classifies no failure
    is the last one; an iteration whose fixes all fail is the last one,
    whatever is left of the budget; and with a budget of three, when the
    first two iterations each fix one error and the third finds none, the
    run ends with [iterations = 3], two outcomes, both Fixed, and the status
    PASSED. *)
Theorem C3_repair_loop_bounded_and_stops_early :
  (forall (X : Type) (P : Primitives X) (M : AppModules X)
          (cfg : DockerRunner.Config) (branch_name repo_path : string),
     (* the budget bounds the number of iterations *)
     (forall s,
        DockerRunner.iterations (fst s) = 0 ->
        let s' :=
          snd (DockerRunner.fix_loop cfg (Z.to_nat (DockerRunner.max_retries cfg))
                 0 branch_name repo_path s) in
        0 <= DockerRunner.iterations (fst s')
          <= Z.max 0 (DockerRunner.max_retries cfg)) /\
     (forall w report s',
        DockerRunner.run cfg (DockerRunner.__init__ cfg, w) = (Ok report, s') ->
        0 <= iterations report <= Z.max 0 (DockerRunner.max_retries cfg)) /\
     (* no failure classified: the loop ends there *)
     (forall todo iteration s s1,
        classification cfg iteration branch_name repo_path s = (Ok [], s1) ->
        let s' :=
          snd (DockerRunner._emit_progress cfg "success" "All tests passed!"
                 None s1) in
        DockerRunner.fix_loop cfg (S todo) iteration branch_name repo_path s
        = (Ok tt, s')
        /\ DockerRunner.iterations (fst s') = iteration + 1) /\
     (* failures, and not one fix applied: the loop ends there *)
     (forall todo iteration s errors s1 s2,
        classification cfg iteration branch_name repo_path s = (Ok errors, s1) ->
        errors <> [] ->
        fixing cfg iteration errors s1 = (Ok 0, s2) ->
        let s' :=
          snd (DockerRunner._emit_progress cfg "error"
                 "No fixes could be applied. Stopping iterations." None s2) in
        DockerRunner.fix_loop cfg (S todo) iteration branch_name repo_path s
        = (Ok tt, s')
        /\ DockerRunner.iterations (fst s') = iteration + 1)) /\
  (* the scenario with a budget of three *)
  (exists report s',
     DockerRunner.run (Lab.demo_config 3 "")
       (Lab.start (Lab.demo_config 3 "") Lab.two_faults_then_green)
     = (Ok report, s')
     /\ iterations report = 3
     /\ status report = "PASSED"
     /\ map fix_status (fixes report) = ["Fixed"; "Fixed"]).
Proof.
  split.
  - intros X P M cfg branch_name repo_path. split; [|split; [|split]].
    + intros s Hs s'.
      pose proof (fix_loop_counts cfg (Z.to_nat (DockerRunner.max_retries cfg))
                    0 branch_name repo_path s) as Hc.
      cbv zeta in Hc. fold s' in Hc. lia.
    + intros w report s' Hrun.
      exact (wp_result _ _ _ _ _ _ Hrun
               (run_counts cfg (DockerRunner.__init__ cfg, w) eq_refl)).
    + intros todo iteration s s1 Hcl.
      now apply loop_ends_without_failures.
    + intros todo iteration s errors s1 s2 Hcl Hne Hfix.
      now apply (loop_ends_without_fixes cfg todo iteration branch_name
                   repo_path s errors s1 s2).
  - eexists. eexists. split; [vm_compute; reflexivity|].
    repeat split.
Qed.

(** C1. The status of the report of a run is fixed by the outcomes the
    report lists, which are those the runner recorded: PASSED exactly when
    at least one outcome is Fixed and every outcome is Fixed, FAILED exactly
    when no outcome is Fixed (the empty list included), PARTIAL exactly in
    the remaining case. *)
Theorem C1_status_determined_by_outcomes
    (X : Type) (P : Primitives X) (M : AppModules X)
    (cfg : DockerRunner.Config)
    (s s' : DockerRunner.t * World X) (report : AgentResponse) :
  DockerRunner.run cfg s = (Ok report, s') ->
  let outcomes := fixes report in
  outcomes = DockerRunner.fixes (fst s') /\
  (status report = "PASSED" <->
     (exists f, In f outcomes /\ Fixed f) /\ (forall f, In f outcomes -> Fixed f)) /\
  (status report = "FAILED" <-> forall f, In f outcomes -> ~ Fixed f) /\
  (status report = "PARTIAL" <->
     ~ ((exists f, In f outcomes /\ Fixed f)
        /\ (forall f, In f outcomes -> Fixed f))
     /\ ~ (forall f, In f outcomes -> ~ Fixed f)).
Proof.
  intros Hrun outcomes.
  pose proof (wp_result _ _ _ _ _ _ Hrun (run_reports cfg s)) as (b & Hreport).
  cbn beta iota in Hreport.
  assert (status report = DockerRunner.status_of outcomes) as ->
    by (unfold outcomes; rewrite Hreport; reflexivity).
  split; [unfold outcomes; rewrite Hreport; reflexivity|].
  apply status_of_cases.
Qed.

(** ** Which failures end a run *)

Section Fatal.
Context {X : Type} `{Primitives X} `{AppModules X}.
Variable cfg : DockerRunner.Config.

Local Abbreviation St := (DockerRunner.t * World X)%type.













End Fatal.

(** ** Test runs that fail *)

Section TestRuns.
Context {X : Type} `{Primitives X} `{AppModules X}.
Variable cfg : DockerRunner.Config.

Local Abbreviation St := (DockerRunner.t * World X)%type.




End TestRuns.





(** C2 (the code at work when a commit is refused).  The first of two
    failures is edited on disk, its commit raises, and nothing is recorded
    for it: the only outcome of the run is the Fixed one of the second
    failure, and the report says PASSED with one fix for two failures. *)
Theorem C2_refused_commit_leaves_no_outcome :
  let s := Lab.cloned Lab.first_commit_refused in
  let one := DockerRunner._apply_and_commit_fix Lab.local_config (Lab.fault_at 3) s in
  let all :=
    DockerRunner.apply_fixes Lab.local_config [Lab.fault_at 3; Lab.fault_at 6] 0 s in
  let whole :=
    DockerRunner.run (Lab.demo_config 1 "")
      (Lab.start (Lab.demo_config 1 "") Lab.first_commit_refused) in
  (* one failure: the edit is made, the commit fails, no outcome is kept *)
  (fst (FixEngine.apply_fix typing_set_order Lab.repo_root (Lab.fault_at 3)
          (files (snd s))) = true
   /\ fst one = Ok false
   /\ DockerRunner.fixes (fst (snd one)) = []
   /\ files (snd (snd one)) !! "/workspace/demo/faulty.py"
      <> files (snd s) !! "/workspace/demo/faulty.py"
   /\ Lab.committed (outside (snd (snd one))) = []) /\
  (* the iteration goes on with the next failure *)
  (fst all = Ok 1
   /\ map (fun f => (fix_line f, fix_status f))
        (DockerRunner.fixes (fst (snd all))) = [(6, "Fixed")]) /\
  (* the report of the run *)
  (exists report,
     fst whole = Ok report
     /\ total_failures report = 2
     /\ map (fun f => (fix_line f, fix_status f, commit_message f))
          (fixes report)
        = [(6, "Fixed", "[AI-AGENT] Fixed SYNTAX error in faulty.py line 6")]
     /\ status report = "PASSED").
Proof.
  split; [|split].
  - repeat split; try (vm_compute; reflexivity).
    vm_compute. discriminate.
  - split; vm_compute; reflexivity.
  - eexists. split; [vm_compute; reflexivity|]. repeat split.
Qed.




Lemma C3_lab_witness :
  (0 <= DockerRunner.iterations
          (fst (snd (DockerRunner.fix_loop Lab.local_config (Z.to_nat 3) 0
                       "ACME_ANA_AI_FIX" Lab.repo_root
                       (Lab.cloned Lab.two_faults_then_green))))
     <= Z.max 0 3) /\
  (0 <= iterations Lab.green_report <= Z.max 0 3) /\
  DockerRunner.iterations
    (fst (snd (DockerRunner.fix_loop Lab.local_config 3 0 "ACME_ANA_AI_FIX"
                 Lab.repo_root (Lab.cloned Lab.tests_pass)))) = 0 + 1 /\
  DockerRunner.iterations
    (fst (snd (DockerRunner.fix_loop Lab.local_config 3 0 "ACME_ANA_AI_FIX"
                 Lab.repo_root (Lab.cloned Lab.foreign_failure)))) = 0 + 1.
Proof.
  destruct (proj1 C3_repair_loop_bounded_and_stops_early Lab.Outside
              Lab.lab_primitives Lab.lab_modules Lab.local_config "ACME_ANA_AI_FIX"
              Lab.repo_root) as (Hbound & Hreport & Hnone & Hnofix).
  split; [|split; [|split]].
  - apply (Hbound (Lab.cloned Lab.two_faults_then_green)). reflexivity.
  - apply (Hreport {| files := ∅; outside := Lab.two_faults_then_green |}
             Lab.green_report
             (snd (DockerRunner.run Lab.local_config
                     (Lab.start Lab.local_config Lab.two_faults_then_green)))).
    vm_compute; reflexivity.
  - destruct (Hnone 2%nat 0 (Lab.cloned Lab.tests_pass)
                (snd (classification Lab.local_config 0 "ACME_ANA_AI_FIX"
                        Lab.repo_root (Lab.cloned Lab.tests_pass))))
      as [Hends Hcount].
    + vm_compute; reflexivity.
    + rewrite Hends. exact Hcount.
  - destruct (Hnofix 2%nat 0 (Lab.cloned Lab.foreign_failure)
                [Lab.division_by_zero]
                (snd (classification Lab.local_config 0 "ACME_ANA_AI_FIX"
                        Lab.repo_root (Lab.cloned Lab.foreign_failure)))
                (snd (fixing Lab.local_config 0 [Lab.division_by_zero]
                        (snd (classification Lab.local_config 0
                                "ACME_ANA_AI_FIX" Lab.repo_root
                                (Lab.cloned Lab.foreign_failure))))))
      as [Hends Hcount].
    + vm_compute; reflexivity.
    + discriminate.
    + vm_compute; reflexivity.
    + rewrite Hends. exact Hcount.
Defined.

Lemma C1_lab_witness :
  let run :=
    DockerRunner.run Lab.local_config
      (Lab.start Lab.local_config Lab.two_faults_then_green) in
  run = (Ok Lab.green_report, snd run)
  /\ (status Lab.green_report = "PASSED" <->
        (exists f, In f (fixes Lab.green_report) /\ Fixed f)
        /\ (forall f, In f (fixes Lab.green_report) -> Fixed f)).
Proof.
  intros run.
  assert (run = (Ok Lab.green_report, snd run)) as Hrun
    by (vm_compute; reflexivity).
  split; [exact Hrun|].
  exact (proj1 (proj2 (C1_status_determined_by_outcomes Lab.Outside
                         Lab.lab_primitives Lab.lab_modules Lab.local_config
                         (Lab.start Lab.local_config Lab.two_faults_then_green)
                         (snd run) Lab.green_report Hrun))).
Defined.

Lemma C10_lab_witness :
  Lab.sandbox (Some " s3cret ") Lab.demo_request (Some "guess") Lab.slow_host
  = ({| status_code := 401; json := None |}, Lab.slow_host)
  /\ status_code
       (fst (Lab.sandbox (Some "") Lab.demo_request (Some "guess") Lab.slow_host))
     <> 401.
Proof.
  destruct (C10_unauthorized_iff_token_set_and_header_differs Lab.Host
              Lab.host_run Lab.host_exists Lab.host_tmpdir Lab.host_cleanup
              (Some " s3cret ") Lab.demo_request (Some "guess") Lab.slow_host)
    as (_ & Hreject & _).
  destruct (C10_unauthorized_iff_token_set_and_header_differs Lab.Host
              Lab.host_run Lab.host_exists Lab.host_tmpdir Lab.host_cleanup
              (Some "") Lab.demo_request None Lab.slow_host)
    as (_ & _ & Hopen).
  split.
  - apply Hreject. split; vm_compute; discriminate.
  - apply (Hopen eq_refl (Some "guess")).
Defined.

(** C10 as stated fails, both ways: the header is compared with the stripped
    value of SANDBOX_TOKEN, not with the value.  A header equal to a value
    with blanks around it is answered 401; and a value of blanks only, which
    is not empty, lets a request through whatever its header. *)
Lemma C10_token_is_compared_stripped :
  (Some " s3cret " = Some " s3cret " /\
   Lab.sandbox (Some " s3cret ") Lab.demo_request (Some " s3cret ")
     Lab.slow_host
   = ({| status_code := 401; json := None |}, Lab.slow_host)) /\
  (" " <> "" /\ Some "guess" <> Some " " /\
   status_code
     (fst (Lab.sandbox (Some " ") Lab.demo_request (Some "guess")
             Lab.slow_host)) = 200).
Proof.
  split; [split; [reflexivity|vm_compute; reflexivity]|].
  split; [discriminate|]. split; [discriminate|vm_compute; reflexivity].
Qed.

(** C8, as the code has it.  In a file whose tenth line reads [if x = 5:],
    a Syntax record for line 10 whose message contains the words invalid
    syntax and none of the phrases of the two rules tried before (a missing
    colon, a print statement) makes dispatch rewrite that line to
    [if x == 5:], keep every
    other line, write the file and answer True; and the orchestrator, when
    the commit of that edit succeeds, appends a Fixed outcome for line 10
    with the message of the commit.  [eol] is the line feed of the line, or
    nothing when the line is the last one and has none. *)
Theorem C8_assignment_in_condition_rewritten
    (repo_path file message text eol : string) (fs : FS) :
  let path := Py.path_join repo_path file in
  let lines := Py.readlines text in
  let error :=
    {| err_type := SYNTAX; err_file := file; err_line := 10;
       err_message := message |} in
  let fixed :=
    <[path := Py.concat_lines (<[9%nat := "if x == 5:" ++ eol]> lines)]> fs in
  fs !! path = Some text ->
  eol = nl \/ eol = EmptyString ->
  lines !! 9%nat = Some ("if x = 5:" ++ eol) ->
  Py.contains "invalid syntax" (Py.lower message) = true ->
  Py.contains "expected ':'" message = false ->
  Py.contains ("expected " ++ dq ++ ":" ++ dq) message = false ->
  Py.contains "Missing parentheses in call to 'print'" message = false ->
  (forall set_order,
     FixEngine.apply_fix set_order repo_path error fs = (true, fixed)) /\
  (forall (X : Type) (P : Primitives X) (M : AppModules X)
          (cfg : DockerRunner.Config) (s : DockerRunner.t * World X)
          (commit_message : string) (s2 : DockerRunner.t * World X),
     DockerRunner.fixer (fst s) = Some repo_path ->
     files (snd s) = fs ->
     commit_of error (snd (attempt cfg error s)) = (Ok commit_message, s2) ->
     files (snd (snd (attempt cfg error s))) = fixed /\
     exists s',
       DockerRunner._apply_and_commit_fix cfg error s = (Ok true, s')
       /\ DockerRunner.fixes (fst s')
          = (DockerRunner.fixes (fst s)
             ++ [{| fix_file := file; fix_line := 10;
                    fix_type := type_value SYNTAX;
                    commit_message := commit_message;
                    fix_status := "Fixed" |}])%list).
Proof.
  intros path lines error fixed Hfile Heol Hline Hinv Hc1 Hc2 Hpr.
  assert (forall set_order,
            FixEngine.apply_fix set_order repo_path error fs = (true, fixed))
    as Hdispatch.
  { intros set_order.
    now apply (comparison_rule_applies set_order repo_path file message text
                 eol fs). }
  split; [exact Hdispatch|].
  intros X P M cfg s commit_message s2 Hfixer Hfiles Hcommit.
  destruct (attempt_result cfg error s repo_path true fixed Hfixer)
    as (s1 & Hattempt & Hs1).
  { rewrite Hfiles. apply Hdispatch. }
  rewrite Hattempt in Hcommit |- *. cbn [snd] in Hcommit |- *.
  split; [exact Hs1|].
  exact (fix_committed cfg error s s1 commit_message s2 Hattempt Hcommit).
Qed.

Lemma C8_shapes_witness :
  FixEngine.apply_fix [] Lab.repo_root Lab.invalid_syntax Lab.shapes_fs
  = (true,
     <["/workspace/demo/shapes.py" :=
         Py.concat_lines
           (<[9%nat := "if x == 5:" ++ nl]> (Py.readlines Lab.shapes_py))]>
       Lab.shapes_fs)
  /\ map (fun f => (fix_line f, fix_status f, commit_message f))
       (DockerRunner.fixes
          (fst (snd (DockerRunner._apply_and_commit_fix Lab.local_config
                       Lab.invalid_syntax Lab.at_shapes))))
     = [(10, "Fixed", "[AI-AGENT] Fixed SYNTAX error in shapes.py line 10")].
Proof.
  destruct (C8_assignment_in_condition_rewritten Lab.repo_root "shapes.py"
              "SyntaxError: invalid syntax" Lab.shapes_py nl Lab.shapes_fs)
    as [Hdispatch Hrecord].
  - vm_compute; reflexivity.
  - left; reflexivity.
  - vm_compute; reflexivity.
  - vm_compute; reflexivity.
  - vm_compute; reflexivity.
  - vm_compute; reflexivity.
  - vm_compute; reflexivity.
  - split; [apply Hdispatch|].
    destruct (Hrecord Lab.Outside Lab.lab_primitives Lab.lab_modules
                Lab.local_config Lab.at_shapes
                "[AI-AGENT] Fixed SYNTAX error in shapes.py line 10"
                (snd (commit_of Lab.invalid_syntax
                        (snd (attempt Lab.local_config Lab.invalid_syntax
                                Lab.at_shapes)))))
      as (_ & s' & Hrun & Hfixes).
    + reflexivity.
    + reflexivity.
    + vm_compute; reflexivity.
    + change (DockerRunner._apply_and_commit_fix Lab.local_config
                Lab.invalid_syntax Lab.at_shapes)
        with (DockerRunner._apply_and_commit_fix Lab.local_config
                {| err_type := SYNTAX; err_file := "shapes.py"; err_line := 10;
                   err_message := "SyntaxError: invalid syntax" |}
                Lab.at_shapes).
      rewrite Hrun. cbn [fst snd]. rewrite Hfixes. reflexivity.
Defined.

(** C8 as stated fails: a message that contains the words invalid syntax
    and also asks for a colon goes to the rule for a missing colon, which
    declines a line that ends in one; the rule for comparisons is not
    tried, the line stays [if x = 5:] and dispatch answers False. *)
Lemma C8_message_asking_for_a_colon_is_declined :
  let error :=
    {| err_type := SYNTAX; err_file := "shapes.py"; err_line := 10;
       err_message := "SyntaxError: invalid syntax (expected ':')" |} in
  Py.contains "invalid syntax" (err_message error) = true /\
  Py.readlines Lab.shapes_py !! 9%nat = Some ("if x = 5:" ++ nl) /\
  FixEngine.apply_fix [] Lab.repo_root error Lab.shapes_fs
  = (false, Lab.shapes_fs).
Proof.
  split; [vm_compute; reflexivity|].
  split; vm_compute; reflexivity.
Qed.

(** * Further properties of the code *)

(** ** Strings: stripping, splitting, base names *)

Lemma app_not_empty (a : string) (c : ascii) (t : string) :
  a ++ String c t <> "".
Proof. destruct a; discriminate. Qed.

Lemma prefix_app (p s : string) : String.prefix p (p ++ s) = true.
Proof.
  induction p as [|c p IH]; cbn [String.prefix String.append].
  - now destruct s.
  - destruct (ascii_dec c c); [exact IH|contradiction].
Qed.

Lemma prefix_split (p s : string) :
  String.prefix p s = true -> exists rest, s = p ++ rest.
Proof.
  revert s. induction p as [|c p IH]; intros s Hp.
  - now exists s.
  - destruct s as [|d s]; [discriminate|]. cbn [String.prefix] in Hp.
    destruct (ascii_dec c d) as [<-|]; [|discriminate].
    destruct (IH s Hp) as [rest ->]. now exists rest.
Qed.

Lemma rstrip_by_app (p : ascii -> bool) (a b : string) :
  Py.rstrip_by p (a ++ b)
  = match Py.rstrip_by p b with
    | EmptyString => Py.rstrip_by p a
    | t => a ++ t
    end.
Proof.
  induction a as [|c a IH]; simpl.
  - now destruct (Py.rstrip_by p b).
  - rewrite IH. destruct (Py.rstrip_by p b) as [|x t]; [reflexivity|].
    destruct a; reflexivity.
Qed.

Lemma rstrip_by_idem (p : ascii -> bool) (s : string) :
  Py.rstrip_by p (Py.rstrip_by p s) = Py.rstrip_by p s.
Proof.
  induction s as [|c s IH]; simpl; [reflexivity|].
  destruct (Py.rstrip_by p s) as [|x t] eqn:E.
  - destruct (p c) eqn:Ec; simpl; [reflexivity|now rewrite Ec].
  - simpl in IH |- *. now rewrite IH.
Qed.

Lemma rstrip_by_keeps (p : ascii -> bool) (s : string) (c : ascii) :
  p c = false -> Py.rstrip_by p (s ++ String c "") = s ++ String c "".
Proof.
  intros Hc. rewrite rstrip_by_app. simpl. now rewrite Hc.
Qed.

Lemma rstrip_by_drops (p : ascii -> bool) (s t : string) :
  Py.rstrip_by p t = "" -> Py.rstrip_by p (s ++ t) = Py.rstrip_by p s.
Proof. intros Ht. now rewrite rstrip_by_app, Ht. Qed.

(** What [rstrip] leaves is the beginning of the text. *)
Lemma rstrip_by_prefix (p : ascii -> bool) (s : string) :
  exists t, s = Py.rstrip_by p s ++ t /\ Py.rstrip_by p t = "".
Proof.
  induction s as [|c s (t & Hs & Ht)]; simpl.
  - now exists "".
  - destruct (Py.rstrip_by p s) as [|x r] eqn:E.
    + destruct (p c) eqn:Ec.
      * exists (String c s). split; [reflexivity|]. simpl. now rewrite E, Ec.
      * exists s. split; [reflexivity|exact E].
    + exists t. split; [|exact Ht].
      change (String c s = String c (String x r ++ t)). now rewrite <- Hs.
Qed.

Lemma plain_rstrip_by (p : ascii -> bool) (s : string) :
  plain s = true -> plain (Py.rstrip_by p s) = true.
Proof.
  intros Hs. destruct (rstrip_by_prefix p s) as (t & Heq & _).
  rewrite Heq, plain_app in Hs. now apply andb_prop in Hs as [Hs _].
Qed.

Lemma lstrip_spaces (n : nat) (s : string) :
  Py.lstrip (Py.spaces n ++ s) = Py.lstrip s.
Proof. induction n as [|n IH]; simpl; [reflexivity|exact IH]. Qed.

Lemma lstrip_idem (s : string) : Py.lstrip (Py.lstrip s) = Py.lstrip s.
Proof.
  induction s as [|c s IH]; simpl; [reflexivity|].
  destruct (Py.isspace c) eqn:Ec; [exact IH|]. simpl. now rewrite Ec.
Qed.

(** *** One character in a text *)

Lemma has_char_cons (c x : ascii) (s : string) :
  Py.has_char c (String x s) = Ascii.eqb c x || Py.has_char c s.
Proof.
  unfold Py.has_char. cbn [Py.contains String.prefix].
  destruct (ascii_dec c x) as [->|Hne].
  - rewrite Ascii.eqb_refl. now destruct s.
  - apply Ascii.eqb_neq in Hne. now rewrite Hne.
Qed.

Lemma has_char_app (c : ascii) (a b : string) :
  Py.has_char c (a ++ b) = Py.has_char c a || Py.has_char c b.
Proof.
  induction a as [|x a IH]; [reflexivity|].
  change (String x a ++ b) with (String x (a ++ b)).
  now rewrite !has_char_cons, IH, orb_assoc.
Qed.

Lemma has_char_split (c : ascii) (s : string) :
  Py.has_char c s = true ->
  exists a b, s = a ++ String c b /\ Py.has_char c a = false.
Proof.
  induction s as [|x s IH]; [discriminate|].
  rewrite has_char_cons. destruct (Ascii.eqb_spec c x) as [<-|Hne]; simpl.
  - intros _. now exists "", s.
  - intros Hs. destruct (IH Hs) as (a & b & -> & Ha).
    exists (String x a), b. split; [reflexivity|].
    rewrite has_char_cons, Ha. apply Ascii.eqb_neq in Hne. now rewrite Hne.
Qed.

Lemma prefix_char (c x : ascii) (s : string) :
  String.prefix (String c "") (String x s) = Ascii.eqb c x.
Proof.
  cbn [String.prefix]. destruct (ascii_dec c x) as [->|Hne].
  - rewrite Ascii.eqb_refl. now destruct s.
  - apply Ascii.eqb_neq in Hne. now rewrite Hne.
Qed.

(** *** [split] on a one-character separator *)

Lemma split_go_exhausted (sep cur s : string) :
  Py.split_go sep 0 (Some O) cur s = [cur ++ s].
Proof.
  revert cur. induction s as [|x s IH]; intros cur.
  - simpl. now rewrite str_app_nil_r.
  - cbn [Py.split_go andb]. rewrite IH. unfold Py.snoc.
    now rewrite str_app_assoc.
Qed.

Lemma split_go_no_sep (c : ascii) (left : option nat) (cur s : string) :
  Py.has_char c s = false ->
  Py.split_go (String c "") 0 left cur s = [cur ++ s].
Proof.
  revert cur. induction s as [|x s IH]; intros cur Hs.
  - simpl. now rewrite str_app_nil_r.
  - rewrite has_char_cons in Hs. apply orb_false_elim in Hs as [Hx Hs].
    cbn [Py.split_go]. rewrite prefix_char, Hx, andb_false_r.
    rewrite IH by exact Hs. unfold Py.snoc. now rewrite str_app_assoc.
Qed.

Lemma split_go_first (c : ascii) (n : nat) (cur a b : string) :
  Py.has_char c a = false ->
  Py.split_go (String c "") 0 (Some (S n)) cur (a ++ String c b)
  = (cur ++ a) :: Py.split_go (String c "") 0 (Some n) "" b.
Proof.
  revert cur. induction a as [|x a IH]; intros cur Ha.
  - cbn [String.append Py.split_go]. rewrite prefix_char, Ascii.eqb_refl.
    cbn [andb String.length Nat.sub]. now rewrite str_app_nil_r.
  - rewrite has_char_cons in Ha. apply orb_false_elim in Ha as [Hx Ha].
    change (String x a ++ String c b) with (String x (a ++ String c b)).
    cbn [Py.split_go]. rewrite prefix_char, Hx, andb_false_r.
    rewrite IH by exact Ha. unfold Py.snoc. now rewrite str_app_assoc.
Qed.

(** [line.split(c, 1)] on a line that holds [c]: what is before the first
    [c], and what is after it. *)
Lemma split_max_once (c : ascii) (a b : string) :
  Py.has_char c a = false ->
  Py.split_max (String c "") 1 (a ++ String c b) = [a; b].
Proof.
  intros Ha. unfold Py.split_max.
  now rewrite split_go_first, split_go_exhausted by exact Ha.
Qed.

(** The pieces of [s.split(c)] are free of [c], and there is at least one. *)
Lemma split_go_pieces (c : ascii) (cur s : string) :
  Py.has_char c cur = false ->
  Py.split_go (String c "") 0 None cur s <> [] /\
  Forall (fun piece => Py.has_char c piece = false)
    (Py.split_go (String c "") 0 None cur s).
Proof.
  revert cur. induction s as [|x s IH]; intros cur Hcur.
  - simpl. split; [discriminate|]. now constructor.
  - cbn [Py.split_go]. rewrite prefix_char. cbn [andb].
    destruct (Ascii.eqb c x) eqn:Ex; cbn [String.length Nat.sub].
    + split; [discriminate|]. constructor; [exact Hcur|].
      now apply IH.
    + apply IH. unfold Py.snoc. rewrite has_char_app, Hcur, has_char_cons, Ex.
      reflexivity.
Qed.

(** [l[-1]] of a list that is not empty is its last element. *)
Lemma item_last {A} (l : list A) :
  l <> [] -> exists x, item l (-1) = Ok x /\ last l = Some x.
Proof.
  intros Hl. destruct (last l) as [x|] eqn:El.
  - exists x. split; [|reflexivity]. unfold item, Py.index.
    rewrite last_lookup in El.
    assert (0 < length l)%nat by (destruct l; [contradiction|simpl; lia]).
    destruct (Z.leb_spec 0 (-1)); [lia|]. cbn [andb].
    destruct (Z.leb_spec (- Z.of_nat (length l)) (-1)); [|lia].
    destruct (Z.ltb_spec (-1) 0); [|lia]. cbn [andb].
    replace (Z.to_nat (Z.of_nat (length l) + -1)) with (pred (length l)) by lia.
    now rewrite El.
  - apply last_None in El. contradiction.
Qed.

(** *** Base names *)

Lemma basename_go_plain (cur s : string) :
  Py.has_char "/" s = false -> Py.basename_go cur s = cur ++ s.
Proof.
  revert cur. induction s as [|x s IH]; intros cur Hs.
  - simpl. now rewrite str_app_nil_r.
  - rewrite has_char_cons in Hs. apply orb_false_elim in Hs as [Hx Hs].
    simpl. rewrite Ascii.eqb_sym, Hx, IH by exact Hs.
    unfold Py.snoc. now rewrite str_app_assoc.
Qed.

Lemma basename_go_after_slash (cur a b : string) :
  Py.basename_go cur (a ++ String "/" b) = Py.basename_go "" b.
Proof.
  revert cur. induction a as [|x a IH]; intros cur; simpl.
  - reflexivity.
  - destruct (Ascii.eqb x "/"); apply IH.
Qed.

Lemma endswith_split (suf s : string) :
  Py.endswith suf s = true -> exists a, s = a ++ suf.
Proof.
  induction s as [|x s IH]; cbn [Py.endswith].
  - rewrite orb_false_r. intros Heq. apply String.eqb_eq in Heq as <-.
    now exists "".
  - intros Hs. apply orb_prop in Hs as [Heq|Hs].
    + apply String.eqb_eq in Heq as <-. now exists "".
    + destruct (IH Hs) as [a ->]. now exists (String x a).
Qed.

Lemma endswith_app (suf a : string) : Py.endswith suf (a ++ suf) = true.
Proof.
  induction a as [|x a IH].
  - cbn [String.append]. destruct suf; cbn [Py.endswith];
      now rewrite String.eqb_refl.
  - change (String x a ++ suf) with (String x (a ++ suf)).
    cbn [Py.endswith]. rewrite IH. apply orb_true_r.
Qed.

(** The base name of a path made of a directory and a name without a
    slash is that name. *)
Lemma basename_path_join (dir name : string) :
  Py.has_char "/" name = false ->
  Py.basename (Py.path_join dir name) = name.
Proof.
  intros Hname. unfold Py.basename, Py.path_join, Py.startswith.
  assert (String.prefix "/" name = false) as ->.
  { destruct name as [|x name]; [reflexivity|].
    rewrite has_char_cons in Hname. apply orb_false_elim in Hname as [Hx _].
    now rewrite prefix_char. }
  destruct (String.eqb_spec dir "") as [->|Hdir]; cbn [orb].
  - now apply basename_go_plain.
  - destruct (Py.endswith "/" dir) eqn:Hend.
    + destruct (endswith_split _ _ Hend) as [a ->].
      replace ((a ++ "/") ++ name) with (a ++ String "/" name)
        by (now rewrite str_app_assoc).
      rewrite basename_go_after_slash. now apply basename_go_plain.
    + change (dir ++ "/" ++ name) with (dir ++ String "/" name).
      rewrite basename_go_after_slash. now apply basename_go_plain.
Qed.

(** ** The dispatcher and the files it is not asked about *)

Ltac edits_cases :=
  repeat match goal with
  | |- edits_only _ ?fs (snd (_, ?fs)) => left; reflexivity
  | |- edits_only ?p ?fs (snd (_, writelines ?p _ ?fs)) =>
      right; eexists; reflexivity
  | |- edits_only _ _ (snd (match ?x with _ => _ end)) => destruct x
  | |- edits_only _ _ (snd (if ?x then _ else _)) => destruct x
  | |- edits_only _ _ (snd (let '(_, _) := ?x in _)) => destruct x
  end.

Lemma edits_fix_syntax repo_path error fs :
  edits_only (Py.path_join repo_path (err_file error)) fs
    (snd (FixEngine._fix_syntax repo_path error fs)).
Proof.
  unfold FixEngine._fix_syntax.
  destruct (fs !! _); [|edits_cases].
  destruct (_ || _); [edits_cases|].
  match goal with |- edits_only _ _ (snd (match ?o with _ => _ end)) =>
    generalize o end.
  intros o. edits_cases.
Qed.

Lemma edits_fix_indentation repo_path error fs :
  edits_only (Py.path_join repo_path (err_file error)) fs
    (snd (FixEngine._fix_indentation repo_path error fs)).
Proof.
  unfold FixEngine._fix_indentation.
  destruct (fs !! _); [|edits_cases].
  destruct (_ || _); [edits_cases|].
  match goal with |- edits_only _ _ (snd (match ?o with _ => _ end)) =>
    generalize o end.
  intros o. edits_cases.
Qed.

Lemma edits_add_typing_import lines type_name file_path fs :
  edits_only file_path fs
    (snd (FixEngine._add_typing_import lines type_name file_path fs)).
Proof.
  unfold FixEngine._add_typing_import.
  destruct (FixEngine.scan_imports _ _ _ _); [edits_cases| |edits_cases].
  match goal with |- edits_only _ _ (snd (match ?o with _ => _ end)) =>
    generalize o end.
  intros o. edits_cases.
Qed.

Lemma edits_fix_string_concatenation lines line_num message file_path fs :
  edits_only file_path fs
    (snd (FixEngine._fix_string_concatenation lines line_num message
            file_path fs)).
Proof. unfold FixEngine._fix_string_concatenation. edits_cases. Qed.

Lemma edits_fix_type_error set_order repo_path error fs :
  edits_only (Py.path_join repo_path (err_file error)) fs
    (snd (FixEngine._fix_type_error set_order repo_path error fs)).
Proof.
  unfold FixEngine._fix_type_error, FixEngine._fix_operand_type.
  destruct (fs !! _); [|edits_cases].
  repeat match goal with
  | |- edits_only _ _ (snd (FixEngine._add_typing_import _ _ _ _)) =>
      apply edits_add_typing_import
  | |- edits_only _ _ (snd (FixEngine._fix_string_concatenation _ _ _ _ _)) =>
      apply edits_fix_string_concatenation
  | |- edits_only _ ?fs (snd (_, ?fs)) => left; reflexivity
  | |- edits_only _ _ (snd (match ?x with _ => _ end)) => destruct x
  | |- edits_only _ _ (snd (if ?x then _ else _)) => destruct x
  end.
Qed.

Lemma edits_comment_out_loop lines rest i module_name file_path fs :
  edits_only file_path fs
    (snd (FixEngine.comment_out_loop lines rest i module_name file_path fs)).
Proof.
  revert i. induction rest as [|line rest IH]; intros i;
    cbn [FixEngine.comment_out_loop]; [edits_cases|].
  destruct (_ && _); [edits_cases|apply IH].
Qed.

Lemma edits_remove_from_loop lines rest i import_name file_path fs :
  edits_only file_path fs
    (snd (FixEngine.remove_from_loop lines rest i import_name file_path fs)).
Proof.
  revert i. induction rest as [|line rest IH]; intros i;
    cbn [FixEngine.remove_from_loop]; [edits_cases|].
  destruct (_ && _); [|apply IH].
  destruct (FixEngine.without_import _ _); [edits_cases|apply IH].
Qed.

Lemma edits_fix_import repo_path error fs :
  edits_only (Py.path_join repo_path (err_file error)) fs
    (snd (FixEngine._fix_import repo_path error fs)).
Proof.
  unfold FixEngine._fix_import, FixEngine._comment_out_import,
    FixEngine._remove_from_import, FixEngine._fix_relative_import.
  destruct (fs !! _); [|edits_cases].
  destruct (Re.search FixEngine.re_no_module _); [apply edits_comment_out_loop|].
  destruct (Py.contains "cannot import name" _); [|edits_cases].
  destruct (Re.search FixEngine.re_cannot_import _);
    [apply edits_remove_from_loop|edits_cases].
Qed.

Lemma edits_fix_logic repo_path error fs :
  edits_only (Py.path_join repo_path (err_file error)) fs
    (snd (FixEngine._fix_logic repo_path error fs)).
Proof.
  unfold FixEngine._fix_logic, FixEngine._initialize_variable,
    FixEngine._fix_attribute_error.
  edits_cases.
Qed.

Lemma edits_fix_linting repo_path error fs :
  edits_only (Py.path_join repo_path (err_file error)) fs
    (snd (FixEngine._fix_linting repo_path error fs)).
Proof.
  unfold FixEngine._fix_linting, FixEngine._remove_unused_import,
    FixEngine._remove_unused_variable, FixEngine._remove_trailing_whitespace.
  destruct (fs !! _); [|edits_cases].
  destruct (_ || _); [edits_cases|].
  destruct (Py.contains "unused variable" _); [edits_cases|].
  destruct (Py.contains "trailing whitespace" _); [|edits_cases].
  destruct (_ <=? _); [|edits_cases].
  match goal with |- edits_only _ _ (snd (match ?o with _ => _ end)) =>
    generalize o end.
  intros o. edits_cases.
Qed.

Lemma edits_dispatch_rule set_order repo_path error fs :
  edits_only (Py.path_join repo_path (err_file error)) fs
    (snd (FixEngine.dispatch_rule set_order repo_path error fs)).
Proof.
  unfold FixEngine.dispatch_rule. destruct (err_type error).
  - apply edits_fix_syntax.
  - apply edits_fix_indentation.
  - apply edits_fix_type_error.
  - apply edits_fix_import.
  - apply edits_fix_logic.
  - apply edits_fix_linting.
Qed.

(** Every rule gives up on a file that is not there. *)
Lemma dispatch_rule_missing_file set_order repo_path error fs :
  fs !! Py.path_join repo_path (err_file error) = None ->
  FixEngine.dispatch_rule set_order repo_path error fs = (Ok false, fs).
Proof.
  intros Hnone.
  unfold FixEngine.dispatch_rule, FixEngine._fix_syntax,
    FixEngine._fix_indentation, FixEngine._fix_type_error,
    FixEngine._fix_import, FixEngine._fix_logic, FixEngine._fix_linting.
  destruct (err_type error); now rewrite Hnone.
Qed.

Lemma exists_lookup (p : string) (fs : FS) :
  exists_ p fs = false <-> fs !! p = None.
Proof. unfold exists_. destruct (fs !! p); split; congruence. Qed.

(** X1. Whatever the record, [apply_fix] leaves every file but the one the
    record names with the text it had, creates no file and removes none;
    when the file the record names is not there it answers False and
    changes nothing. *)
Theorem X1_dispatch_changes_only_the_file_of_the_record
    (set_order : list string) (repo_path : string) (error : ErrorInfo)
    (fs : FS) :
  let target := Py.path_join repo_path (err_file error) in
  let answer := FixEngine.apply_fix set_order repo_path error fs in
  (forall p, p <> target -> snd answer !! p = fs !! p) /\
  (forall p, exists_ p (snd answer) = exists_ p fs) /\
  (exists_ target fs = false -> answer = (false, fs)).
Proof.
  intros target answer.
  assert (exists_ target fs = false -> answer = (false, fs)) as Hmissing.
  { intros Hno. apply exists_lookup in Hno.
    unfold answer, FixEngine.apply_fix.
    now rewrite (dispatch_rule_missing_file _ _ _ _ Hno). }
  assert (edits_only target fs (snd answer)) as Hedits.
  { pose proof (edits_dispatch_rule set_order repo_path error fs) as He.
    unfold answer, FixEngine.apply_fix.
    now destruct (FixEngine.dispatch_rule _ _ _ _) as [[b|e] fs']. }
  split; [|split; [|exact Hmissing]].
  - intros p Hp. destruct Hedits as [->|[lines ->]]; [reflexivity|].
    unfold writelines. now rewrite lookup_insert_ne.
  - intros p. destruct Hedits as [->|[lines Heq]]; [reflexivity|].
    destruct (exists_ target fs) eqn:Htarget.
    + rewrite Heq. unfold exists_, writelines in *.
      destruct (decide (p = target)) as [->|Hne].
      * rewrite lookup_insert_eq. now destruct (fs !! target).
      * now rewrite lookup_insert_ne.
    + now rewrite (Hmissing eq_refl).
Qed.

(** ** The syntax rules work on the reported line only *)

Lemma set_item_in_range {A} (l : list A) (i : Z) (x : A) :
  0 <= i < len l -> set_item l i x = Ok (<[Z.to_nat i := x]> l).
Proof.
  intros Hi. destruct (item_in_range l i Hi) as (y & Hy & _).
  rewrite <- (Z2Nat.id i) at 1 by lia. now apply (set_item_lookup _ _ y).
Qed.

Lemma rewrites_line_set (lines : list string) (k : Z) (x : string) :
  1 <= k <= len lines ->
  rewrites_line lines (Z.to_nat (k - 1))
    (let* lines' := set_item lines (k - 1) x in Ok (true, lines')).
Proof.
  intros Hk. rewrite set_item_in_range by lia. simpl. now exists x.
Qed.

Lemma rewrites_line_missing_colon lines k line :
  1 <= k <= len lines ->
  rewrites_line lines (Z.to_nat (k - 1))
    (FixEngine._fix_missing_colon lines k line).
Proof.
  intros Hk. unfold FixEngine._fix_missing_colon.
  destruct (FixEngine.any_in _ _); [|reflexivity].
  destruct (Py.has_char "#" line) eqn:Hhash.
  - destruct (has_char_split _ _ Hhash) as (a & b & -> & Ha).
    rewrite (split_max_once _ _ _ Ha).
    change (item [a; b] 0) with (@Ok string a).
    change (item [a; b] 1) with (@Ok string b). cbn [bind].
    destruct (_ && _); [|reflexivity]. now apply rewrites_line_set.
  - cbn [bind]. destruct (_ && _); [|reflexivity]. now apply rewrites_line_set.
Qed.

Lemma rewrites_line_print lines k line :
  1 <= k <= len lines ->
  rewrites_line lines (Z.to_nat (k - 1))
    (FixEngine._fix_print_statement lines k line).
Proof.
  intros Hk. unfold FixEngine._fix_print_statement.
  destruct (Re.search _ _); [|reflexivity]. now apply rewrites_line_set.
Qed.

Lemma rewrites_line_comparison lines k line :
  1 <= k <= len lines ->
  rewrites_line lines (Z.to_nat (k - 1))
    (FixEngine._fix_comparison_operator lines k line).
Proof.
  intros Hk. unfold FixEngine._fix_comparison_operator.
  destruct (Py.contains _ _); [|reflexivity].
  destruct (negb _); [|reflexivity]. now apply rewrites_line_set.
Qed.

Lemma rewrites_line_unclosed_string lines k line :
  1 <= k <= len lines ->
  rewrites_line lines (Z.to_nat (k - 1))
    (FixEngine._fix_unclosed_string lines k line).
Proof.
  intros Hk. unfold FixEngine._fix_unclosed_string.
  destruct (_ && _); [now apply rewrites_line_set|].
  destruct (_ && _); [now apply rewrites_line_set|reflexivity].
Qed.

Lemma rewrites_line_empty_block lines k line :
  1 <= k <= len lines ->
  rewrites_line lines (Z.to_nat (k - 1))
    (FixEngine._fix_empty_block lines k line).
Proof.
  intros Hk. unfold FixEngine._fix_empty_block.
  destruct (Z.gtb_spec k 1); [|reflexivity].
  destruct (item_in_range lines (k - 2)) as (prev & _ & ->); [lia|].
  cbn [bind]. destruct (Py.endswith _ _); [|reflexivity].
  now apply rewrites_line_set.
Qed.

Lemma concat_lines_insert (l : list string) (n : nat) (x : string) :
  (n < length l)%nat ->
  Py.concat_lines (<[n := x]> l)
  = Py.concat_lines (take n l) ++ x ++ Py.concat_lines (drop (S n) l).
Proof.
  intros Hn. rewrite insert_take_drop by exact Hn.
  now rewrite concat_lines_app, concat_lines_cons.
Qed.

(** X2. [_fix_syntax] never raises.  When it answers False the files are as
    they were.  When it answers True the file of the record was there, the
    reported line number lies within it, and the text written is the lines
    before the reported one as they were read, a new text in place of the
    reported line, and the lines after it as they were read.  (The new text
    is not always one line: the rule for a missing colon ends a line that
    has a comment with two line feeds, and the lines after it then move
    down by one.) *)
Theorem X2_syntax_rule_replaces_the_text_of_the_reported_line
    (repo_path : string) (error : ErrorInfo) (fs : FS) :
  let target := Py.path_join repo_path (err_file error) in
  let n := Z.to_nat (err_line error - 1) in
  match FixEngine._fix_syntax repo_path error fs with
  | (Raise _, _) => False
  | (Ok false, fs') => fs' = fs
  | (Ok true, fs') =>
      exists text old new_text,
        let lines := Py.readlines text in
        fs !! target = Some text /\
        1 <= err_line error <= len lines /\
        lines !! n = Some old /\
        fs' = <[target := Py.concat_lines (take n lines) ++ new_text
                          ++ Py.concat_lines (drop (S n) lines)]> fs
  end.
Proof.
  intros target n. unfold FixEngine._fix_syntax. fold target.
  destruct (fs !! target) as [text|] eqn:Hfile; [|reflexivity].
  set (lines := Py.readlines text). set (k := err_line error).
  destruct (Z.gtb_spec k (len lines)); [reflexivity|].
  destruct (Z.ltb_spec k 1); [reflexivity|]. cbn [orb].
  assert (1 <= k <= len lines) as Hk by lia.
  destruct (item_in_range lines (k - 1)) as (line & Hline & ->); [lia|].
  cbn [bind].
  assert (forall r,
    rewrites_line lines (Z.to_nat (k - 1)) r ->
    rewrites_line lines (Z.to_nat (k - 1))
      (let* first := r in
       let '(fixed, lines1) := first in
       if negb fixed then FixEngine._fix_missing_colon lines1 k line
       else Ok (fixed, lines1))) as Hfallback.
  { intros [[[|] lines1]|e] Hr; cbn [bind negb]; [exact Hr| |exact Hr].
    simpl in Hr. subst lines1. now apply rewrites_line_missing_colon. }
  match goal with
  | |- match (match (let* first := ?r in _) with _ => _ end) with _ => _ end =>
      specialize (Hfallback r); set (first := r) in *
  end.
  assert (rewrites_line lines (Z.to_nat (k - 1)) first) as Hfirst.
  { unfold first, FixEngine._fix_missing_comma, FixEngine._fix_quote_mismatch.
    repeat match goal with
    | |- rewrites_line _ _ (if ?b then _ else _) => destruct b
    end;
      first [ now apply rewrites_line_missing_colon
            | now apply rewrites_line_print
            | now apply rewrites_line_comparison
            | now apply rewrites_line_unclosed_string
            | now apply rewrites_line_empty_block
            | reflexivity ]. }
  specialize (Hfallback Hfirst). clear Hfirst.
  match goal with
  | H : rewrites_line _ _ ?o |- _ => destruct o as [[[|] lines']|e]
  end; simpl in Hfallback.
  - destruct Hfallback as [new_line ->]. exists text, line, new_line.
    cbv zeta. fold lines. split; [reflexivity|]. split; [exact Hk|].
    split; [exact Hline|]. unfold writelines, n. fold k.
    rewrite concat_lines_insert; [reflexivity|].
    now apply lookup_lt_Some in Hline.
  - reflexivity.
  - contradiction.
Qed.

(** ** The indentation rule *)

Lemma replace_go_absent (c : ascii) (new s : string) :
  Py.has_char c s = false -> Py.replace_go (String c "") new 0 s = s.
Proof.
  induction s as [|x s IH]; [reflexivity|].
  rewrite has_char_cons. intros Hs. apply orb_false_elim in Hs as [Hx Hs].
  cbn [Py.replace_go]. now rewrite prefix_char, Hx, IH.
Qed.

Lemma len_insert {A} (l : list A) (n : nat) (x : A) : len (<[n := x]> l) = len l.
Proof. unfold len. now rewrite length_insert. Qed.

(** X3. [_fix_indentation] never raises.  When it answers False the files
    are as they were; when it answers True, what is written is the lines
    that were read with the reported line replaced, and the new line is the
    old one with its tabs turned into four blanks each and its leading
    blanks changed: behind the leading blanks, nothing else differs. *)
Theorem X3_indentation_rule_changes_leading_blanks_only
    (repo_path : string) (error : ErrorInfo) (fs : FS) :
  let target := Py.path_join repo_path (err_file error) in
  let n := Z.to_nat (err_line error - 1) in
  match FixEngine._fix_indentation repo_path error fs with
  | (Raise _, _) => False
  | (Ok false, fs') => fs' = fs
  | (Ok true, fs') =>
      exists text old new,
        fs !! target = Some text /\
        1 <= err_line error <= len (Py.readlines text) /\
        Py.readlines text !! n = Some old /\
        fs' = writelines target (<[n := new]> (Py.readlines text)) fs /\
        Py.lstrip new = Py.lstrip (Py.replace (String Py.TAB "") "    " old)
  end.
Proof.
  intros target n. unfold FixEngine._fix_indentation. fold target.
  destruct (fs !! target) as [text|] eqn:Hfile; [|reflexivity].
  set (lines := Py.readlines text). set (k := err_line error) in *.
  destruct (Z.gtb_spec k (len lines)); [reflexivity|].
  destruct (Z.ltb_spec k 1); [reflexivity|]. cbn [orb].
  assert (1 <= k <= len lines) as Hk by lia.
  destruct (item_in_range lines (k - 1)) as (old & Hold & ->); [lia|].
  fold n in Hold. cbn [bind].
  set (repl := Py.replace (String Py.TAB "") "    " old).
  match goal with
  | |- context [bind (if Py.has_char _ _ then _ else _) ?K] => set (tail := K)
  end.
  assert (forall (fixed : bool) (lines0 : list string) (cur : string),
    len lines0 = len lines -> lines0 !! n = Some cur ->
    (forall x, <[n := x]> lines0 = <[n := x]> lines) ->
    (fixed = true -> lines0 = <[n := cur]> lines) ->
    Py.lstrip cur = Py.lstrip repl ->
    match tail (fixed, lines0) with
    | Ok (true, lines') =>
        exists new,
          lines' = <[n := new]> lines /\ Py.lstrip new = Py.lstrip repl
    | Ok (false, _) => True
    | Raise _ => False
    end) as Htail.
  { intros fixed lines0 cur Hlen Hcur Hsame Hfixed Hstrip. unfold tail.
    destruct (item_in_range lines0 (k - 1)) as (cur' & Hcur' & ->); [lia|].
    fold n in Hcur'. rewrite Hcur in Hcur'. injection Hcur' as <-.
    cbn [bind].
    assert (forall indent,
      match (let* lines' :=
               set_item lines0 (k - 1) (Py.spaces indent ++ Py.lstrip cur) in
             Ok (true, lines')) with
      | Ok (true, lines') =>
          exists new,
            lines' = <[n := new]> lines /\ Py.lstrip new = Py.lstrip repl
      | Ok (false, _) => True
      | Raise _ => False
      end) as Hset.
    { intros indent. rewrite set_item_in_range by lia. cbn [bind]. fold n.
      eexists. split; [apply Hsame|].
      now rewrite lstrip_spaces, lstrip_idem. }
    assert (match Ok (fixed, lines0) with
            | Ok (true, lines') =>
                exists new,
                  lines' = <[n := new]> lines
                  /\ Py.lstrip new = Py.lstrip repl
            | Ok (false, _) => True
            | Raise _ => False
            end) as Hkeep.
    { destruct fixed; [|exact Logic.I]. exists cur. split; [|exact Hstrip].
      now apply Hfixed. }
    destruct (Z.gtb_spec k 1); cbn [andb]; [|exact Hkeep].
    destruct (negb (Py.lstrip cur =? "")%string); [|exact Hkeep].
    destruct (item_in_range lines0 (k - 2)) as (prev & _ & ->); [lia|].
    cbn [bind].
    destruct (Py.endswith _ _).
    - destruct (negb _); [apply Hset|exact Hkeep].
    - destruct (_ <? _)%nat; [apply Hset|exact Hkeep]. }
  destruct (Py.has_char Py.TAB old) eqn:Htab.
  - rewrite set_item_in_range by lia. fold n. cbn [bind].
    specialize (Htail true (<[n := repl]> lines) repl).
    destruct (tail (true, <[n := repl]> lines)) as [[[|] lines']|e].
    + destruct Htail as (new & -> & Hnew);
        [apply len_insert
        |apply list_lookup_insert_eq; now apply lookup_lt_Some in Hold
        |intros x; apply list_insert_insert_eq
        |reflexivity|reflexivity|].
      exists text, old, new. repeat split; try assumption; lia.
    + reflexivity.
    + apply Htail;
        [apply len_insert
        |apply list_lookup_insert_eq; now apply lookup_lt_Some in Hold
        |intros x; apply list_insert_insert_eq
        |reflexivity|reflexivity].
  - cbn [bind].
    assert (repl = old) as Hrepl by (now apply replace_go_absent).
    specialize (Htail false lines old).
    destruct (tail (false, lines)) as [[[|] lines']|e].
    + destruct Htail as (new & -> & Hnew);
        [reflexivity|exact Hold|reflexivity|discriminate|now rewrite Hrepl|].
      exists text, old, new. repeat split; try assumption; lia.
    + reflexivity.
    + apply Htail;
        [reflexivity|exact Hold|reflexivity|discriminate|now rewrite Hrepl].
Qed.

(** ** The rule for a missing colon *)

Lemma has_char_rstrip_by (p : ascii -> bool) (c : ascii) (s : string) :
  Py.has_char c s = false -> Py.has_char c (Py.rstrip_by p s) = false.
Proof.
  intros Hs. destruct (rstrip_by_prefix p s) as (t & Heq & _).
  rewrite Heq, has_char_app in Hs. now apply orb_false_elim in Hs as [Hs _].
Qed.

(** A line whose code already ends in a colon, before blanks only or before
    blanks and a comment, is left alone. *)
Lemma missing_colon_settled (lines : list string) (k : Z) (code blanks : string)
    (comment : option string) :
  Py.has_char "#" code = false ->
  Py.has_char "#" blanks = false ->
  Py.rstrip blanks = "" ->
  FixEngine._fix_missing_colon lines k
    (code ++ ":" ++ blanks
     ++ match comment with Some c => String "#" c | None => "" end)
  = Ok (false, lines).
Proof.
  intros Hcode Hblanks Hstrip. unfold FixEngine._fix_missing_colon.
  destruct (FixEngine.any_in _ _); [|reflexivity].
  assert (Py.has_char "#" (code ++ ":" ++ blanks) = false) as Hfree.
  { rewrite !has_char_app, Hcode, Hblanks. reflexivity. }
  assert (Py.rstrip (code ++ ":" ++ blanks) = code ++ ":") as Hpart.
  { unfold Py.rstrip in *.
    replace (code ++ ":" ++ blanks) with ((code ++ ":") ++ blanks)
      by (now rewrite str_app_assoc).
    rewrite rstrip_by_drops by exact Hstrip.
    now apply rstrip_by_keeps. }
  destruct comment as [c|].
  - replace (code ++ ":" ++ blanks ++ String "#" c)
      with ((code ++ ":" ++ blanks) ++ String "#" c)
      by (now rewrite !str_app_assoc).
    rewrite has_char_app, has_char_cons, Ascii.eqb_refl, orb_true_r.
    rewrite (split_max_once _ _ _ Hfree).
    change (item [code ++ ":" ++ blanks; c] 0)
      with (@Ok string (code ++ ":" ++ blanks)).
    change (item [code ++ ":" ++ blanks; c] 1) with (@Ok string c).
    cbn [bind]. now rewrite Hpart, endswith_app.
  - rewrite str_app_nil_r, Hfree. cbn [bind].
    now rewrite Hpart, endswith_app.
Qed.

(** What [_fix_missing_colon] writes when it answers True: the code of the
    line without its trailing blanks, a colon, the comment of the line if it
    has one, and a line feed. *)
Lemma missing_colon_writes (lines lines' : list string) (k : Z) (line : string) :
  1 <= k <= len lines ->
  FixEngine._fix_missing_colon lines k line = Ok (true, lines') ->
  exists code comment,
    Py.has_char "#" code = false /\
    lines' = <[Z.to_nat (k - 1) :=
                 code ++ ":"
                 ++ match comment with Some c => " #" ++ c | None => "" end
                 ++ nl]> lines /\
    ((comment = None /\ code = Py.rstrip line)
     \/ exists a b,
          comment = Some b /\ line = a ++ String "#" b /\ code = Py.rstrip a).
Proof.
  intros Hk. unfold FixEngine._fix_missing_colon.
  destruct (FixEngine.any_in _ _); [|discriminate].
  destruct (Py.has_char "#" line) eqn:Hhash.
  - destruct (has_char_split _ _ Hhash) as (a & b & -> & Ha).
    rewrite (split_max_once _ _ _ Ha).
    change (item [a; b] 0) with (@Ok string a).
    change (item [a; b] 1) with (@Ok string b). cbn [bind].
    destruct (_ && _); [|discriminate].
    rewrite set_item_in_range by lia. cbn [bind]. intros [= <-].
    exists (Py.rstrip a), (Some b).
    split; [now apply has_char_rstrip_by|]. split; [reflexivity|].
    right. now exists a, b.
  - cbn [bind]. destruct (_ && _); [|discriminate].
    rewrite set_item_in_range by lia. cbn [bind]. intros [= <-].
    exists (Py.rstrip line), None.
    split; [now apply has_char_rstrip_by|]. split; [reflexivity|now left].
Qed.

(** *** Reading back a file in which one line was replaced *)

Lemma full_lines_shaped (l : list string) : Forall full_line l -> shaped l.
Proof.
  induction 1 as [|x l (body & Hbody & ->) _ IH]; [constructor|].
  now apply shaped_cons.
Qed.

Lemma shaped_take_full (l : list string) (n : nat) :
  shaped l -> (n < length l)%nat -> Forall full_line (take n l).
Proof.
  intros Hl. revert n. induction Hl as [|s Hs Hne|b rest Hb Hrest IH];
    intros n Hn; simpl in Hn.
  - lia.
  - destruct n as [|n]; [constructor|lia].
  - destruct n as [|n]; [constructor|]. cbn [take].
    constructor; [now exists b|]. apply IH. lia.
Qed.

Lemma shaped_drop (l : list string) (n : nat) : shaped l -> shaped (drop n l).
Proof.
  intros Hl. revert n. induction Hl as [|s Hs Hne|b rest Hb Hrest IH];
    intros n.
  - rewrite drop_nil. constructor.
  - destruct n as [|n]; [now constructor|]. cbn [drop]. rewrite drop_nil.
    constructor.
  - destruct n as [|n]; [now constructor|]. cbn [drop]. apply IH.
Qed.

Lemma shaped_lookup_line (l : list string) (n : nat) (old : string) :
  shaped l -> l !! n = Some old ->
  exists body ending,
    old = body ++ ending /\ plain body = true /\ (ending = nl \/ ending = "").
Proof.
  intros Hl. revert n. induction Hl as [|s Hs Hne|b rest Hb Hrest IH];
    intros n Hold.
  - discriminate.
  - destruct n as [|n]; [|discriminate]. injection Hold as <-.
    exists s, "". rewrite str_app_nil_r. repeat split; [exact Hs|now right].
  - destruct n as [|n]; [|now apply (IH n)]. injection Hold as <-.
    exists b, nl. repeat split; [exact Hb|now left].
Qed.

Lemma shaped_replace (l : list string) (i : nat) (body : string) :
  shaped l -> (i < length l)%nat -> plain body = true ->
  shaped (<[i := body ++ nl]> l).
Proof.
  intros Hl. revert i. induction Hl as [|s Hs Hne|b rest Hb Hrest IH];
    intros i Hi Hbody; simpl in Hi.
  - lia.
  - destruct i as [|i]; [|lia]. cbn [list_insert].
    apply shaped_cons; [exact Hbody|constructor].
  - destruct i as [|i]; cbn [list_insert].
    + now apply shaped_cons.
    + apply shaped_cons; [exact Hb|]. apply IH; [lia|exact Hbody].
Qed.

Lemma shaped_line_rstrip (l : list string) (i : nat) (old : string) :
  shaped l -> l !! i = Some old -> plain (Py.rstrip old) = true.
Proof.
  intros Hl. revert i. induction Hl as [|s Hs Hne|b rest Hb Hrest IH];
    intros i Hold.
  - discriminate.
  - destruct i as [|i]; [|discriminate]. injection Hold as <-.
    now apply plain_rstrip_by.
  - destruct i as [|i]; [|now apply (IH i)]. injection Hold as <-.
    unfold Py.rstrip. rewrite rstrip_by_drops by reflexivity.
    now apply plain_rstrip_by.
Qed.

Lemma readlines_go_full_lines (pre : list string) (t : string) :
  Forall full_line pre ->
  Py.readlines_go "" (Py.concat_lines pre ++ t)
  = (pre ++ Py.readlines_go "" t)%list.
Proof.
  induction 1 as [|x pre (body & Hbody & ->) _ IH]; [reflexivity|].
  rewrite concat_lines_cons, !str_app_assoc.
  rewrite (readlines_go_body _ _ _ Hbody), IH. reflexivity.
Qed.

(** The lines read back when line [n] of a file was replaced by a text that
    begins with a full line: up to and with that full line. *)
Lemma readlines_replaced (lines : list string) (n : nat) (old first rest : string) :
  shaped lines -> lines !! n = Some old ->
  plain first = true -> no_cr rest = true ->
  exists tail,
    Py.readlines (Py.concat_lines (<[n := first ++ nl ++ rest]> lines))
    = (take n lines ++ (first ++ nl)%string :: tail)%list.
Proof.
  intros Hl Hold Hfirst Hrest.
  assert (n < length lines)%nat as Hn by (now apply lookup_lt_Some in Hold).
  rewrite insert_take_drop by exact Hn.
  rewrite concat_lines_app, concat_lines_cons.
  unfold Py.readlines. rewrite universal_newlines_id.
  - rewrite readlines_go_full_lines by (now apply shaped_take_full).
    rewrite !str_app_assoc, (readlines_go_body _ _ _ Hfirst).
    eexists. reflexivity.
  - rewrite !no_cr_app, Hrest, (plain_no_cr _ Hfirst).
    rewrite (shaped_no_cr _ (full_lines_shaped _ (shaped_take_full _ _ Hl Hn))).
    now rewrite (shaped_no_cr _ (shaped_drop _ (S n) Hl)).
Qed.

Lemma app_eq_full_line (a : string) (c : ascii) (b body : string) :
  Ascii.eqb c Py.LF = false ->
  a ++ String c b = body ++ nl ->
  exists b', b = b' ++ nl /\ body = a ++ String c b'.
Proof.
  intros Hc. revert body. induction a as [|x a IH]; intros body Heq.
  - destruct body as [|d body]; cbn [String.append] in Heq.
    + injection Heq as -> _. discriminate.
    + injection Heq as <- ->. now exists body.
  - destruct body as [|d body].
    + change (String x (a ++ String c b) = String Py.LF "") in Heq.
      injection Heq as _ Heq. now destruct a.
    + change (String x (a ++ String c b) = String d (body ++ nl)) in Heq.
      injection Heq as <- Heq. destruct (IH _ Heq) as (b' & -> & ->).
      now exists b'.
Qed.

(** *** The rule, dispatched twice *)

(** The syntax rule under a message that asks for a colon: the rule for a
    missing colon decides, as the first rule tried and as the fallback. *)
Lemma fix_syntax_expected_colon (repo_path : string) (error : ErrorInfo)
    (body : string) (store : FS) :
  let target := Py.path_join repo_path (err_file error) in
  let lines := Py.readlines body in
  let k := err_line error in
  store !! target = Some body ->
  Py.contains "expected ':'" (err_message error)
  || Py.contains ("expected " ++ dq ++ ":" ++ dq) (err_message error) = true ->
  FixEngine._fix_syntax repo_path error store
  = if (k >? len lines) || (k <? 1) then (Ok false, store)
    else match lines !! Z.to_nat (k - 1) with
         | Some line =>
             match FixEngine._fix_missing_colon lines k line with
             | Ok (true, lines') => (Ok true, writelines target lines' store)
             | _ => (Ok false, store)
             end
         | None => (Ok false, store)
         end.
Proof.
  intros target lines k Hfile Hmessage. unfold FixEngine._fix_syntax.
  fold target. rewrite Hfile. fold lines k.
  destruct (Z.gtb_spec k (len lines)); [reflexivity|].
  destruct (Z.ltb_spec k 1); [reflexivity|]. cbn [orb].
  destruct (item_in_range lines (k - 1)) as (line & -> & ->); [lia|].
  cbn [bind]. rewrite Hmessage.
  pose proof (rewrites_line_missing_colon lines k line) as Hrule.
  destruct (FixEngine._fix_missing_colon lines k line)
    as [[[|] lines']|e] eqn:Hcolon; cbn [bind negb].
  - reflexivity.
  - simpl in Hrule. rewrite Hrule by lia. now rewrite Hcolon.
  - exfalso. apply Hrule. lia.
Qed.

(** The dispatcher on such a record: the answer of the rule, a failure
    answered False. *)
Lemma apply_fix_expected_colon (set_order : list string)
    (repo_path file message : string) (line : Z) (body : string) (store : FS) :
  let target := Py.path_join repo_path file in
  let error :=
    {| err_type := SYNTAX; err_file := file; err_line := line;
       err_message := message |} in
  let lines := Py.readlines body in
  store !! target = Some body ->
  Py.contains "expected ':'" message
  || Py.contains ("expected " ++ dq ++ ":" ++ dq) message = true ->
  FixEngine.apply_fix set_order repo_path error store
  = if (line >? len lines) || (line <? 1) then (false, store)
    else match lines !! Z.to_nat (line - 1) with
         | Some old =>
             match FixEngine._fix_missing_colon lines line old with
             | Ok (true, lines') => (true, writelines target lines' store)
             | _ => (false, store)
             end
         | None => (false, store)
         end.
Proof.
  intros target error lines Hbody Hmessage.
  unfold FixEngine.apply_fix, FixEngine.dispatch_rule. cbn [err_type error].
  rewrite (fix_syntax_expected_colon repo_path error body store Hbody Hmessage).
  cbn [err_line error err_file]. fold target lines.
  destruct ((line >? len lines) || (line <? 1)); [reflexivity|].
  destruct (lines !! Z.to_nat (line - 1)); [|reflexivity].
  now destruct (FixEngine._fix_missing_colon _ _ _) as [[[|] ?]|?].
Qed.

(** X4. A missing colon is added once.  For a SYNTAX record whose message
    asks for a colon, a second dispatch of the record (on the files as the
    first dispatch left them) answers False and changes nothing: the line
    the first dispatch wrote ends its code with a colon. *)
Theorem X4_missing_colon_is_added_once
    (set_order : list string) (repo_path file message text : string)
    (line : Z) (fs : FS) :
  let target := Py.path_join repo_path file in
  let error :=
    {| err_type := SYNTAX; err_file := file; err_line := line;
       err_message := message |} in
  let first := FixEngine.apply_fix set_order repo_path error fs in
  fs !! target = Some text ->
  Py.contains "expected ':'" message
  || Py.contains ("expected " ++ dq ++ ":" ++ dq) message = true ->
  FixEngine.apply_fix set_order repo_path error (snd first) = (false, snd first).
Proof.
  intros target error first Hfile Hmessage.
  pose proof (fun store body (Hbody : store !! target = Some body) =>
                apply_fix_expected_colon set_order repo_path file message line
                  body store Hbody Hmessage) as Hrule.
  cbv zeta in Hrule. fold target error in Hrule.
  assert (first = FixEngine.apply_fix set_order repo_path error fs) as Hfirst
    by reflexivity.
  rewrite (Hrule fs text Hfile) in Hfirst.
  set (lines := Py.readlines text) in Hfirst.
  assert (first = (false, fs) ->
          FixEngine.apply_fix set_order repo_path error (snd first)
          = (false, snd first)) as Hsame.
  { intros Heq. rewrite Heq. cbn [snd]. now rewrite <- Heq. }
  destruct (Z.gtb_spec line (len lines)) in Hfirst; [now apply Hsame|].
  destruct (Z.ltb_spec line 1) in Hfirst; [now apply Hsame|].
  cbn [orb] in Hfirst.
  set (n := Z.to_nat (line - 1)) in Hfirst.
  destruct (lines !! n) as [old|] eqn:Hold; [|now apply Hsame].
  destruct (FixEngine._fix_missing_colon lines line old)
    as [[[|] lines']|e] eqn:Hcolon; [|now apply Hsame|now apply Hsame].
  destruct (missing_colon_writes lines lines' line old) as
    (code & comment & Hcode & Hlines' & Hparts); [lia|exact Hcolon|].
  fold n in Hlines'.
  pose proof (readlines_shaped text) as Hshaped. fold lines in Hshaped.
  destruct (shaped_lookup_line lines n old Hshaped Hold)
    as (body & ending & Hbody & Hplain & Hending).
  (* the first full line of what was written, and what follows it *)
  assert (exists head rest blanks remark,
    code ++ ":" ++ match comment with Some c => " #" ++ c | None => "" end ++ nl
    = head ++ nl ++ rest /\
    plain head = true /\ no_cr rest = true /\
    head ++ nl
    = code ++ ":" ++ blanks
      ++ match remark with Some c => String "#" c | None => "" end /\
    Py.has_char "#" blanks = false /\ Py.rstrip blanks = "")
    as (head & rest & blanks & remark & Hnew & Hhead & Hrest & Hshape & Hb1 & Hb2).
  { destruct Hparts as [(-> & ->)|(a & b & -> & -> & ->)].
    - exists (Py.rstrip old ++ ":"), "", nl, None.
      repeat split; try reflexivity.
      + now rewrite !str_app_assoc.
      + rewrite plain_app.
        now rewrite (shaped_line_rstrip lines n old Hshaped Hold).
      + now rewrite !str_app_assoc.
    - assert (plain (Py.rstrip a) = true /\
              exists b',
                plain b' = true /\ (b = b' ++ nl \/ b = b'))
        as (Hpa & b' & Hpb & Hb).
      { destruct Hending as [-> | ->].
        - destruct (app_eq_full_line a "#" b body eq_refl Hbody)
            as (b' & -> & ->).
          rewrite plain_app in Hplain. apply andb_prop in Hplain as [Ha Hb'].
          split; [now apply plain_rstrip_by|].
          exists b'. split; [|now left].
          cbn [plain] in Hb'. now apply andb_prop in Hb' as [_ Hb'].
        - rewrite str_app_nil_r in Hbody. subst body.
          rewrite plain_app in Hplain. apply andb_prop in Hplain as [Ha Hb'].
          split; [now apply plain_rstrip_by|].
          exists b. split; [|now right].
          cbn [plain] in Hb'. now apply andb_prop in Hb' as [_ Hb']. }
      destruct Hb as [-> | ->].
      + exists (Py.rstrip a ++ ":" ++ " #" ++ b'), nl, " ", (Some (b' ++ nl)).
        repeat split; try reflexivity;
          try (now rewrite !str_app_assoc);
          now rewrite !plain_app, Hpa, Hpb.
      + exists (Py.rstrip a ++ ":" ++ " #" ++ b'), "", " ", (Some (b' ++ nl)).
        repeat split; try reflexivity;
          try (now rewrite !str_app_assoc);
          now rewrite !plain_app, Hpa, Hpb. }
  rewrite Hnew in Hlines'.
  destruct (readlines_replaced lines n old head rest Hshaped Hold Hhead Hrest)
    as (tail & Hread).
  rewrite <- Hlines' in Hread.
  rewrite Hfirst. cbn [snd].
  rewrite (Hrule _ (Py.concat_lines lines'))
    by (unfold writelines; apply lookup_insert_eq).
  rewrite Hread.
  assert (n < length lines)%nat as Hn by (now apply lookup_lt_Some in Hold).
  assert ((line >? len (take n lines ++ (head ++ nl)%string :: tail))
          || (line <? 1) = false) as ->.
  { unfold len. rewrite length_app, length_take. cbn [length].
    destruct (Z.gtb_spec line
                (Z.of_nat (Init.Nat.min n (length lines) + S (length tail))));
      [lia|].
    destruct (Z.ltb_spec line 1); [lia|reflexivity]. }
  fold n.
  rewrite lookup_app_r by (rewrite length_take; lia).
  rewrite length_take.
  replace (n - Init.Nat.min n (length lines))%nat with O by lia.
  cbn [lookup list_lookup].
  rewrite Hshape.
  now rewrite (missing_colon_settled _ line code blanks remark Hcode Hb1 Hb2).
Qed.

Lemma X4_def_line_witness :
  let error :=
    {| err_type := SYNTAX; err_file := "area.py"; err_line := 1;
       err_message := "SyntaxError: expected ':'" |} in
  let fs : FS :=
    {[ "/workspace/demo/area.py" :=
         "def area(r)  # of a circle" ++ nl ++ "    return 3 * r * r" ++ nl ]} in
  let first := FixEngine.apply_fix [] Lab.repo_root error fs in
  first
  = (true,
     {[ "/workspace/demo/area.py" :=
          "def area(r): # of a circle" ++ nl ++ nl
          ++ "    return 3 * r * r" ++ nl ]}) /\
  FixEngine.apply_fix [] Lab.repo_root error (snd first) = (false, snd first).
Proof.
  split; [vm_compute; reflexivity|].
  apply (X4_missing_colon_is_added_once [] Lab.repo_root "area.py"
           "SyntaxError: expected ':'"
           ("def area(r)  # of a circle" ++ nl ++ "    return 3 * r * r" ++ nl) 1
           {[ "/workspace/demo/area.py" :=
                "def area(r)  # of a circle" ++ nl ++ "    return 3 * r * r"
                ++ nl ]}).
  - vm_compute. reflexivity.
  - vm_compute. reflexivity.
Defined.

(** ** The rule that imports a name from [typing] *)

Lemma search_from_reaches (r : Re.regex) (q : Re.pos) (c : ascii) (s : string)
    (pre : string) (prev : option ascii) (i : nat) :
  Re.match_here r (Some c) s = Some q ->
  FixEngine.is_some (Re.search_from r i prev ((pre ++ String c "") ++ s)) = true.
Proof.
  intros Hq. revert prev i. induction pre as [|x pre IH]; intros prev i.
  - change (("" ++ String c "") ++ s) with (String c s).
    cbn [Re.search_from]. destruct (Re.match_here r prev (String c s));
      [reflexivity|].
    destruct s; cbn [Re.search_from]; now rewrite Hq.
  - change ((String x pre ++ String c "") ++ s)
      with (String x ((pre ++ String c "") ++ s)).
    cbn [Re.search_from].
    destruct (Re.match_here r prev _); [reflexivity|apply IH].
Qed.

Lemma whole_word_found (name : string) (q : Re.pos) (pre : string) :
  Re.match_here (re_whole_word name) (Some " "%char) (name ++ nl) = Some q ->
  FixEngine.is_some
    (Re.search (re_whole_word name) (pre ++ " " ++ name ++ nl)) = true.
Proof.
  intros Hq. unfold Re.search.
  replace (pre ++ " " ++ name ++ nl) with ((pre ++ " ") ++ name ++ nl)
    by (now rewrite str_app_assoc).
  now apply (search_from_reaches _ q).
Qed.

(** Each of the names of [typing] stands as a word of its own after a
    blank and before the end of the line. *)
Lemma typing_name_is_a_word (name : string) :
  FixEngine.in_list name FixEngine.typing_names = true ->
  plain name = true /\
  exists q,
    Re.match_here (re_whole_word name) (Some " "%char) (name ++ nl) = Some q.
Proof.
  unfold FixEngine.in_list, FixEngine.typing_names. cbn [existsb].
  repeat match goal with
  | |- (?a =? ?b)%string || _ = true -> _ =>
      destruct (String.eqb_spec a b) as [->|_];
        [intros _; split; [reflexivity|eexists; vm_compute; reflexivity]
        |cbn [orb]]
  end.
  discriminate.
Qed.

Lemma scan_imports_already (type_name : string) (pre : list string)
    (x : string) (post : list string) (i last_import : Z) :
  Forall not_typing_import pre ->
  Py.startswith "from typing import" x = true ->
  FixEngine.is_some (Re.search (re_whole_word type_name) x) = true ->
  FixEngine.scan_imports type_name (pre ++ x :: post) i last_import
  = FixEngine.AlreadyImported.
Proof.
  intros Hpre Hx Hfound. revert i last_import.
  induction Hpre as [|h pre Hh _ IH]; intros i last_import.
  - cbn [app FixEngine.scan_imports]. rewrite Hx.
    unfold re_whole_word in Hfound. now rewrite Hfound.
  - cbn [app FixEngine.scan_imports]. rewrite Hh.
    destruct (_ || _); apply IH.
Qed.

Lemma scan_imports_at (type_name : string) (lines : list string)
    (i last_import j : Z) :
  FixEngine.scan_imports type_name lines i last_import
  = FixEngine.TypingImportAt j ->
  exists pre x post,
    lines = (pre ++ x :: post)%list /\ j = i + len pre /\
    Forall not_typing_import pre /\
    Py.startswith "from typing import" x = true.
Proof.
  revert i last_import. induction lines as [|h lines IH]; intros i last_import;
    cbn [FixEngine.scan_imports]; [discriminate|].
  destruct (Py.startswith "from typing import" h) eqn:Hh.
  - destruct (FixEngine.is_some _); [discriminate|]. intros [= <-].
    exists [], h, lines. repeat split; [unfold len; simpl; lia|constructor|exact Hh].
  - intros Hscan.
    assert (exists last', FixEngine.scan_imports type_name lines (i + 1) last'
                          = FixEngine.TypingImportAt j) as [last' Hrec]
      by (destruct (_ || _); eauto).
    destruct (IH _ _ Hrec) as (pre & x & post & -> & -> & Hpre & Hx).
    exists (h :: pre), x, post. repeat split.
    + unfold len. simpl length. lia.
    + now constructor.
    + exact Hx.
Qed.

Lemma scan_imports_none (type_name : string) (lines : list string)
    (i last_import found : Z) :
  FixEngine.scan_imports type_name lines i last_import
  = FixEngine.NoTypingImport found ->
  Forall not_typing_import lines /\
  (found = last_import \/ i <= found < i + len lines).
Proof.
  revert i last_import. induction lines as [|h lines IH]; intros i last_import;
    cbn [FixEngine.scan_imports].
  - intros [= <-]. split; [constructor|now left].
  - destruct (Py.startswith "from typing import" h) eqn:Hh;
      [destruct (FixEngine.is_some _); discriminate|].
    unfold len. simpl length.
    destruct (_ || _); intros Hscan; destruct (IH _ _ Hscan) as [Hall Hpos];
      (split; [now constructor|]); unfold len in Hpos; lia.
Qed.

Lemma startswith_rstrip_by (p : ascii -> bool) (start s : string) :
  Py.rstrip_by p start = start ->
  Py.startswith start s = true ->
  Py.startswith start (Py.rstrip_by p s) = true.
Proof.
  intros Hstart Hs. unfold Py.startswith in *.
  destruct (prefix_split _ _ Hs) as [rest ->].
  rewrite rstrip_by_app, Hstart.
  destruct (Py.rstrip_by p rest); [|apply prefix_app].
  rewrite <- (str_app_nil_r start) at 2. apply prefix_app.
Qed.

(** The rule, run again on the lines it wrote, finds the name imported. *)
Lemma add_typing_import_once (lines : list string) (type_name path : string)
    (fs fs' : FS) :
  FixEngine.in_list type_name FixEngine.typing_names = true ->
  Forall full_line lines ->
  FixEngine._add_typing_import lines type_name path fs = (Ok true, fs') ->
  exists lines',
    Forall full_line lines' /\
    fs' = writelines path lines' fs /\
    forall store,
      FixEngine._add_typing_import lines' type_name path store
      = (Ok false, store).
Proof.
  intros Hname Hfull. unfold FixEngine._add_typing_import at 1.
  destruct (typing_name_is_a_word _ Hname) as (Hplain & q & Hq).
  destruct (FixEngine.scan_imports type_name lines 0 (-1))
    as [|j|found] eqn:Hscan; [discriminate| |].
  - destruct (scan_imports_at _ _ _ _ _ Hscan)
      as (pre & old & post & -> & -> & Hpre & Hold).
    assert (0 <= 0 + len pre < len (pre ++ old :: post)%list) as Hj
      by (unfold len; rewrite length_app; simpl; lia).
    destruct (item_in_range _ _ Hj) as (old' & Hold' & ->).
    replace (Z.to_nat (0 + len pre)) with (length pre) in Hold'
      by (unfold len; lia).
    rewrite list_lookup_middle in Hold' by reflexivity.
    injection Hold' as <-. cbn [bind].
    rewrite set_item_in_range by exact Hj.
    replace (Z.to_nat (0 + len pre)) with (length pre + 0)%nat
      by (unfold len; lia).
    rewrite insert_app_r. cbn [list_insert].
    set (stem := Py.rstrip_by (Ascii.eqb ",") (Py.rstrip old)).
    intros [= <-].
    assert (plain stem = true) as Hstem.
    { apply Forall_app in Hfull as [_ Hfull].
      apply Forall_cons in Hfull as [(body & Hbody & ->) _].
      unfold stem, Py.rstrip. rewrite rstrip_by_drops by reflexivity.
      now do 2 apply plain_rstrip_by. }
    exists (pre ++ (stem ++ ", " ++ type_name ++ nl)%string :: post)%list.
    split; [|split; [reflexivity|]].
    + apply Forall_app in Hfull as [Hfpre Hfull].
      apply Forall_cons in Hfull as [_ Hfpost].
      apply Forall_app. split; [exact Hfpre|]. constructor; [|exact Hfpost].
      exists (stem ++ ", " ++ type_name). split.
      * now rewrite !plain_app, Hstem, Hplain.
      * now rewrite !str_app_assoc.
    + intros store. unfold FixEngine._add_typing_import.
      rewrite (scan_imports_already type_name pre _ post 0 (-1) Hpre);
        [reflexivity| |].
      * replace (stem ++ ", " ++ type_name ++ nl)
          with (stem ++ (", " ++ type_name ++ nl)) by reflexivity.
        unfold Py.startswith in *.
        assert (String.prefix "from typing import" stem = true) as Hs
          by (unfold stem; do 2 (apply startswith_rstrip_by; [reflexivity|]);
              exact Hold).
        destruct (prefix_split _ _ Hs) as [rest ->].
        rewrite str_app_assoc. apply prefix_app.
      * replace (stem ++ ", " ++ type_name ++ nl)
          with ((stem ++ ",") ++ " " ++ type_name ++ nl)
          by (now rewrite str_app_assoc).
        now apply (whole_word_found _ q).
  - destruct (scan_imports_none _ _ _ _ _ Hscan) as [Hnone Hfound].
    set (pos := if found >=? 0 then found + 1 else 0).
    assert (0 <= pos <= len lines) as Hpos
      by (unfold pos, len in *; destruct (Z.geb_spec found 0); lia).
    rewrite insert_at_in_range by exact Hpos. intros [= <-].
    set (new := "from typing import " ++ type_name ++ nl).
    exists (take (Z.to_nat pos) lines ++ new :: drop (Z.to_nat pos) lines)%list.
    split; [|split; [reflexivity|]].
    + apply Forall_app. split; [now apply Forall_take|].
      constructor; [|now apply Forall_drop].
      exists ("from typing import " ++ type_name). split.
      * now rewrite plain_app, Hplain.
      * unfold new. now rewrite str_app_assoc.
    + intros store. unfold FixEngine._add_typing_import.
      rewrite (scan_imports_already type_name); [reflexivity| | |].
      * now apply Forall_take.
      * apply (prefix_app "from typing import" (" " ++ type_name ++ nl)).
      * now apply (whole_word_found _ q "from typing import").
Qed.

Lemma fix_type_error_typing_name (set_order : list string)
    (repo_path : string) (error : ErrorInfo) (text : string) (m : Re.found)
    (fs : FS) :
  fs !! Py.path_join repo_path (err_file error) = Some text ->
  Py.contains "is not defined" (err_message error) = true ->
  Re.search FixEngine.re_name_word (err_message error) = Some m ->
  FixEngine.in_list (Re.group 1 m) FixEngine.typing_names = true ->
  FixEngine._fix_type_error set_order repo_path error fs
  = FixEngine._add_typing_import (Py.readlines text) (Re.group 1 m)
      (Py.path_join repo_path (err_file error)) fs.
Proof.
  intros Hfile Hdef Hm Hname.
  unfold FixEngine._fix_type_error, FixEngine._extract_undefined_name.
  now rewrite Hfile, Hdef, Hm, Hname.
Qed.

(** X5. A name of [typing] is imported once.  For a TYPE_ERROR record whose
    message says that one of the names of [typing] is not defined, on a file
    whose every line ends in its line feed, a second dispatch of the record
    (on the files as the first dispatch left them) answers False and changes
    nothing. *)
Theorem X5_typing_import_is_added_once
    (set_order : list string) (repo_path file message text : string)
    (line : Z) (m : Re.found) (fs : FS) :
  let target := Py.path_join repo_path file in
  let error :=
    {| err_type := TYPE_ERROR; err_file := file; err_line := line;
       err_message := message |} in
  let first := FixEngine.apply_fix set_order repo_path error fs in
  fs !! target = Some text ->
  Forall full_line (Py.readlines text) ->
  Py.contains "is not defined" message = true ->
  Re.search FixEngine.re_name_word message = Some m ->
  FixEngine.in_list (Re.group 1 m) FixEngine.typing_names = true ->
  FixEngine.apply_fix set_order repo_path error (snd first) = (false, snd first).
Proof.
  intros target error first Hfile Hfull Hdef Hm Hname.
  assert (forall store body,
    store !! target = Some body ->
    FixEngine.apply_fix set_order repo_path error store
    = match FixEngine._add_typing_import (Py.readlines body) (Re.group 1 m)
              target store with
      | (Ok b, store') => (b, store')
      | (Raise _, store') => (false, store')
      end) as Hrule.
  { intros store body Hbody. unfold FixEngine.apply_fix, FixEngine.dispatch_rule.
    cbn [err_type error].
    now rewrite (fix_type_error_typing_name set_order repo_path error body m
                   store Hbody Hdef Hm Hname). }
  pose proof (quiet_add_typing_import (Py.readlines text) (Re.group 1 m)
                target fs) as Hquiet.
  pose proof (add_typing_import_once (Py.readlines text) (Re.group 1 m) target
                fs) as Honce.
  assert (first
          = match FixEngine._add_typing_import (Py.readlines text)
                    (Re.group 1 m) target fs with
            | (Ok b, store') => (b, store')
            | (Raise _, store') => (false, store')
            end) as Hfirst by (now apply Hrule).
  destruct (FixEngine._add_typing_import (Py.readlines text) (Re.group 1 m)
              target fs) as [[[|]|e] fs'] eqn:Hadd.
  - destruct (Honce fs' Hname Hfull eq_refl) as (lines' & Hfull' & -> & Hagain).
    rewrite Hfirst. cbn [snd].
    rewrite (Hrule _ (Py.concat_lines lines'))
      by (unfold writelines; apply lookup_insert_eq).
    rewrite (readlines_concat _ (full_lines_shaped _ Hfull')).
    now rewrite Hagain.
  - destruct Hquiet as [Hq|Hq]; [discriminate|]. cbn [snd] in Hq. subst fs'.
    rewrite Hfirst. cbn [snd]. now rewrite <- Hfirst.
  - destruct Hquiet as [Hq|Hq]; [discriminate|]. cbn [snd] in Hq. subst fs'.
    rewrite Hfirst. cbn [snd]. now rewrite <- Hfirst.
Qed.

Lemma X5_inventory_witness :
  let error :=
    {| err_type := TYPE_ERROR; err_file := "inventory.py"; err_line := 2;
       err_message := Lab2.list_not_defined |} in
  let first := FixEngine.apply_fix [] Lab.repo_root error Lab2.inventory_fs in
  first
  = (true,
     {[ "/workspace/demo/inventory.py" :=
          "import os" ++ nl ++ "from typing import List" ++ nl
          ++ "items: List[str] = []" ++ nl ]}) /\
  FixEngine.apply_fix [] Lab.repo_root error (snd first) = (false, snd first).
Proof.
  split; [vm_compute; reflexivity|].
  apply (X5_typing_import_is_added_once [] Lab.repo_root "inventory.py"
           Lab2.list_not_defined Lab2.inventory_py 2 Lab2.list_found
           Lab2.inventory_fs).
  - vm_compute. reflexivity.
  - repeat constructor.
    + exists "import os". split; reflexivity.
    + exists "items: List[str] = []". split; reflexivity.
  - vm_compute. reflexivity.
  - vm_compute. reflexivity.
  - vm_compute. reflexivity.
Defined.

(** ** The rule that comments an import out *)

Lemma commented_line_is_skipped (module_name line : string) :
  imports_module module_name ("# " ++ line) = false.
Proof.
  unfold imports_module.
  assert (Py.startswith "#" (Py.strip ("# " ++ line)) = true) as ->;
    [|apply andb_false_r].
  unfold Py.strip, Py.rstrip.
  change ("# " ++ line) with ("#" ++ " " ++ line).
  rewrite rstrip_by_app.
  destruct (Py.rstrip_by Py.isspace (" " ++ line)); reflexivity.
Qed.

Lemma comment_out_loop_first (module_name path : string) (fs : FS)
    (done rest : list string) :
  Forall (fun line => imports_module module_name line = false) done ->
  match FixEngine.comment_out_loop (done ++ rest) rest (len done)
          module_name path fs with
  | (Raise _, _) => False
  | (Ok false, fs') =>
      fs' = fs /\
      Forall (fun line => imports_module module_name line = false)
        (done ++ rest)
  | (Ok true, fs') =>
      exists pre line post,
        (done ++ rest)%list = (pre ++ line :: post)%list /\
        Forall (fun line => imports_module module_name line = false) pre /\
        imports_module module_name line = true /\
        fs' = writelines path (pre ++ ("# " ++ line)%string :: post) fs
  end.
Proof.
  revert done. induction rest as [|line rest IH]; intros done Hdone;
    cbn [FixEngine.comment_out_loop].
  - split; [reflexivity|]. now rewrite app_nil_r.
  - fold (imports_module module_name line).
    destruct (imports_module module_name line) eqn:Hline.
    + rewrite set_item_in_range
        by (unfold len; rewrite length_app; simpl; lia).
      replace (Z.to_nat (len done)) with (length done + 0)%nat
        by (unfold len; lia).
      rewrite insert_app_r. cbn [list_insert].
      exists done, line, rest. now repeat split.
    + specialize (IH (done ++ [line])%list).
      replace (len (done ++ [line])) with (len done + 1) in IH
        by (unfold len; rewrite length_app; simpl; lia).
      rewrite <- app_assoc in IH. apply IH.
      apply Forall_app. split; [exact Hdone|]. now constructor.
Qed.

(** X6. [_comment_out_import] never raises.  It answers True exactly when
    some line mentions the import of the module and is not a comment yet;
    it then puts [# ] in front of the first such line and of no other, and
    a line so marked is not looked at again.  When there is no such line it
    answers False and the files are as they were. *)
Theorem X6_comment_out_marks_the_first_import_of_the_module
    (lines : list string) (module_name path : string) (fs : FS) :
  match FixEngine._comment_out_import lines module_name path fs with
  | (Raise _, _) => False
  | (Ok false, fs') =>
      fs' = fs /\
      Forall (fun line => imports_module module_name line = false) lines
  | (Ok true, fs') =>
      exists pre line post,
        lines = (pre ++ line :: post)%list /\
        Forall (fun line => imports_module module_name line = false) pre /\
        imports_module module_name line = true /\
        fs' = writelines path (pre ++ ("# " ++ line)%string :: post) fs /\
        imports_module module_name ("# " ++ line) = false
  end.
Proof.
  unfold FixEngine._comment_out_import.
  pose proof (comment_out_loop_first module_name path fs [] lines
                (List.Forall_nil _)) as Hloop.
  cbn [app] in Hloop. change (len []) with 0 in Hloop.
  destruct (FixEngine.comment_out_loop lines lines 0 module_name path fs)
    as [[[|]|e] fs']; [|exact Hloop|exact Hloop].
  destruct Hloop as (pre & line & post & Hl & Hpre & Hline & Hfs).
  exists pre, line, post. repeat split; try assumption.
  apply commented_line_is_skipped.
Qed.

(** ** Line numbers below one, and the rule for trailing blanks *)

Lemma item_position {A} (l : list A) (i : Z) :
  - len l <= i < len l ->
  exists x,
    l !! position l i = Some x /\ item l i = Ok x /\
    forall y, set_item l i y = Ok (<[position l i := y]> l).
Proof.
  intros Hi. unfold position, item, set_item, Py.index, Py.set_index.
  fold (len l). destruct (Z.ltb_spec i 0).
  - destruct (Z.leb_spec 0 i); [lia|]. cbn [andb].
    destruct (Z.leb_spec (- len l) i); [|lia]. cbn [andb].
    destruct (lookup_lt_is_Some_2 l (Z.to_nat (len l + i))) as [x Hx];
      [unfold len in *; lia|].
    exists x. rewrite Hx. now repeat split.
  - destruct (Z.leb_spec 0 i); [|lia].
    destruct (Z.ltb_spec i (len l)); [|lia]. cbn [andb].
    destruct (lookup_lt_is_Some_2 l (Z.to_nat i)) as [x Hx];
      [unfold len in *; lia|].
    exists x. rewrite Hx. now repeat split.
Qed.

Lemma item_below {A} (l : list A) (i : Z) :
  i < - len l -> item l i = Raise IndexError.
Proof.
  intros Hi. unfold item, Py.index. fold (len l).
  assert (0 <= len l) by (unfold len; lia).
  destruct (Z.leb_spec 0 i); [lia|]. cbn [andb].
  destruct (Z.leb_spec (- len l) i); [lia|]. reflexivity.
Qed.

Lemma remove_trailing_whitespace_cases (lines : list string) (k : Z)
    (path : string) (fs : FS) :
  (k > len lines ->
   FixEngine._remove_trailing_whitespace lines k path fs = (Ok false, fs)) /\
  (k < 1 - len lines ->
   FixEngine._remove_trailing_whitespace lines k path fs
   = (Raise IndexError, fs)) /\
  (1 - len lines <= k <= len lines ->
   exists old,
     lines !! position lines (k - 1) = Some old /\
     FixEngine._remove_trailing_whitespace lines k path fs
     = (Ok true,
        writelines path
          (<[position lines (k - 1) := Py.rstrip old ++ nl]> lines) fs)).
Proof.
  unfold FixEngine._remove_trailing_whitespace.
  assert (0 <= len lines) by (unfold len; lia).
  split; [|split]; intros Hk.
  - destruct (Z.leb_spec k (len lines)); [lia|reflexivity].
  - destruct (Z.leb_spec k (len lines)); [|lia].
    now rewrite item_below by lia.
  - destruct (Z.leb_spec k (len lines)); [|lia].
    destruct (item_position lines (k - 1)) as (old & Hold & -> & Hset); [lia|].
    exists old. split; [exact Hold|]. cbn [bind]. now rewrite Hset.
Qed.

Lemma fix_linting_trailing_whitespace (repo_path : string) (error : ErrorInfo)
    (text : string) (fs : FS) :
  let message := Py.lower (err_message error) in
  fs !! Py.path_join repo_path (err_file error) = Some text ->
  Py.contains "trailing whitespace" message = true ->
  Py.contains "unused import" message = false ->
  Py.contains "imported but unused" message = false ->
  Py.contains "unused variable" message = false ->
  FixEngine._fix_linting repo_path error fs
  = FixEngine._remove_trailing_whitespace (Py.readlines text) (err_line error)
      (Py.path_join repo_path (err_file error)) fs.
Proof.
  intros message Hfile Hw H1 H2 H3. unfold FixEngine._fix_linting.
  fold message. now rewrite Hfile, H1, H2, H3, Hw.
Qed.

(** X7. The rules for linting records do not ask that the line number be
    at least one.  For a LINTING record about trailing whitespace on a file
    of [n] lines: a line number above [n] makes dispatch answer False; a
    number from [1] to [n] has that line stripped of its trailing blanks
    and ended with a line feed; a number from [1 - n] to [0] is counted
    from the end of the file ([0] is the last line), and that line is
    rewritten in the same way; below [1 - n] dispatch answers False.  When
    it answers False the files are as they were. *)
Theorem X7_line_numbers_below_one_count_from_the_end
    (set_order : list string) (repo_path : string) (error : ErrorInfo)
    (text : string) (fs : FS) :
  let target := Py.path_join repo_path (err_file error) in
  let message := Py.lower (err_message error) in
  let lines := Py.readlines text in
  let k := err_line error in
  err_type error = LINTING ->
  fs !! target = Some text ->
  Py.contains "trailing whitespace" message = true ->
  Py.contains "unused import" message = false ->
  Py.contains "imported but unused" message = false ->
  Py.contains "unused variable" message = false ->
  (k > len lines \/ k < 1 - len lines ->
   FixEngine.apply_fix set_order repo_path error fs = (false, fs)) /\
  (1 - len lines <= k <= len lines ->
   exists old,
     lines !! position lines (k - 1) = Some old /\
     FixEngine.apply_fix set_order repo_path error fs
     = (true,
        writelines target
          (<[position lines (k - 1) := Py.rstrip old ++ nl]> lines) fs)) /\
  (1 <= k <= len lines -> position lines (k - 1) = Z.to_nat (k - 1)) /\
  (1 - len lines <= k <= 0 ->
   position lines (k - 1) = Z.to_nat (len lines + k - 1)).
Proof.
  intros target message lines k Hkind Hfile Hw H1 H2 H3.
  unfold FixEngine.apply_fix, FixEngine.dispatch_rule. rewrite Hkind.
  rewrite (fix_linting_trailing_whitespace repo_path error text fs Hfile Hw H1
             H2 H3).
  fold target lines k.
  destruct (remove_trailing_whitespace_cases lines k target fs)
    as (Habove & Hbelow & Hin).
  split; [|split; [|split]].
  - intros [Hk|Hk]; [now rewrite Habove|now rewrite Hbelow].
  - intros Hk. destruct (Hin Hk) as (old & Hold & ->). now exists old.
  - intros Hk. unfold position. destruct (Z.ltb_spec (k - 1) 0); [lia|].
    reflexivity.
  - intros Hk. unfold position. destruct (Z.ltb_spec (k - 1) 0); [|lia].
    f_equal. lia.
Qed.

Lemma X7_last_line_witness :
  FixEngine.apply_fix [] Lab.repo_root (Lab2.trailing_whitespace_at 0)
    Lab2.tidy_fs
  = (true,
     {[ "/workspace/demo/tidy.py" :=
          "total = 1   " ++ nl ++ "count = 2" ++ nl ++ "ratio = 3" ++ nl ]}) /\
  FixEngine.apply_fix [] Lab.repo_root (Lab2.trailing_whitespace_at (-3))
    Lab2.tidy_fs
  = (false, Lab2.tidy_fs).
Proof.
  destruct (X7_line_numbers_below_one_count_from_the_end [] Lab.repo_root
              (Lab2.trailing_whitespace_at 0) Lab2.tidy_py Lab2.tidy_fs)
    as (_ & Hin & _); try (vm_compute; reflexivity).
  destruct (X7_line_numbers_below_one_count_from_the_end [] Lab.repo_root
              (Lab2.trailing_whitespace_at (-3)) Lab2.tidy_py Lab2.tidy_fs)
    as (Hout & _); try (vm_compute; reflexivity).
  split.
  - destruct Hin as (old & Hold & ->); [vm_compute; split; discriminate|].
    vm_compute in Hold. injection Hold as <-. vm_compute. reflexivity.
  - apply Hout. right. vm_compute. reflexivity.
Defined.

Lemma position_insert {A} (l : list A) (n : nat) (x : A) (i : Z) :
  position (<[n := x]> l) i = position l i.
Proof. unfold position. now rewrite len_insert. Qed.

(** X8. Stripping the trailing blanks of a line twice is stripping them
    once: for a LINTING record about trailing whitespace, dispatched again on
    the files as the first dispatch left them, the answer and the files are
    those of the first dispatch.  (The answer is True both times when the
    line number is in range, although the second call changes nothing.) *)
Theorem X8_trailing_blanks_are_stripped_once
    (set_order : list string) (repo_path : string) (error : ErrorInfo)
    (text : string) (fs : FS) :
  let target := Py.path_join repo_path (err_file error) in
  let message := Py.lower (err_message error) in
  let first := FixEngine.apply_fix set_order repo_path error fs in
  err_type error = LINTING ->
  fs !! target = Some text ->
  Py.contains "trailing whitespace" message = true ->
  Py.contains "unused import" message = false ->
  Py.contains "imported but unused" message = false ->
  Py.contains "unused variable" message = false ->
  FixEngine.apply_fix set_order repo_path error (snd first) = first.
Proof.
  intros target message first Hkind Hfile Hw H1 H2 H3.
  assert (forall store body,
    store !! target = Some body ->
    FixEngine.apply_fix set_order repo_path error store
    = match FixEngine._remove_trailing_whitespace (Py.readlines body)
              (err_line error) target store with
      | (Ok b, store') => (b, store')
      | (Raise _, store') => (false, store')
      end) as Hrule.
  { intros store body Hbody.
    unfold FixEngine.apply_fix, FixEngine.dispatch_rule. rewrite Hkind.
    now rewrite (fix_linting_trailing_whitespace repo_path error body store
                   Hbody Hw H1 H2 H3). }
  set (lines := Py.readlines text). set (k := err_line error) in *.
  destruct (remove_trailing_whitespace_cases lines k target fs)
    as (Habove & Hbelow & Hin).
  assert (first
          = match FixEngine._remove_trailing_whitespace lines k target fs with
            | (Ok b, store') => (b, store')
            | (Raise _, store') => (false, store')
            end) as Hfirst by (now apply Hrule).
  assert (0 <= len lines) by (unfold len; lia).
  destruct (Z_lt_le_dec (len lines) k) as [Hk|Hk];
    [rewrite Habove in Hfirst by lia; rewrite Hfirst; cbn [snd];
     now rewrite <- Hfirst|].
  destruct (Z_lt_le_dec k (1 - len lines)) as [Hk'|Hk'];
    [rewrite Hbelow in Hfirst by lia; rewrite Hfirst; cbn [snd];
     now rewrite <- Hfirst|].
  destruct Hin as (old & Hold & Heq); [lia|]. rewrite Heq in Hfirst.
  set (n := position lines (k - 1)) in *.
  set (lines1 := <[n := Py.rstrip old ++ nl]> lines) in *.
  assert (n < length lines)%nat as Hn by (now apply lookup_lt_Some in Hold).
  assert (shaped lines1) as Hshaped.
  { apply shaped_replace; [apply readlines_shaped|exact Hn|].
    apply (shaped_line_rstrip lines n); [apply readlines_shaped|exact Hold]. }
  rewrite Hfirst. cbn [snd].
  rewrite (Hrule _ (Py.concat_lines lines1))
    by (unfold writelines; apply lookup_insert_eq).
  rewrite (readlines_concat _ Hshaped).
  destruct (remove_trailing_whitespace_cases lines1 k target
              (writelines target lines1 fs)) as (_ & _ & Hin1).
  destruct Hin1 as (old1 & Hold1 & ->);
    [unfold lines1; rewrite len_insert; lia|].
  unfold lines1 at 1 in Hold1. rewrite position_insert in Hold1. fold n in Hold1.
  unfold lines1 in Hold1. rewrite list_lookup_insert_eq in Hold1 by exact Hn.
  injection Hold1 as <-.
  unfold lines1 at 1. rewrite position_insert. fold n.
  assert (Py.rstrip (Py.rstrip old ++ nl) = Py.rstrip old) as ->.
  { unfold Py.rstrip. rewrite rstrip_by_drops by reflexivity.
    apply rstrip_by_idem. }
  f_equal. unfold writelines, lines1.
  now rewrite list_insert_insert_eq, insert_insert_eq.
Qed.

Lemma X8_tidy_witness :
  let first :=
    FixEngine.apply_fix [] Lab.repo_root (Lab2.trailing_whitespace_at 1)
      Lab2.tidy_fs in
  fst first = true /\
  FixEngine.apply_fix [] Lab.repo_root (Lab2.trailing_whitespace_at 1)
    (snd first) = first.
Proof.
  split; [vm_compute; reflexivity|].
  apply (X8_trailing_blanks_are_stripped_once [] Lab.repo_root
           (Lab2.trailing_whitespace_at 1) Lab2.tidy_py Lab2.tidy_fs);
    vm_compute; reflexivity.
Defined.

(** ** The version-control adapter *)

(** *** The name of the branch *)

Lemma upper_char_blank (c : ascii) :
  Ascii.eqb " " (Py.upper_char c) = Ascii.eqb " " c.
Proof. destruct c as [[] [] [] [] [] [] [] []]; reflexivity. Qed.

Lemma upper_char_idem (c : ascii) :
  Py.upper_char (Py.upper_char c) = Py.upper_char c.
Proof. destruct c as [[] [] [] [] [] [] [] []]; reflexivity. Qed.

Lemma upper_lower_char (c : ascii) :
  Py.upper_char (Py.lower_char c) = Py.upper_char c.
Proof. destruct c as [[] [] [] [] [] [] [] []]; reflexivity. Qed.

Lemma isspace_lower_char (c : ascii) :
  Py.isspace (Py.lower_char c) = Py.isspace c.
Proof. destruct c as [[] [] [] [] [] [] [] []]; reflexivity. Qed.

Lemma lower_char_blank (c : ascii) :
  Ascii.eqb " " (Py.lower_char c) = Ascii.eqb " " c.
Proof. destruct c as [[] [] [] [] [] [] [] []]; reflexivity. Qed.

Lemma upper_app (a b : string) : Py.upper (a ++ b) = Py.upper a ++ Py.upper b.
Proof. induction a as [|c a IH]; simpl; [reflexivity|now rewrite IH]. Qed.

Lemma lower_app (a b : string) : Py.lower (a ++ b) = Py.lower a ++ Py.lower b.
Proof. induction a as [|c a IH]; simpl; [reflexivity|now rewrite IH]. Qed.

Lemma upper_idem (s : string) : Py.upper (Py.upper s) = Py.upper s.
Proof.
  induction s as [|c s IH]; simpl; [reflexivity|].
  now rewrite upper_char_idem, IH.
Qed.

Lemma upper_lower (s : string) : Py.upper (Py.lower s) = Py.upper s.
Proof.
  induction s as [|c s IH]; simpl; [reflexivity|].
  now rewrite upper_lower_char, IH.
Qed.

Lemma has_blank_upper (s : string) :
  Py.has_char " " (Py.upper s) = Py.has_char " " s.
Proof.
  induction s as [|c s IH]; [reflexivity|].
  cbn [Py.upper]. now rewrite !has_char_cons, upper_char_blank, IH.
Qed.

Lemma replace_blank_go (s : string) :
  Py.has_char " " (Py.replace_go " " "_" 0 s) = false.
Proof.
  induction s as [|c s IH]; [reflexivity|].
  cbn [Py.replace_go]. rewrite prefix_char.
  destruct (Ascii.eqb " " c) eqn:Ec.
  - cbn [String.length Nat.sub]. change ("_" ++ ?t) with (String "_" t).
    now rewrite has_char_cons, IH.
  - now rewrite has_char_cons, Ec, IH.
Qed.

Lemma lstrip_lower (s : string) : Py.lstrip (Py.lower s) = Py.lower (Py.lstrip s).
Proof.
  induction s as [|c s IH]; [reflexivity|].
  cbn [Py.lower Py.lstrip]. rewrite isspace_lower_char.
  destruct (Py.isspace c); [exact IH|reflexivity].
Qed.

Lemma rstrip_lower (s : string) : Py.rstrip (Py.lower s) = Py.lower (Py.rstrip s).
Proof.
  unfold Py.rstrip. induction s as [|c s IH]; [reflexivity|].
  cbn [Py.lower Py.rstrip_by]. rewrite IH, isspace_lower_char.
  destruct (Py.rstrip_by Py.isspace s); [|reflexivity].
  now destruct (Py.isspace c).
Qed.

Lemma replace_blank_lower (s : string) :
  Py.replace " " "_" (Py.lower s) = Py.lower (Py.replace " " "_" s).
Proof.
  unfold Py.replace. induction s as [|c s IH]; [reflexivity|].
  cbn [Py.lower Py.replace_go]. rewrite !prefix_char, lower_char_blank.
  destruct (Ascii.eqb " " c); cbn [String.length Nat.sub].
  - rewrite IH. reflexivity.
  - cbn [Py.lower]. now rewrite IH.
Qed.

Lemma strip_idem (s : string) : Py.strip (Py.strip s) = Py.strip s.
Proof.
  unfold Py.strip, Py.rstrip.
  assert (forall t, Py.rstrip_by Py.isspace (Py.lstrip t)
                    = Py.lstrip (Py.rstrip_by Py.isspace t)) as Hcomm.
  { induction t as [|c t IH]; [reflexivity|].
    cbn [Py.lstrip Py.rstrip_by].
    destruct (Py.isspace c) eqn:Ec.
    - rewrite IH. destruct (Py.rstrip_by Py.isspace t) as [|x r] eqn:Er.
      + reflexivity.
      + cbn [Py.lstrip]. now rewrite Ec.
    - cbn [Py.rstrip_by].
      destruct (Py.rstrip_by Py.isspace t); cbn [Py.lstrip]; now rewrite Ec. }
  now rewrite Hcomm, rstrip_by_idem, lstrip_idem.
Qed.

Lemma lower_char_in_range (c : ascii) :
  Py.capital_in_range c = true -> Py.capital_in_range (Py.lower_char c) = true.
Proof.
  destruct c as [[] [] [] [] [] [] [] []]; intros Hc;
    first [reflexivity | exact Hc].
Qed.

Lemma lower_in_range (s : string) :
  Py.capitals_in_range s = true -> Py.capitals_in_range (Py.lower s) = true.
Proof.
  induction s as [|c s IH]; [reflexivity|].
  cbn [Py.capitals_in_range Py.lower]. intros Hs.
  apply andb_prop in Hs as [Hc Hs].
  now rewrite (lower_char_in_range c Hc), (IH Hs).
Qed.

(** X9. For a team and a leader written without the three letters whose
    capital is not a code point below 256, the branch name
    [_format_branch_name] makes holds no blank, ends in [_AI_FIX] and is in
    upper case; blanks around the team and the leader do not matter, nor
    does the case of their letters (the names in lower case are again
    written without the three letters). *)
Theorem X9_branch_name_has_no_blank_and_ignores_case
    (team leader : string) :
  Py.capitals_in_range team = true ->
  Py.capitals_in_range leader = true ->
  let name := GitHandler._format_branch_name team leader in
  Py.has_char " " name = false /\
  Py.endswith "_AI_FIX" name = true /\
  Py.upper name = name /\
  GitHandler._format_branch_name (Py.strip team) (Py.strip leader) = name /\
  Py.capitals_in_range (Py.lower team) = true /\
  Py.capitals_in_range (Py.lower leader) = true /\
  GitHandler._format_branch_name (Py.lower team) (Py.lower leader) = name.
Proof.
  intros Hteam Hleader name. unfold name, GitHandler._format_branch_name.
  split; [|split; [|split; [|split; [|split; [|split]]]]].
  - rewrite !has_char_app, !has_blank_upper. unfold Py.replace.
    now rewrite !replace_blank_go.
  - replace (Py.upper (Py.replace " " "_" (Py.strip team)) ++ "_"
             ++ Py.upper (Py.replace " " "_" (Py.strip leader)) ++ "_AI_FIX")
      with ((Py.upper (Py.replace " " "_" (Py.strip team)) ++ "_"
             ++ Py.upper (Py.replace " " "_" (Py.strip leader))) ++ "_AI_FIX")
      by (now rewrite !str_app_assoc).
    apply endswith_app.
  - now rewrite !upper_app, !upper_idem.
  - now rewrite !strip_idem.
  - now apply lower_in_range.
  - now apply lower_in_range.
  - unfold Py.strip. rewrite !rstrip_lower, !lstrip_lower, !replace_blank_lower.
    now rewrite !upper_lower.
Qed.

Lemma X9_acme_labs_witness :
  Py.capitals_in_range " Acme Labs" = true /\
  Py.capitals_in_range "ana" = true /\
  GitHandler._format_branch_name " Acme Labs" "ana" = "ACME_LABS_ANA_AI_FIX" /\
  Py.has_char " " (GitHandler._format_branch_name " Acme Labs" "ana") = false /\
  GitHandler._format_branch_name (Py.lower " Acme Labs") (Py.lower "ana")
  = GitHandler._format_branch_name " Acme Labs" "ana".
Proof.
  destruct (X9_branch_name_has_no_blank_and_ignores_case " Acme Labs" "ana"
              eq_refl eq_refl) as (Hblank & _ & _ & _ & _ & _ & Hlower).
  split; [reflexivity|]. split; [reflexivity|]. split; [reflexivity|].
  split; [exact Hblank|exact Hlower].
Defined.

(** *** Pushing and branching *)

(** X10. [push_branch] reports a push that git refuses as the answer False
    and never as a [GitCommandError]: it answers True when [origin.push]
    returns, False when it raises [GitCommandError]; any other exception of
    the push is passed on, and without a repository it raises [ValueError]
    before the remote is touched.  The handler is left as it was. *)
Theorem X10_refused_push_is_answered_false
    (X : Type) (P : Primitives X) (branch_name : string)
    (g : GitHandler.t) (w : World X) :
  let refspec := branch_name ++ ":" ++ branch_name in
  match GitHandler.push_branch branch_name (g, w) with
  | (Ok true, s') =>
      fst s' = g /\ GitHandler.repo g <> None /\
      origin_push refspec w = (Ok tt, snd s')
  | (Ok false, s') =>
      fst s' = g /\ GitHandler.repo g <> None /\
      origin_push refspec w = (Raise GitCommandError, snd s')
  | (Raise e, s') =>
      fst s' = g /\ e <> GitCommandError /\
      ((GitHandler.repo g = None /\ s' = (g, w) /\
        e = ValueError "Repository not initialized")
       \/ (GitHandler.repo g <> None /\ origin_push refspec w = (Raise e, snd s')))
  end.
Proof.
  intros refspec.
  unfold GitHandler.push_branch, GitHandler.require_repo, bindS, self_read,
    try_except, in_world, only_git_error, ret, raise.
  cbv beta iota delta [fst snd]. fold refspec.
  destruct (GitHandler.repo g) as [r|] eqn:Hrepo.
  - destruct (origin_push refspec w) as [[[]|e] w'] eqn:Hpush.
    + now repeat split.
    + destruct e; cbn [fst snd];
        try (repeat split; [discriminate|right; now split]).
      now repeat split.
  - repeat split; [discriminate|left; now repeat split].
Qed.

(** How [create_branch] ends. *)
Lemma create_branch_cases
    (X : Type) (P : Primitives X) (team leader : string)
    (g : GitHandler.t) (w : World X) :
  let name := GitHandler._format_branch_name team leader in
  match GitHandler.create_branch team leader (g, w) with
  | (Ok branch, s') =>
      fst s' = g /\ GitHandler.repo g <> None /\
      Py.startswith name branch = true /\
      (branch = name \/
       exists w1 w2,
         git_checkout_b name w = (Raise GitCommandError, w1) /\
         git_checkout name w1 = (Raise GitCommandError, w2) /\
         branch = name ++ "_" ++ Py.str_of_int (time_time w2))
  | (Raise e, s') =>
      fst s' = g /\
      (GitHandler.repo g = None ->
       s' = (g, w) /\ e = ValueError "Repository not initialized")
  end.
Proof.
  intros name.
  unfold GitHandler.create_branch, GitHandler.require_repo, bindS, self_read,
    world_read, try_except, in_world, only_git_error, ret, raise.
  cbv beta iota delta [fst snd]. fold name.
  destruct (GitHandler.repo g) as [r|] eqn:Hrepo; [|now repeat split].
  assert (Py.startswith name name = true) as Hself.
  { unfold Py.startswith. rewrite <- (str_app_nil_r name) at 2.
    apply prefix_app. }
  destruct (git_checkout_b name w) as [[[]|e] w1] eqn:Hfirst.
  - repeat split; [discriminate|exact Hself|now left].
  - destruct e; cbn [fst snd]; try (split; [reflexivity|discriminate]).
    destruct (git_checkout name w1) as [[[]|e] w2] eqn:Hsecond.
    + repeat split; [discriminate|exact Hself|now left].
    + destruct e; cbn [fst snd]; try (split; [reflexivity|discriminate]).
      destruct (git_checkout_b _ w2) as [[[]|e] w3];
        cbn [fst snd]; [|split; [reflexivity|discriminate]].
      repeat split; [discriminate|apply prefix_app|].
      right. now exists w1, w2.
Qed.

(** X11. The name [create_branch] returns is the formatted name, or, when
    git refuses both to create a branch of that name and to check it out,
    the formatted name followed by an underscore and the time in seconds;
    so it always begins with the formatted name.  Without a repository
    [create_branch] raises [ValueError] and touches nothing.  The handler is
    left as it was. *)
Theorem X11_created_branch_begins_with_the_formatted_name
    (X : Type) (P : Primitives X) (team leader : string)
    (g : GitHandler.t) (w : World X) :
  let name := GitHandler._format_branch_name team leader in
  match GitHandler.create_branch team leader (g, w) with
  | (Ok branch, s') =>
      fst s' = g /\ GitHandler.repo g <> None /\
      Py.startswith name branch = true /\
      (branch = name \/
       exists w1 w2,
         git_checkout_b name w = (Raise GitCommandError, w1) /\
         git_checkout name w1 = (Raise GitCommandError, w2) /\
         branch = name ++ "_" ++ Py.str_of_int (time_time w2))
  | (Raise e, s') =>
      fst s' = g /\
      (GitHandler.repo g = None ->
       s' = (g, w) /\ e = ValueError "Repository not initialized")
  end.
Proof. exact (create_branch_cases X P team leader g w). Qed.

(** *** Cloning *)

Lemma replace_go_keeps_free (c : ascii) (old new : string) (skip : nat)
    (s : string) :
  Py.has_char c new = false -> Py.has_char c s = false ->
  Py.has_char c (Py.replace_go old new skip s) = false.
Proof.
  intros Hnew. revert skip. induction s as [|x s IH]; intros skip Hs;
    [reflexivity|].
  rewrite has_char_cons in Hs. apply orb_false_elim in Hs as [Hx Hs].
  cbn [Py.replace_go]. destruct skip as [|skip]; [|now apply IH].
  destruct (String.prefix old (String x s)).
  - rewrite has_char_app, Hnew. now apply IH.
  - rewrite has_char_cons, Hx. now apply IH.
Qed.

Lemma repo_name_of (repo_url : string) :
  exists last_part,
    item (Py.split "/" (Py.rstrip_by (Ascii.eqb "/") repo_url)) (-1)
    = Ok last_part /\
    Py.replace ".git" "" last_part = checkout_name repo_url /\
    Py.has_char "/" (checkout_name repo_url) = false.
Proof.
  unfold checkout_name, Py.split.
  destruct (split_go_pieces "/" "" (Py.rstrip_by (Ascii.eqb "/") repo_url)
              eq_refl) as [Hne Hfree].
  destruct (item_last _ Hne) as (x & Hitem & Hlast).
  exists x. rewrite Hlast. split; [exact Hitem|]. split; [reflexivity|].
  apply replace_go_keeps_free; [reflexivity|].
  rewrite Forall_forall in Hfree. apply Hfree.
  rewrite last_lookup in Hlast. now apply (list_elem_of_lookup_2 _ _ _ Hlast).
Qed.

Section Clone.
Context {X : Type} `{Primitives X}.

Lemma remove_attempts_ends (path : string) (g : GitHandler.t) (w : World X) :
  exists w',
    GitHandler.remove_attempts 3 0 3 path (g, w) = (Ok tt, (g, w'))
    \/ GitHandler.remove_attempts 3 0 3 path (g, w)
       = (Raise (Exception_ "Failed to clean workspace directory"), (g, w')).
Proof.
  unfold GitHandler.remove_attempts, try_except, in_world, any_exception, raise.
  change (0 <? 3 - 1) with true. change (0 + 1 <? 3 - 1) with true.
  change (0 + 1 + 1 <? 3 - 1) with false.
  cbv beta iota delta [fst snd].
  destruct (rmtree path w) as [[[]|e1] w1] eqn:Hfirst; [eexists; now left|].
  rewrite (rmtree_raises _ _ _ _ Hfirst).
  destruct (rmtree path w1) as [[[]|e2] w2] eqn:Hsecond; [eexists; now left|].
  rewrite (rmtree_raises _ _ _ _ Hsecond).
  destruct (rmtree path w2) as [[[]|e3] w3] eqn:Hthird; [eexists; now left|].
  rewrite (rmtree_raises _ _ _ _ Hthird). eexists; now right.
Qed.

(** How [clone_repo] ends, with the path of the checkout made explicit. *)
Lemma clone_repo_cases (repo_url : string) (g : GitHandler.t) (w : World X) :
  let path := Py.path_join (GitHandler.workspace_dir g) (checkout_name repo_url) in
  match GitHandler.clone_repo repo_url (g, w) with
  | (Ok returned, (g', w')) =>
      returned = path /\
      g' = {| GitHandler.workspace_dir := GitHandler.workspace_dir g;
              GitHandler.repo := Some path;
              GitHandler.repo_path := Some path |} /\
      exists w0, clone_from repo_url path w0 = (Ok tt, w')
  | (Raise e, (g', w')) =>
      g' = g /\
      ((path_exists path w = true /\
        (e = Exception_ "Failed to clean workspace directory"
         \/ e = Exception_ "Directory still exists after deletion"))
       \/ exists w0, clone_from repo_url path w0 = (Raise e, w'))
  end.
Proof.
  intros path.
  destruct (repo_name_of repo_url) as (x & Hitem & Hname & _).
  unfold GitHandler.clone_repo.
  unfold bindS at 1. unfold of_res at 1. rewrite Hitem, Hname.
  unfold bindS, self_read, world_read, in_world, self_update, ret, raise.
  cbv beta iota delta [fst snd]. fold path.
  destruct (path_exists path w) eqn:Hstale.
  - destruct (remove_attempts_ends path g w) as [w1 [Hrm|Hrm]];
      rewrite Hrm; cbv beta iota delta [fst snd].
    + destruct (path_exists path w1).
      * split; [reflexivity|]. left. split; [reflexivity|now right].
      * destruct (clone_from repo_url path w1) as [[[]|e] w2] eqn:Hc.
        -- repeat split. now exists w1.
        -- split; [reflexivity|]. right. now exists w1.
    + split; [reflexivity|]. left. split; [reflexivity|now left].
  - destruct (clone_from repo_url path w) as [[[]|e] w2] eqn:Hc.
    + repeat split. now exists w.
    + split; [reflexivity|]. right. now exists w.
Qed.

(** X12. When [clone_repo] returns, the path it returns is the workspace
    directory joined with the name it derived from the address (the last
    component, any [.git] removed), the handler holds that path as its
    repository and as its repository path, and [get_repo_name] gives the
    derived name back. *)
Theorem X12_get_repo_name_gives_back_the_name_of_the_clone
    (repo_url : string) (g g' : GitHandler.t) (w w' : World X)
    (path : string) :
  GitHandler.clone_repo repo_url (g, w) = (Ok path, (g', w')) ->
  path = Py.path_join (GitHandler.workspace_dir g) (checkout_name repo_url) /\
  GitHandler.workspace_dir g' = GitHandler.workspace_dir g /\
  GitHandler.repo g' = Some path /\
  GitHandler.repo_path g' = Some path /\
  Py.basename path = checkout_name repo_url /\
  (path <> "" -> GitHandler.get_repo_name g' = checkout_name repo_url).
Proof.
  intros Hclone.
  pose proof (clone_repo_cases repo_url g w) as Hcases. cbv zeta in Hcases.
  rewrite Hclone in Hcases. destruct Hcases as (-> & -> & _).
  destruct (repo_name_of repo_url) as (_ & _ & _ & Hfree).
  assert (Py.basename
            (Py.path_join (GitHandler.workspace_dir g) (checkout_name repo_url))
          = checkout_name repo_url) as Hbase
    by (now apply basename_path_join).
  repeat split; try assumption.
  intros Hp. unfold GitHandler.get_repo_name. cbn [GitHandler.repo_path].
  destruct (String.eqb_spec
              (Py.path_join (GitHandler.workspace_dir g) (checkout_name repo_url))
              ""); [contradiction|exact Hbase].
Qed.

(** X13. A clone that fails leaves the handler as it was, so without a
    repository if it had none.  What [clone_repo] raises is then one of
    its own two exceptions about a stale checkout it could not remove
    (after three attempts, or because the directory is still there), or
    what [Repo.clone_from] raised, unchanged; the address alone never makes
    it fail (the last component of an address always exists). *)
Theorem X13_failed_clone_leaves_the_handler_as_it_was
    (repo_url : string) (g : GitHandler.t) (w : World X) :
  let path := Py.path_join (GitHandler.workspace_dir g) (checkout_name repo_url) in
  match GitHandler.clone_repo repo_url (g, w) with
  | (Ok _, _) => True
  | (Raise e, (g', w')) =>
      g' = g /\
      ((path_exists path w = true /\
        (e = Exception_ "Failed to clean workspace directory"
         \/ e = Exception_ "Directory still exists after deletion"))
       \/ exists w0, clone_from repo_url path w0 = (Raise e, w'))
  end.
Proof.
  intros path.
  pose proof (clone_repo_cases repo_url g w) as Hcases. cbv zeta in Hcases.
  fold path in Hcases.
  destruct (GitHandler.clone_repo repo_url (g, w)) as [[p|e] [g' w']];
    [exact Logic.I|exact Hcases].
Qed.

End Clone.

Lemma X12_demo_clone_witness :
  GitHandler.clone_repo "https://github.com/acme/demo.git/"
    (GitHandler.__init__ "/workspace",
     {| files := ∅; outside := Lab.demo_outside |})
  = (Ok "/workspace/demo",
     ({| GitHandler.workspace_dir := "/workspace";
         GitHandler.repo := Some "/workspace/demo";
         GitHandler.repo_path := Some "/workspace/demo" |},
      {| files := Lab.demo_files; outside := Lab.demo_outside |})) /\
  GitHandler.get_repo_name
    {| GitHandler.workspace_dir := "/workspace";
       GitHandler.repo := Some "/workspace/demo";
       GitHandler.repo_path := Some "/workspace/demo" |}
  = checkout_name "https://github.com/acme/demo.git/".
Proof.
  assert (GitHandler.clone_repo "https://github.com/acme/demo.git/"
            (GitHandler.__init__ "/workspace",
             {| files := ∅; outside := Lab.demo_outside |})
          = (Ok "/workspace/demo",
             ({| GitHandler.workspace_dir := "/workspace";
                 GitHandler.repo := Some "/workspace/demo";
                 GitHandler.repo_path := Some "/workspace/demo" |},
              {| files := Lab.demo_files; outside := Lab.demo_outside |})))
    as Hclone by (vm_compute; reflexivity).
  split; [exact Hclone|].
  apply (X12_get_repo_name_gives_back_the_name_of_the_clone _ _ _ _ _ _ Hclone).
  discriminate.
Defined.
(** ** The sandbox service *)

Section Sandbox.
Variable Y : Type.
Variable run :
  list string -> string -> Z -> Y ->
  (agent_server.process_error + CompletedProcess) * Y.
Variable host_exists : string -> Y -> bool.
Variable make_tmpdir : Y -> string * Y.
Variable cleanup : string -> Y -> Y.
Variable env_token : option string.

(** [run_tests], past the check of the token, by its parts. *)
Lemma run_tests_parts (req : agent_server.RunTestsRequest)
    (header : option string) (y : Y) :
  let tmpdir := fst (make_tmpdir y) in
  let repo_path := Py.path_join tmpdir "repo" in
  agent_server._check_auth Y env_token header y = (Ok tt, y) ->
  agent_server.run_tests Y run host_exists make_tmpdir cleanup env_token
    req header y
  = match run (clone_command req tmpdir) tmpdir 60 (snd (make_tmpdir y)) with
    | (inl agent_server.Expired, y2) =>
        (Ok {| reply_stdout := "";
               reply_stderr := "git clone timed out";
               reply_returncode := 1;
               reply_timed_out := true;
               reply_project_type := "unknown" |}, cleanup tmpdir y2)
    | (inl (agent_server.Failed msg), y2) =>
        (Raise (Exception_ msg), cleanup tmpdir y2)
    | (inr _, y2) =>
        let project_type := detected_type Y host_exists repo_path y2 in
        match test_phase Y run host_exists req repo_path project_type y2 with
        | (Ok result, y3) =>
            (Ok {| reply_stdout := stdout result;
                   reply_stderr := stderr result;
                   reply_returncode := returncode result;
                   reply_timed_out := false;
                   reply_project_type := project_type |}, cleanup tmpdir y3)
        | (Raise TimeoutExpired, y3) =>
            (Ok {| reply_stdout := "";
                   reply_stderr := "test execution timed out";
                   reply_returncode := 1;
                   reply_timed_out := true;
                   reply_project_type := project_type |}, cleanup tmpdir y3)
        | (Raise e, y3) => (Raise e, cleanup tmpdir y3)
        end
    end.
Proof.
  intros tmpdir repo_path Hauth. subst tmpdir repo_path.
  unfold agent_server.run_tests. unfold bindS at 1. rewrite Hauth.
  unfold agent_server.with_tmpdir.
  destruct (make_tmpdir y) as [dir y1]. cbn [fst snd].
  fold (clone_command req dir).
  unfold detected_type, test_phase.
  unfold bindS, try_except, ret, only_timeout, agent_server._run_cmd.
  destruct (run (clone_command req dir) dir 60 y1) as [[[|msg]|done] y2];
    cbn [negb]; try reflexivity.
  cbv zeta.
  repeat (cbv beta iota;
          match goal with
          | |- context [host_exists ?p ?w] => destruct (host_exists p w)
          | |- context [run ?c ?d ?t ?w] =>
              destruct (run c d t w) as [[[|?]|?] ?]
          end;
          cbn [String.eqb Ascii.eqb Bool.eqb andb]);
    reflexivity.
Qed.

Lemma detected_type_cases (repo_path : string) (y : Y) :
  detected_type Y host_exists repo_path y = "javascript"
  \/ detected_type Y host_exists repo_path y = "python"
  \/ detected_type Y host_exists repo_path y = "unknown".
Proof.
  unfold detected_type.
  destruct (host_exists _ y); [now left|].
  destruct (host_exists _ y); [right; now left|right; now right].
Qed.

End Sandbox.

(** X14. Once the request is let in, [POST /run-tests] turns a timeout
    into an answer: when the clone runs out of time the answer has
    [timed_out] set, no output, the return code 1, the words git clone timed
    out and the project type [unknown]; when the clone ends and a command
    of the test phase runs out of time, the answer has [timed_out] set, no
    output, the return code 1, the words test execution timed out and the
    project type detected in the clone.  The handler never fails with a
    timeout, no other answer has [timed_out] set, the project type of an
    answer is always one of [javascript], [python] and [unknown], and the
    temporary directory is removed however the handler ends. *)
Theorem X14_sandbox_timeouts_become_answers
    (Y : Type)
    (run : list string -> string -> Z -> Y ->
           (agent_server.process_error + CompletedProcess) * Y)
    (host_exists : string -> Y -> bool)
    (make_tmpdir : Y -> string * Y) (cleanup : string -> Y -> Y)
    (env_token : option string)
    (req : agent_server.RunTestsRequest) (header : option string) (y : Y) :
  let served :=
    agent_server.run_tests Y run host_exists make_tmpdir cleanup env_token
      req header y in
  let tmpdir := fst (make_tmpdir y) in
  let repo_path := Py.path_join tmpdir "repo" in
  let cloning :=
    run (clone_command req tmpdir) tmpdir 60 (snd (make_tmpdir y)) in
  agent_server._check_auth Y env_token header y = (Ok tt, y) ->
  (forall y2,
     cloning = (inl agent_server.Expired, y2) ->
     served
     = (Ok {| reply_stdout := "";
              reply_stderr := "git clone timed out";
              reply_returncode := 1;
              reply_timed_out := true;
              reply_project_type := "unknown" |}, cleanup tmpdir y2)) /\
  (forall done y2 y3,
     cloning = (inr done, y2) ->
     test_phase Y run host_exists req repo_path
       (detected_type Y host_exists repo_path y2) y2
     = (Raise TimeoutExpired, y3) ->
     served
     = (Ok {| reply_stdout := "";
              reply_stderr := "test execution timed out";
              reply_returncode := 1;
              reply_timed_out := true;
              reply_project_type := detected_type Y host_exists repo_path y2 |},
        cleanup tmpdir y3)) /\
  match fst served with
  | Raise e => e <> TimeoutExpired
  | Ok reply =>
      (reply_project_type reply = "javascript"
       \/ reply_project_type reply = "python"
       \/ reply_project_type reply = "unknown") /\
      (reply_timed_out reply = true ->
       (exists y2, cloning = (inl agent_server.Expired, y2))
       \/ (exists done y2 y3,
             cloning = (inr done, y2) /\
             test_phase Y run host_exists req repo_path
               (detected_type Y host_exists repo_path y2) y2
             = (Raise TimeoutExpired, y3)))
  end /\
  exists y', snd served = cleanup tmpdir y'.
Proof.
  intros served tmpdir repo_path cloning Hauth.
  unfold served.
  rewrite (run_tests_parts Y run host_exists make_tmpdir cleanup env_token
             req header y Hauth).
  fold tmpdir repo_path cloning.
  destruct cloning as [[[|msg]|done] y2].
  - split; [now intros ? [= <-]|]. split; [discriminate|].
    split; [|now eexists]. cbn [fst]. split; [right; now right|].
    intros _. left. now eexists.
  - split; [discriminate|]. split; [discriminate|].
    split; [discriminate|now eexists].
  - split; [discriminate|]. cbv zeta.
    split.
    { intros done' y2' y3 [= <- <-] Htest. now rewrite Htest. }
    pose proof (detected_type_cases Y host_exists repo_path y2) as Htype.
    destruct (test_phase Y run host_exists req repo_path
                (detected_type Y host_exists repo_path y2) y2)
      as [[result|e] y3] eqn:Htest.
    + split; [|now eexists]. cbn [fst]. split; [exact Htype|discriminate].
    + destruct e; (split; [|now eexists]); cbn [fst]; try discriminate.
      split; [exact Htype|]. intros _. right.
      eexists _, _, _. split; [reflexivity|exact Htest].
Qed.

Lemma X14_slow_host_witness :
  agent_server._check_auth Lab.Host None None Lab.slow_host
  = (Ok tt, Lab.slow_host) /\
  agent_server.run_tests Lab.Host Lab.host_run Lab.host_exists Lab.host_tmpdir
    Lab.host_cleanup None Lab.demo_request None Lab.slow_host
  = (Ok {| reply_stdout := "";
           reply_stderr := "test execution timed out";
           reply_returncode := 1;
           reply_timed_out := true;
           reply_project_type := "unknown" |},
     {| Lab.host_runs := []; Lab.host_paths := [] |}).
Proof.
  split; [reflexivity|].
  exact (proj1 (proj2 (X14_sandbox_timeouts_become_answers Lab.Host
                         Lab.host_run Lab.host_exists Lab.host_tmpdir
                         Lab.host_cleanup None Lab.demo_request None
                         Lab.slow_host eq_refl))
           Lab.silent
           {| Lab.host_runs := [inl agent_server.Expired];
              Lab.host_paths := [] |}
           {| Lab.host_runs := []; Lab.host_paths := [] |}
           eq_refl eq_refl).
Defined.

(** ** The orchestrator *)

(** *** What a round of fixes records *)

Section Outcomes.
Context {X : Type} `{Primitives X} `{AppModules X}.
Variable cfg : DockerRunner.Config.

Local Abbreviation St := (DockerRunner.t * World X)%type.

Lemma fixer_loop_invariant (p : option string) :
  loop_invariant (fun self => DockerRunner.fixer self = p).
Proof. repeat split; intros; assumption. Qed.

Lemma successful_app (a b : list FixResult) :
  DockerRunner.successful (a ++ b)
  = DockerRunner.successful a + DockerRunner.successful b.
Proof.
  induction a as [|f a IH]; [reflexivity|].
  cbn [app DockerRunner.successful]. destruct (String.eqb _ _); lia.
Qed.

(** One failure: the answer of [_apply_and_commit_fix] and the outcome it
    records, if any. *)
Lemma apply_and_commit_fix_outcome (error : ErrorInfo) (s : St)
    (repo_path : string) :
  DockerRunner.fixer (fst s) = Some repo_path ->
  exists fixed s' added,
    DockerRunner._apply_and_commit_fix cfg error s = (Ok fixed, s') /\
    DockerRunner.fixer (fst s') = Some repo_path /\
    DockerRunner.fixes (fst s') = (DockerRunner.fixes (fst s) ++ added)%list /\
    ((fixed = true /\ exists message, added = [outcome_of error message "Fixed"])
     \/ (fixed = false /\ added = [outcome_of error "" "Failed"])
     \/ (fixed = false /\ added = [])).
Proof.
  intros Hfixer.
  pose proof (stays_apply_and_commit_fix cfg _
                (fixer_loop_invariant (Some repo_path)) error s Hfixer) as Hkeep.
  destruct (FixEngine.apply_fix typing_set_order repo_path error
              (files (snd s))) as [success fs'] eqn:Hfix.
  destruct (attempt_result cfg error s repo_path success fs' Hfixer Hfix)
    as (s1 & Hattempt & _).
  destruct success.
  - destruct (commit_of error s1) as [[message|e] s2] eqn:Hcommit.
    + destruct (fix_committed cfg error s s1 message s2 Hattempt Hcommit)
        as (s' & Hrun & Hfixes).
      unfold wp in Hkeep. rewrite Hrun in Hkeep.
      exists true, s', [outcome_of error message "Fixed"].
      repeat split; try assumption. left. split; [reflexivity|now exists message].
    + destruct (commit_refused cfg error s s1 e s2 Hattempt Hcommit)
        as (Hrun & Hfixes).
      unfold wp in Hkeep. rewrite Hrun in Hkeep.
      exists false, s2, []. rewrite app_nil_r.
      repeat split; try assumption. right. right. now split.
  - destruct (fix_declined cfg error s s1 Hattempt) as (s' & Hrun & Hfixes).
    unfold wp in Hkeep. rewrite Hrun in Hkeep.
    exists false, s', [outcome_of error "" "Failed"].
    repeat split; try assumption. right. left. now split.
Qed.

Lemma apply_fixes_outcomes (errors : list ErrorInfo) (fixed_count : Z)
    (s : St) (repo_path : string) :
  DockerRunner.fixer (fst s) = Some repo_path ->
  exists total s' added,
    DockerRunner.apply_fixes cfg errors fixed_count s = (Ok total, s') /\
    DockerRunner.fixes (fst s') = (DockerRunner.fixes (fst s) ++ added)%list /\
    (length added <= length errors)%nat /\
    total = fixed_count + DockerRunner.successful added /\
    Forall (fun outcome =>
              exists error,
                In error errors /\
                ((exists message, outcome = outcome_of error message "Fixed")
                 \/ outcome = outcome_of error "" "Failed")) added.
Proof.
  revert fixed_count s. induction errors as [|error errors IH];
    intros fixed_count s Hfixer; cbn [DockerRunner.apply_fixes].
  - exists fixed_count, s, []. rewrite app_nil_r. cbn [DockerRunner.successful].
    split; [reflexivity|]. split; [reflexivity|]. split; [simpl; lia|].
    split; [lia|constructor].
  - destruct (apply_and_commit_fix_outcome error s repo_path Hfixer)
      as (fixed & s1 & first & Hrun & Hfixer1 & Hfixes1 & Hcases).
    destruct (IH (if fixed then fixed_count + 1 else fixed_count) s1 Hfixer1)
      as (total & s' & more & Hrest & Hfixes & Hlen & Htotal & Hall).
    exists total, s', (first ++ more)%list.
    assert (Forall (fun outcome =>
                      exists error0,
                        In error0 (error :: errors) /\
                        ((exists message,
                            outcome = outcome_of error0 message "Fixed")
                         \/ outcome = outcome_of error0 "" "Failed")) more)
      as Hmore.
    { eapply Forall_impl; [exact Hall|].
      intros outcome (error0 & Hin & Hshape). exists error0.
      split; [now right|exact Hshape]. }
    split; [unfold bindS; now rewrite Hrun|].
    split; [now rewrite Hfixes, Hfixes1, app_assoc|].
    rewrite successful_app, length_app.
    destruct Hcases as [(-> & message & ->)|[(-> & ->)|(-> & ->)]];
      cbn [length DockerRunner.successful outcome_of fix_status String.eqb
             Ascii.eqb Bool.eqb app] in *.
    + split; [lia|]. split; [lia|].
      constructor; [|exact Hmore]. exists error. split; [now left|].
      left. now exists message.
    + split; [lia|]. split; [lia|].
      constructor; [|exact Hmore]. exists error. split; [now left|now right].
    + split; [lia|]. split; [lia|exact Hmore].
Qed.

End Outcomes.

(** X16. A round of fixes always comes to its end, and what it returns is
    what it recorded: with a fixer in place, [apply_fixes] returns for every
    list of failures; the outcomes it appends to the runner's list are at
    most one per failure, each made from one of the failures, Fixed with the
    message of its commit or Failed with an empty message; and the count it
    returns is the count it was given plus the number of Fixed outcomes it
    appended. *)
Theorem X16_a_round_of_fixes_returns_the_count_of_its_fixed_outcomes
    (X : Type) (P : Primitives X) (M : AppModules X)
    (cfg : DockerRunner.Config) (errors : list ErrorInfo) (fixed_count : Z)
    (s : DockerRunner.t * World X) :
  DockerRunner.fixer (fst s) <> None ->
  exists total s' added,
    DockerRunner.apply_fixes cfg errors fixed_count s = (Ok total, s') /\
    DockerRunner.fixes (fst s') = (DockerRunner.fixes (fst s) ++ added)%list /\
    (length added <= length errors)%nat /\
    total = fixed_count + DockerRunner.successful added /\
    Forall (fun outcome =>
              exists error,
                In error errors /\
                ((exists message, outcome = outcome_of error message "Fixed")
                 \/ outcome = outcome_of error "" "Failed")) added.
Proof.
  intros Hfixer.
  destruct (DockerRunner.fixer (fst s)) as [repo_path|] eqn:Hp;
    [|contradiction].
  now apply (apply_fixes_outcomes cfg errors fixed_count s repo_path).
Qed.

Lemma X16_two_failures_witness :
  exists total s' added,
    DockerRunner.apply_fixes Lab.local_config
      [Lab.fault_at 3; Lab.division_by_zero] 0 (Lab.cloned Lab.demo_outside)
    = (Ok total, s') /\
    DockerRunner.fixes (fst s')
    = (DockerRunner.fixes (fst (Lab.cloned Lab.demo_outside)) ++ added)%list /\
    (length added <= length [Lab.fault_at 3; Lab.division_by_zero])%nat /\
    total = 0 + DockerRunner.successful added /\
    Forall (fun outcome =>
              exists error,
                In error [Lab.fault_at 3; Lab.division_by_zero] /\
                ((exists message, outcome = outcome_of error message "Fixed")
                 \/ outcome = outcome_of error "" "Failed")) added.
Proof.
  apply (X16_a_round_of_fixes_returns_the_count_of_its_fixed_outcomes
           Lab.Outside Lab.lab_primitives Lab.lab_modules Lab.local_config
           [Lab.fault_at 3; Lab.division_by_zero] 0
           (Lab.cloned Lab.demo_outside)).
  discriminate.
Defined.

(** *** The virtual environment *)


(** *** Runs *)

Section Runs.
Context {X : Type} `{Primitives X} `{AppModules X}.
Variable cfg : DockerRunner.Config.

Local Abbreviation St := (DockerRunner.t * World X)%type.

(** A run without a budget never reaches the tests. *)
Lemma run_without_budget (s : St) :
  DockerRunner.max_retries cfg <= 0 ->
  DockerRunner.fixes (fst s) = [] ->
  DockerRunner.iterations (fst s) = 0 ->
  DockerRunner.total_failures (fst s) = 0 ->
  wp (DockerRunner.run cfg)
    (fun report _ =>
       iterations report = 0 /\ fixes report = [] /\ total_fixes report = 0 /\
       total_failures report = 0 /\ status report = "FAILED")
    (fun _ _ => True) s.
Proof.
  intros Hbudget Hfixes Hiterations Hfailures.
  unfold DockerRunner.run, DockerRunner._detect_project_type,
    DockerRunner._create_venv, DockerRunner._install_dependencies,
    DockerRunner._save_results.
  replace (Z.to_nat (DockerRunner.max_retries cfg)) with O by lia.
  cbn [DockerRunner.fix_loop].
  repeat (wp_step; try exact Logic.I).
  all: unfold DockerRunner._generate_response;
    cbn [models.iterations models.fixes models.total_fixes
           models.total_failures models.status DockerRunner.iterations
           DockerRunner.fixes DockerRunner.total_failures
           DockerRunner.set_branch_name DockerRunner.set_git_handler
           DockerRunner.set_venv DockerRunner.set_project
           DockerRunner.set_fixer];
    rewrite ?Hfixes, ?Hiterations, ?Hfailures; now repeat split.
Qed.

End Runs.

(** X17. With a budget of zero or less a run never starts the tests: if
    it returns, its report counts no iteration, no failure and no fix, lists
    no outcome, and has the status FAILED. *)
Theorem X17_a_run_without_budget_reports_failed
    (X : Type) (P : Primitives X) (M : AppModules X)
    (cfg : DockerRunner.Config) (w : World X) (report : AgentResponse)
    (s' : DockerRunner.t * World X) :
  DockerRunner.max_retries cfg <= 0 ->
  DockerRunner.run cfg (DockerRunner.__init__ cfg, w) = (Ok report, s') ->
  iterations report = 0 /\ fixes report = [] /\ total_fixes report = 0 /\
  total_failures report = 0 /\ status report = "FAILED".
Proof.
  intros Hbudget Hrun.
  exact (wp_result _ _ _ _ _ _ Hrun
           (run_without_budget cfg (DockerRunner.__init__ cfg, w) Hbudget
              eq_refl eq_refl eq_refl)).
Qed.

Lemma X17_no_budget_witness :
  let run :=
    DockerRunner.run (Lab.demo_config 0 "")
      (Lab.start (Lab.demo_config 0 "") Lab.two_faults_then_green) in
  exists report,
    run = (Ok report, snd run) /\
    iterations report = 0 /\ fixes report = [] /\ total_fixes report = 0 /\
    total_failures report = 0 /\ status report = "FAILED".
Proof.
  eexists. split; [vm_compute; reflexivity|].
  apply (X17_a_run_without_budget_reports_failed Lab.Outside
           Lab.lab_primitives Lab.lab_modules (Lab.demo_config 0 "")
           {| files := ∅; outside := Lab.two_faults_then_green |} _
           (snd (DockerRunner.run (Lab.demo_config 0 "")
                   (Lab.start (Lab.demo_config 0 "")
                      Lab.two_faults_then_green)))).
  - vm_compute. discriminate.
  - vm_compute. reflexivity.
Defined.

(** *** What the repair loop keeps *)

Section LoopKeeps.
Context {X : Type} `{Primitives X} `{AppModules X}.
Variable cfg : DockerRunner.Config.
Variable I : DockerRunner.t -> Prop.
Hypothesis Hloop : loop_invariant I.
Hypothesis Hcount : forall n self, I self -> I (DockerRunner.set_iterations n self).

Local Abbreviation St := (DockerRunner.t * World X)%type.

Lemma stays_iteration_body iteration branch_name repo_path :
  stays I (DockerRunner.iteration_body cfg iteration branch_name repo_path).
Proof.
  intros s Hs. unfold DockerRunner.iteration_body.
  wp_step. wp_step. wp_step. wp_step. wp_step.
  match goal with
  | |- wp _ (fun _ s' => wp ?rest ?Q ?E s') _ _ =>
      assert (forall s1 : St, I (fst s1) -> wp rest Q E s1) as Hrest
  end.
  { intros s1 Hs1. wp_step.
    eapply wp_mono; [apply (stays_run_tests cfg I repo_path s1 Hs1)| |auto].
    intros out s2 Hs2. cbn beta. wp_step. wp_step.
    destruct (parse_errors out repo_path (snd s2)) as [|error errors].
    - repeat wp_step. exact Hs2.
    - do 7 wp_step.
      eapply wp_mono;
        [apply (stays_apply_fixes cfg I Hloop (error :: errors) 0)| |auto].
      + destruct Hloop as (_ & _ & Ht). now apply Ht.
      + intros n s3 Hs3. cbn beta. repeat wp_step; exact Hs3. }
  destruct (DockerRunner.remote cfg).
  - wp_step.
    eapply wp_mono; [apply (stays_in_git I Hloop)| |auto].
    + now apply Hcount.
    + intros pushed s1 Hs1. cbn beta. destruct pushed.
      * wp_step. now apply Hrest.
      * repeat wp_step. exact Hs1.
  - wp_step. apply Hrest. now apply Hcount.
Qed.

Lemma stays_fix_loop todo iteration branch_name repo_path :
  stays I (DockerRunner.fix_loop cfg todo iteration branch_name repo_path).
Proof.
  revert iteration. induction todo as [|todo IH]; intros iteration s Hs;
    cbn [DockerRunner.fix_loop].
  - now wp_step.
  - wp_step.
    eapply wp_mono; [apply (stays_iteration_body _ _ _ s Hs)| |auto].
    intros go_on s1 Hs1. cbn beta. destruct go_on; [now apply IH|now wp_step].
Qed.

End LoopKeeps.

Section RemoteRuns.
Context {X : Type} `{Primitives X} `{AppModules X}.
Variable cfg : DockerRunner.Config.

Local Abbreviation St := (DockerRunner.t * World X)%type.

(** The runner has no virtual environment. *)
Let bare (self : DockerRunner.t) : Prop :=
  DockerRunner.venv_path self = None /\ DockerRunner.venv_python self = None.

Lemma bare_loop_invariant : loop_invariant bare.
Proof.
  unfold loop_invariant.
  split; [|split]; intros ? ? [? ?]; split; assumption.
Qed.

Lemma bare_whatever_the_count (n : Z) (self : DockerRunner.t) :
  bare self -> bare (DockerRunner.set_iterations n self).
Proof. intros [? ?]. split; assumption. Qed.

Lemma remote_run_stays_bare (s : St) :
  DockerRunner.remote cfg = true ->
  bare (fst s) ->
  wp (DockerRunner.run cfg) (fun _ s' => bare (fst s'))
    (fun _ s' => bare (fst s')) s.
Proof.
  intros Hremote Hs.
  unfold DockerRunner.run, DockerRunner._detect_project_type,
    DockerRunner._save_results.
  rewrite Hremote. cbn [negb andb].
  repeat (wp_step; try exact Hs).
  all: eapply wp_mono;
    [apply (stays_fix_loop cfg bare bare_loop_invariant
              bare_whatever_the_count); exact Hs
    |intros ? s1 Hs1; cbn beta in Hs1 |- *
    |intros ? s1 Hs1; exact Hs1].
  all: repeat (wp_step; try exact Hs1).
Qed.

End RemoteRuns.

(** X18. With a sandbox configured, a run makes no virtual environment: a
    runner that starts without one is without one when the run ends,
    whether it returns a report or raises. *)
Theorem X18_a_sandboxed_run_makes_no_virtual_environment
    (X : Type) (P : Primitives X) (M : AppModules X)
    (cfg : DockerRunner.Config) (w : World X)
    (result : Res AgentResponse) (s' : DockerRunner.t * World X) :
  DockerRunner.sandbox_url cfg <> "" ->
  DockerRunner.run cfg (DockerRunner.__init__ cfg, w) = (result, s') ->
  DockerRunner.venv_path (fst s') = None /\
  DockerRunner.venv_python (fst s') = None.
Proof.
  intros Hurl Hrun.
  assert (DockerRunner.remote cfg = true) as Hremote.
  { unfold DockerRunner.remote.
    destruct (String.eqb_spec (DockerRunner.sandbox_url cfg) "");
      [contradiction|reflexivity]. }
  pose proof (wp_result _ _ _ _ _ _ Hrun
                (remote_run_stays_bare cfg (DockerRunner.__init__ cfg, w)
                   Hremote (conj eq_refl eq_refl))) as Hend.
  now destruct result.
Qed.

Lemma X18_sandboxed_run_witness :
  let run :=
    DockerRunner.run Lab.sandbox_config
      (Lab.start Lab.sandbox_config Lab.sandbox_timed_out) in
  DockerRunner.venv_path (fst (snd run)) = None /\
  DockerRunner.venv_python (fst (snd run)) = None.
Proof.
  apply (X18_a_sandboxed_run_makes_no_virtual_environment Lab.Outside
           Lab.lab_primitives Lab.lab_modules Lab.sandbox_config
           {| files := ∅; outside := Lab.sandbox_timed_out |}
           (fst (DockerRunner.run Lab.sandbox_config
                   (Lab.start Lab.sandbox_config Lab.sandbox_timed_out)))).
  - discriminate.
  - apply surjective_pairing.
Defined.

(** *** The report and the branch *)

Section Reports.
Context {X : Type} `{Primitives X} `{AppModules X}.
Variable cfg : DockerRunner.Config.

Local Abbreviation St := (DockerRunner.t * World X)%type.

Lemma on_branch_loop_invariant (b : string) :
  loop_invariant (fun self => DockerRunner.branch_name self = Some b).
Proof. unfold loop_invariant. split; [|split]; intros; assumption. Qed.

Lemma in_git_result {A} (c : ST (GitHandler.t * World X) A) (s s' : St)
    (r : Res A) :
  DockerRunner.in_git c s = (r, s') ->
  exists g',
    c (DockerRunner.git_handler (fst s), snd s) = (r, (g', snd s')).
Proof.
  unfold DockerRunner.in_git.
  destruct (c _) as [r' [g' w']]. intros [= <- <-]. now exists g'.
Qed.

(** The report of a run names the branch the run created and left the
    runner on. *)
Lemma run_reports_its_branch (s : St) :
  wp (DockerRunner.run cfg)
    (fun report s' =>
       exists b,
         Py.startswith
           (GitHandler._format_branch_name (DockerRunner.team cfg)
              (DockerRunner.leader cfg)) b = true /\
         DockerRunner.branch_name (fst s') = Some b /\
         report = DockerRunner._generate_response cfg b (fst s'))
    (fun _ _ => True) s.
Proof.
  unfold DockerRunner.run.
  do 13 (apply wp_bind; apply wp_any; [intros ? ?|intros; exact Logic.I]).
  match goal with |- wp _ _ _ ?st => generalize st end. intros s0.
  wp_step.
  eapply wp_mono; [apply wp_evident| |intros; exact Logic.I].
  intros b s1 Hcreated. cbn beta.
  assert (Py.startswith
            (GitHandler._format_branch_name (DockerRunner.team cfg)
               (DockerRunner.leader cfg)) b = true) as Hprefix.
  { destruct (in_git_result _ _ _ _ Hcreated) as [g' Hc].
    pose proof (create_branch_cases X _ (DockerRunner.team cfg)
                  (DockerRunner.leader cfg)
                  (DockerRunner.git_handler (fst s0)) (snd s0)) as Hcases.
    cbv zeta in Hcases. rewrite Hc in Hcases. now destruct Hcases as (_ & _ & ? & _). }
  wp_step. wp_step. wp_step. wp_step. wp_step.
  set (on_branch := fun self => DockerRunner.branch_name self = Some b).
  assert (forall s2 : St, on_branch (fst s2) ->
    wp (if DockerRunner.remote cfg
        then
          DockerRunner._emit_progress cfg "info"
            "Pushing branch for sandbox access..." None ;;
          pushed <- DockerRunner.in_git (GitHandler.push_branch b) ;;
          if pushed : bool then ret tt
          else raise (Exception_ "Failed to push branch for sandbox access")
        else ret tt)
      (fun _ s' => on_branch (fst s')) (fun _ _ => True) s2) as Hpush.
  { intros s2 Hs2. repeat (wp_step; try exact Logic.I); exact Hs2. }
  eapply wp_mono; [apply Hpush; reflexivity| |intros; exact Logic.I].
  intros ? s2 Hs2. cbn beta in Hs2 |- *. wp_step.
  eapply wp_mono;
    [apply (stays_fix_loop cfg on_branch (on_branch_loop_invariant b));
     [intros; assumption|exact Hs2]
    | |intros; exact Logic.I].
  intros ? s3 Hs3. cbn beta in Hs3 |- *.
  unfold DockerRunner._save_results.
  repeat (wp_step; try exact Logic.I).
  all: exists b; repeat split; assumption.
Qed.

End Reports.

(** X19. The report of a run agrees with the run: it names the repository
    of the run and the branch the run created, on which it leaves the
    runner, a branch whose name begins with the formatted team and leader;
    the outcomes, the count of iterations and the count of failures are the
    runner's; and the count of fixes is the number of Fixed outcomes listed,
    so between zero and the number of outcomes. *)
Theorem X19_the_report_agrees_with_the_run
    (X : Type) (P : Primitives X) (M : AppModules X)
    (cfg : DockerRunner.Config)
    (s s' : DockerRunner.t * World X) (report : AgentResponse) :
  DockerRunner.run cfg s = (Ok report, s') ->
  repo report = DockerRunner.repo_url cfg /\
  Py.startswith
    (GitHandler._format_branch_name (DockerRunner.team cfg)
       (DockerRunner.leader cfg)) (branch report) = true /\
  DockerRunner.branch_name (fst s') = Some (branch report) /\
  fixes report = DockerRunner.fixes (fst s') /\
  iterations report = DockerRunner.iterations (fst s') /\
  total_failures report = DockerRunner.total_failures (fst s') /\
  total_fixes report = DockerRunner.successful (fixes report) /\
  0 <= total_fixes report <= len (fixes report).
Proof.
  intros Hrun.
  destruct (wp_result _ _ _ _ _ _ Hrun (run_reports_its_branch cfg s))
    as (b & Hprefix & Hbranch & ->).
  cbn [DockerRunner._generate_response repo branch fixes iterations
         total_failures total_fixes].
  repeat split; try assumption; try reflexivity;
    apply successful_bounds.
Qed.

Lemma X19_green_report_witness :
  let run :=
    DockerRunner.run Lab.local_config
      (Lab.start Lab.local_config Lab.two_faults_then_green) in
  run = (Ok Lab.green_report, snd run) /\
  branch Lab.green_report = "ACME_ANA_AI_FIX" /\
  DockerRunner.branch_name (fst (snd run)) = Some (branch Lab.green_report) /\
  total_fixes Lab.green_report = DockerRunner.successful (fixes Lab.green_report).
Proof.
  assert (DockerRunner.run Lab.local_config
            (Lab.start Lab.local_config Lab.two_faults_then_green)
          = (Ok Lab.green_report,
             snd (DockerRunner.run Lab.local_config
                    (Lab.start Lab.local_config Lab.two_faults_then_green))))
    as Hrun by (vm_compute; reflexivity).
  destruct (X19_the_report_agrees_with_the_run Lab.Outside Lab.lab_primitives
              Lab.lab_modules Lab.local_config _ _ _ Hrun)
    as (_ & _ & Hbranch & _ & _ & _ & Hfixes & _).
  split; [exact Hrun|]. split; [reflexivity|]. split; [exact Hbranch|exact Hfixes].
Defined.
